(** * Tatvgya web client: a shallow embedding of the client-side logic

    The repository is a React front end.  What it computes lives in a few
    places: the fetch helpers of [lib/api.js], the authentication context,
    the route guard of [App.js], and the event handlers of the pages.  This
    development embeds those functions and states what they do.

    - JavaScript values are a small inductive type ([JS.value]).
    - An [async] function is a finite tree of effects ([Async.async]): it
      can await a [fetch], update component state, raise a toast, navigate,
      throw, or return.  A handler reads the values captured by the render
      that created it (its closure) and writes to the live component state.
    - Pure render helpers ([ProtectedRoute], [AppRouter], [formatNumber]) are
      plain functions. *)

From Stdlib Require Import ZArith List String Ascii Bool Lia.
From Stdlib Require Import DecimalString.
From Stdlib Require Import Floats.SpecFloat.
Import ListNotations.

Set Warnings "-register-all".

Local Open Scope string_scope.
Local Open Scope Z_scope.
Local Open Scope list_scope.

(* ===================================================================== *)
(** * JavaScript values *)
(* ===================================================================== *)

Module JS.

(** A value as the client handles it: what [response.json()] produces,
    plus [undefined].  Numbers carry an integer: every number the client
    computes with is a counter, a page index or a length.  An object is
    its list of own properties in insertion order, keys distinct. *)
Inductive value : Type :=
| VUndefined
| VNull
| VBool (b : bool)
| VNum (z : Z)
| VStr (s : string)
| VArr (items : list value)
| VObj (fields : list (string * value)).

(** ToBoolean. *)
Definition truthy (v : value) : bool :=
  match v with
  | VUndefined | VNull => false
  | VBool b => b
  | VNum z => negb (z =? 0)
  | VStr s => negb (s =? "")%string
  | VArr _ | VObj _ => true
  end.

(** [a || b] *)
Definition or_else (a b : value) : value := if truthy a then a else b.

Fixpoint lookup (name : string) (fields : list (string * value)) : option value :=
  match fields with
  | [] => None
  | (k, v) :: rest => if (k =? name)%string then Some v else lookup name rest
  end.

(** Property read [v.name] for a name that is not built in ([detail],
    [role], [article_id], ...): [None] stands for the TypeError raised
    on [null] and [undefined]; a missing property reads [undefined]. *)
Definition get (v : value) (name : string) : option value :=
  match v with
  | VUndefined | VNull => None
  | VObj fields =>
      match lookup name fields with
      | Some x => Some x
      | None => Some VUndefined
      end
  | _ => Some VUndefined
  end.

(** Optional chaining [v?.name]. *)
Definition get_opt (v : value) (name : string) : value :=
  match get v name with
  | Some x => x
  | None => VUndefined
  end.

(** Decimal text of an integer, as Number.prototype.toString prints
    integers below 10^21 in magnitude. *)
Definition decimal (z : Z) : string :=
  NilZero.string_of_int (Z.to_int z).

Definition join_with (sep : string) (parts : list string) : string :=
  match parts with
  | [] => ""
  | p :: rest => fold_left (fun acc q => (acc ++ sep ++ q)%string) rest p
  end.

(** ToString, as a template literal or [new Error(x)] applies it. *)
Fixpoint to_string (v : value) : string :=
  match v with
  | VUndefined => "undefined"
  | VNull => "null"
  | VBool true => "true"
  | VBool false => "false"
  | VNum z => decimal z
  | VStr s => s
  | VArr items =>
      join_with ","
        (map (fun x => match x with
                       | VUndefined | VNull => ""
                       | _ => to_string x
                       end) items)
  | VObj _ => "[object Object]"
  end.

(** Strict equality [v === s] against a string. *)
Definition strict_eq_str (v : value) (s : string) : bool :=
  match v with
  | VStr t => (t =? s)%string
  | _ => false
  end.

(** [Array.prototype.includes] on an array of string literals. *)
Definition includes_str (xs : list string) (v : value) : bool :=
  existsb (strict_eq_str v) xs.

Fixpoint is_prefix (p s : string) : bool :=
  match p, s with
  | EmptyString, _ => true
  | String a p', String b s' => Ascii.eqb a b && is_prefix p' s'
  | String _ _, EmptyString => false
  end.

(** [String.prototype.includes]. *)
Fixpoint includes (s needle : string) : bool :=
  is_prefix needle s ||
  match s with
  | EmptyString => false
  | String _ s' => includes s' needle
  end.

Fixpoint chars (s : string) : list value :=
  match s with
  | EmptyString => []
  | String c s' => VStr (String c EmptyString) :: chars s'
  end.

(** Spread [...v] inside an array literal: arrays and strings are
    iterable, everything else raises a TypeError ([None]). *)
Definition spread (v : value) : option (list value) :=
  match v with
  | VArr items => Some items
  | VStr s => Some (chars s)
  | _ => None
  end.

(** [v.length]; [None] is the TypeError on [null] / [undefined]. *)
Definition length_of (v : value) : option value :=
  match v with
  | VUndefined | VNull => None
  | VArr items => Some (VNum (Z.of_nat (List.length items)))
  | VStr s => Some (VNum (Z.of_nat (String.length s)))
  | VObj fields =>
      match lookup "length" fields with
      | Some x => Some x
      | None => Some VUndefined
      end
  | _ => Some VUndefined
  end.

(** [v === n] against a number literal. *)
Definition strict_eq_num (v : value) (n : Z) : bool :=
  match v with
  | VNum z => z =? n
  | _ => false
  end.

(** [null] and [undefined]: the values on which a property read throws. *)
Definition nullish (v : value) : bool :=
  match v with
  | VUndefined | VNull => true
  | _ => false
  end.

(** The characters [encodeURIComponent] leaves as they are: letters,
    digits and [- _ . ! ~ * ' ( )]. *)
Definition unescaped (c : ascii) : bool :=
  let n := nat_of_ascii c in
  ((65 <=? n) && (n <=? 90) || (97 <=? n) && (n <=? 122)
   || (48 <=? n) && (n <=? 57))%nat
  || existsb (Ascii.eqb c)
       ["-"; "_"; "."; "!"; "~"; "*"; "'"; "("; ")"]%char.

Definition hex_digit (n : nat) : ascii :=
  nth n ["0"; "1"; "2"; "3"; "4"; "5"; "6"; "7"; "8"; "9";
         "A"; "B"; "C"; "D"; "E"; "F"]%char "0"%char.

(** One octet of the UTF-8 encoding, written [%XX]. *)
Definition percent (octet : nat) : string :=
  String "%" (String (hex_digit (octet / 16)%nat)
             (String (hex_digit (octet mod 16)%nat) EmptyString)).

(** [encodeURIComponent(s)], character by character.  A character of a
    string stands for a UTF-16 code unit below 256: an escaped one below
    128 is one octet of UTF-8, one from 128 on is two. *)
Definition escape (c : ascii) : string :=
  let n := nat_of_ascii c in
  if unescaped c then String c EmptyString
  else if (n <? 128)%nat then percent n
  else (percent (192 + n / 64)%nat ++ percent (128 + n mod 64)%nat)%string.

Fixpoint encodeURIComponent (s : string) : string :=
  match s with
  | EmptyString => EmptyString
  | String c rest => (escape c ++ encodeURIComponent rest)%string
  end.

End JS.

(* ===================================================================== *)
(** * Number formatting ([formatNumber] of the cards and dashboards) *)
(* ===================================================================== *)

Module Format.
Import JS.

(** IEEE 754 binary64, through the reference implementation of the
    standard library. *)
Definition prec : Z := 53.
Definition emax : Z := 1024.

Definition double_of_Z (z : Z) : spec_float :=
  binary_normalize prec emax z 0 false.

Definition div (x y : spec_float) : spec_float := SFdiv prec emax x y.

Definition MAX_SAFE_INTEGER : Z := 2 ^ 53 - 1.

Definition safe (z : Z) : bool := Z.abs z <=? MAX_SAFE_INTEGER.

(** The integer [n] for which [n / 10 - x] is closest to zero, the larger
    one on a tie (step 10 of Number.prototype.toFixed), for [x = m * 2^e]
    with [m > 0]. *)
Definition tenths (m : positive) (e : Z) : Z :=
  if 0 <=? e then 10 * Zpos m * 2 ^ e
  else (20 * Zpos m + 2 ^ (- e)) / 2 ^ (- e + 1).

(** [x.toFixed(1)] for a double below 10^21 in magnitude. *)
Definition toFixed1 (x : spec_float) : string :=
  match x with
  | S754_zero _ => "0.0"
  | S754_infinity false => "Infinity"
  | S754_infinity true => "-Infinity"
  | S754_nan => "NaN"
  | S754_finite s m e =>
      let n := tenths m e in
      let sign := if s then "-" else "" in
      (sign ++ decimal (n / 10) ++ "." ++ decimal (n mod 10))%string
  end.

(** ToNumber of the operand of [num >= k]; [None] is NaN. *)
Definition to_number (v : value) : option (option Z) :=
  match v with
  | VUndefined => Some None
  | VNull => Some (Some 0)
  | VBool b => Some (Some (if b then 1 else 0))
  | VNum z => Some (Some z)
  | _ => None
  end.

(** [num >= k]: false when [num] coerces to NaN. *)
Definition ge_num (n : option Z) (k : Z) : bool :=
  match n with
  | Some z => k <=? z
  | None => false
  end.

(** [num?.toString() || '0'] *)
Definition toString_or_zero (v : value) : string :=
  match v with
  | VUndefined | VNull => "0"
  | _ => to_string (or_else (VStr (to_string v)) (VStr "0"))
  end.

(** [(num / k).toFixed(1)] for a numeric [num]. *)
Definition scaled (z k : Z) : string :=
  toFixed1 (div (double_of_Z z) (double_of_Z k)).

(** The domain of the model: [undefined], [null], booleans and safe
    integers.  Strings, arrays and objects would need the string-to-number
    coercion and are outside it ([None]). *)
Definition numeric (v : value) : option (option Z) :=
  match v with
  | VNum z => if safe z then Some (Some z) else None
  | _ => to_number v
  end.

Module ArticleCard.
(** [const formatNumber = (num) => {
      if (num >= 1000000) return (num / 1000000).toFixed(1) + 'M';
      if (num >= 1000) return (num / 1000).toFixed(1) + 'K';
      return num?.toString() || '0'; }]
    (the same text in ArticleCard and EducatorProfile). *)
Definition formatNumber (num : value) : option string :=
  match numeric num with
  | None => None
  | Some n =>
      if ge_num n 1000000 then
        option_map (fun z => scaled z 1000000 ++ "M")%string n
      else if ge_num n 1000 then
        option_map (fun z => scaled z 1000 ++ "K")%string n
      else Some (toString_or_zero num)
  end.
End ArticleCard.

Module Dashboard.
(** [const formatNumber = (num) => {
      if (num >= 1000) return (num / 1000).toFixed(1) + 'K';
      return num?.toString() || '0'; }]
    (the same text in EducatorDashboard and AdminDashboard). *)
Definition formatNumber (num : value) : option string :=
  match numeric num with
  | None => None
  | Some n =>
      if ge_num n 1000 then
        option_map (fun z => scaled z 1000 ++ "K")%string n
      else Some (toString_or_zero num)
  end.
End Dashboard.

End Format.

(* ===================================================================== *)
(** * Asynchronous functions *)
(* ===================================================================== *)

Module Async.
Import JS.

(** What a [throw] carries.  The message of an error raised by the engine
    itself is written with V8's wording. *)
Inductive exn : Type :=
| Error (message : string)
| TypeError (message : string)
| SyntaxError (message : string).

Definition message_of (e : exn) : string :=
  match e with
  | Error m | TypeError m | SyntaxError m => m
  end.

Inductive result : Type :=
| Returned (v : value)
| Thrown (e : exn).

(** The second argument of [fetch], and what [apiCall] receives as
    [options].  [body] holds the value handed to [JSON.stringify]. *)
Record options : Type := mkOptions {
  method : option string;
  body : option value;
  extra_headers : list (string * string)
}.

Definition no_options : options :=
  {| method := None; body := None; extra_headers := [] |}.

(** A request as [fetch] receives it.  The URL is kept in parts: the path
    below [API_URL] and the entries given to [URLSearchParams]. *)
Record request : Type := mkRequest {
  path : string;
  query : list (string * value);
  req_method : option string;
  credentials : option string;
  headers : list (string * string);
  req_body : option value
}.

(** A response: [ok], and what [response.json()] settles to ([None] when
    the body is not JSON and the promise rejects). *)
Record response : Type := mkResponse {
  ok : bool;
  json : option value
}.

(** [fetch] either resolves with a response (of any status) or rejects
    (network failure). *)
Inductive fetch_result : Type :=
| Resolved (r : response)
| Rejected.

(** Synchronous effects on the page. *)
Inductive effect (S : Type) : Type :=
| Update (f : S -> S)
| ToastError (m : string)
| ToastSuccess (m : string)
| NavigateTo (to : string)
| ConsoleError (m : string).

Arguments Update {S} f.
Arguments ToastError {S} m.
Arguments ToastSuccess {S} m.
Arguments NavigateTo {S} to.
Arguments ConsoleError {S} m.

(** The body of an [async] function over component state [S]. *)
Inductive async (S : Type) : Type :=
| Ret (v : value)
| Throw (e : exn)
| Fetch (rq : request) (k : fetch_result -> async S)
| Do (a : effect S) (k : async S)
| All (ps : list (async S)) (k : result -> async S).

Arguments Ret {S} v.
Arguments Throw {S} e.
Arguments Fetch {S} rq k.
Arguments Do {S} a k.
Arguments All {S} ps k.

Section Combinators.
Context {S : Type}.

(** [const x = await p; f x] *)
Fixpoint bind (p : async S) (f : value -> async S) : async S :=
  match p with
  | Ret v => f v
  | Throw e => Throw e
  | Fetch rq k => Fetch rq (fun r => bind (k r) f)
  | Do a k => Do a (bind k f)
  | All ps k => All ps (fun r => bind (k r) f)
  end.

(** [try { p } catch (error) { h error }] *)
Fixpoint try_catch (p : async S) (h : exn -> async S) : async S :=
  match p with
  | Ret v => Ret v
  | Throw e => h e
  | Fetch rq k => Fetch rq (fun r => try_catch (k r) h)
  | Do a k => Do a (try_catch k h)
  | All ps k => All ps (fun r => try_catch (k r) h)
  end.

(** [try { p } finally { fin }] *)
Fixpoint try_finally (p : async S) (fin : async S) : async S :=
  match p with
  | Ret v => bind fin (fun _ => Ret v)
  | Throw e => bind fin (fun _ => Throw e)
  | Fetch rq k => Fetch rq (fun r => try_finally (k r) fin)
  | Do a k => Do a (try_finally k fin)
  | All ps k => All ps (fun r => try_finally (k r) fin)
  end.

(** A statement executed for its effect. *)
Definition exec (a : effect S) : async S := Do a (Ret VUndefined).

(** [const response = await fetch(rq); k response]: a rejected fetch
    throws. *)
Definition fetch (rq : request) (k : response -> async S) : async S :=
  Fetch rq (fun r =>
    match r with
    | Resolved resp => k resp
    | Rejected => Throw (TypeError "Failed to fetch")
    end).

(** [await response.json()] *)
Definition parse (resp : response) : async S :=
  match json resp with
  | Some v => Ret v
  | None => Throw (SyntaxError "Unexpected end of JSON input")
  end.

(** [await Promise.all(ps)] *)
Definition await_all (ps : list (async S)) : async S :=
  All ps (fun r =>
    match r with
    | Returned v => Ret v
    | Thrown e => Throw e
    end).

(** A property read that throws on [null] and [undefined]. *)
Definition read (v : value) (name : string) : async S :=
  match get v name with
  | Some x => Ret x
  | None => Throw (TypeError "Cannot read properties of null")
  end.
End Combinators.

(** What the page did, in order. *)
Inductive event : Type :=
| Fetched (rq : request)
| ToastedError (m : string)
| ToastedSuccess (m : string)
| Navigated (to : string)
| Logged (m : string).

Section Semantics.
Context {S : Type}.

Definition apply (a : effect S) (s : S) : S :=
  match a with
  | Update f => f s
  | _ => s
  end.

Definition trace_of (a : effect S) : list event :=
  match a with
  | Update _ => []
  | ToastError m => [ToastedError m]
  | ToastSuccess m => [ToastedSuccess m]
  | NavigateTo to => [Navigated to]
  | ConsoleError m => [Logged m]
  end.

(** The outcome of [Promise.all]: the array of results, or the first
    rejection (in argument order). *)
Fixpoint gather (rs : list result) : result :=
  match rs with
  | [] => Returned (VArr [])
  | Thrown e :: _ => Thrown e
  | Returned v :: rest =>
      match gather rest with
      | Returned (VArr vs) => Returned (VArr (v :: vs))
      | other => other
      end
  end.

(** The state, the trace and the outcome of a run. *)
Record outcome : Type := mkOutcome {
  final : S;
  trace : list event;
  settled : result
}.

Definition after (evs : list event) (o : outcome) : outcome :=
  {| final := final o; trace := evs ++ trace o; settled := settled o |}.

(** Run to completion against a backend that answers each request. *)
Fixpoint run (backend : request -> fetch_result) (p : async S) (s : S)
  : outcome :=
  match p with
  | Ret v => {| final := s; trace := []; settled := Returned v |}
  | Throw e => {| final := s; trace := []; settled := Thrown e |}
  | Fetch rq k => after [Fetched rq] (run backend (k (backend rq)) s)
  | Do a k => after (trace_of a) (run backend k (apply a s))
  | All ps k =>
      let fix run_all (ps : list (async S)) (s : S)
        : S * list event * list result :=
        match ps with
        | [] => (s, [], [])
        | p :: rest =>
            let o := run backend p s in
            let '(s', evs, rs) := run_all rest (final o) in
            (s', trace o ++ evs, settled o :: rs)
        end in
      let '(s', evs, rs) := run_all ps s in
      after evs (run backend (k (gather rs)) s')
  end.

(** The requests a run issued, in order. *)
Definition requests (o : outcome) : list request :=
  flat_map (fun e => match e with Fetched rq => [rq] | _ => [] end)
           (trace o).

(** Where a call stands once its synchronous part is over. *)
Inductive stage : Type :=
| Finished (r : result)
| Waiting (pending : list request).

(** Run the synchronous part only: up to the first [await] of a
    response.  The requests listed are in flight, no response has been
    delivered. *)
Fixpoint start (p : async S) (s : S) : S * list event * stage :=
  match p with
  | Ret v => (s, [], Finished (Returned v))
  | Throw e => (s, [], Finished (Thrown e))
  | Fetch rq _ => (s, [Fetched rq], Waiting [rq])
  | Do a k =>
      let '(s', evs, st) := start k (apply a s) in
      (s', trace_of a ++ evs, st)
  | All ps _ =>
      let fix start_all (ps : list (async S)) (s : S)
        : S * list event * list request :=
        match ps with
        | [] => (s, [], [])
        | p :: rest =>
            let '(s1, e1, st) := start p s in
            let '(s2, e2, rqs) := start_all rest s1 in
            (s2, e1 ++ e2,
             match st with Waiting l => l | Finished _ => [] end ++ rqs)
        end in
      let '(s', evs, rqs) := start_all ps s in
      (s', evs, Waiting rqs)
  end.
End Semantics.

Arguments outcome S : clear implicits.

Section PromiseAll.
Context {S : Type}.
Variable backend : request -> fetch_result.

(** The calls given to [Promise.all], run in argument order: the inner
    loop of [run], by name. *)
Fixpoint run_all (ps : list (async S)) (s : S)
  : S * list event * list result :=
  match ps with
  | [] => (s, [], [])
  | p :: rest =>
      let o := run backend p s in
      let '(s', evs, rs) := run_all rest (final o) in
      (s', trace o ++ evs, settled o :: rs)
  end.
End PromiseAll.

(** Run a function of a component inside a larger state ([get], [set]
    select the component's slot). *)
Fixpoint lift {S T : Type} (get : T -> S) (set : S -> T -> T)
  (p : async S) : async T :=
  match p with
  | Ret v => Ret v
  | Throw e => Throw e
  | Fetch rq k => Fetch rq (fun r => lift get set (k r))
  | Do a k =>
      Do (match a with
          | Update f => Update (fun t => set (f (get t)) t)
          | ToastError m => ToastError m
          | ToastSuccess m => ToastSuccess m
          | NavigateTo to => NavigateTo to
          | ConsoleError m => ConsoleError m
          end)
         (lift get set k)
  | All ps k => All (map (lift get set) ps) (fun r => lift get set (k r))
  end.

Declare Scope async_scope.
Delimit Scope async_scope with async.
Notation "x <- p ;; q" := (bind p (fun x => q))
  (at level 61, p at next level, right associativity) : async_scope.
Notation "p ;; q" := (bind p (fun _ => q))
  (at level 61, right associativity) : async_scope.

End Async.

(* ===================================================================== *)
(** * [lib/api.js] *)
(* ===================================================================== *)

Module Api.
Import JS Async.
Local Open Scope async_scope.

Definition json_content : string * string :=
  ("Content-Type", "application/json").

Definition POST : options :=
  {| method := Some "POST"; body := None; extra_headers := [] |}.

Definition DELETE : options :=
  {| method := Some "DELETE"; body := None; extra_headers := [] |}.

(** [fetch(url, { ...options, headers: { 'Content-Type': ..., ...} })] *)
Definition anonymous (endpoint : string) (params : list (string * value))
  (opts : options) : request :=
  {| path := endpoint; query := params; req_method := method opts;
     credentials := None;
     headers := json_content :: extra_headers opts;
     req_body := body opts |}.

(** The same with [credentials: 'include']. *)
Definition authenticated (endpoint : string) (params : list (string * value))
  (opts : options) : request :=
  {| path := endpoint; query := params; req_method := method opts;
     credentials := Some "include";
     headers := json_content :: extra_headers opts;
     req_body := body opts |}.

Section Calls.
Context {S : Type}.

(** [if (!response.ok) { const error = await response.json().catch(
      () => ({ detail: 'An error occurred' }));
      throw new Error(error.detail || 'Request failed'); }
    return response.json();] *)
Definition settle (resp : response) : async S :=
  if negb (ok resp) then
    let error :=
      match json resp with
      | Some v => v
      | None => VObj [("detail", VStr "An error occurred")]
      end in
    detail <- read error "detail" ;;
    Throw (Error (to_string (or_else detail (VStr "Request failed"))))
  else parse resp.

(** Helper for public API calls (no credentials). *)
Definition publicApiCall (endpoint : string) (params : list (string * value))
  (opts : options) : async S :=
  fetch (anonymous endpoint params opts) settle.

(** Helper for authenticated API calls. *)
Definition apiCall (endpoint : string) (params : list (string * value))
  (opts : options) : async S :=
  fetch (authenticated endpoint params opts) settle.

Definition getSubjects : async S := publicApiCall "/subjects" [] no_options.

Definition getArticles (params : list (string * value)) : async S :=
  apiCall "/articles/" params no_options.

Definition getArticle (idOrSlug : value) : async S :=
  apiCall ("/articles/" ++ to_string idOrSlug)%string [] no_options.

Definition getRelatedArticles (articleId : value) : async S :=
  apiCall ("/articles/related/" ++ to_string articleId)%string
          [("limit", VNum 4)] no_options.

Definition likeArticle (articleId : value) : async S :=
  apiCall ("/articles/" ++ to_string articleId ++ "/like")%string [] POST.

Definition bookmarkArticle (articleId : value) : async S :=
  apiCall ("/articles/" ++ to_string articleId ++ "/bookmark")%string
          [] POST.

Definition getEducator (id : value) : async S :=
  apiCall ("/educators/" ++ to_string id)%string [] no_options.

Definition getEducatorArticles (educatorId : value)
  (params : list (string * value)) : async S :=
  apiCall ("/educators/" ++ to_string educatorId ++ "/articles")%string
          params no_options.

Definition deleteArticle (articleId : string) : async S :=
  apiCall ("/educators/me/articles/" ++ articleId)%string [] DELETE.

Definition articleAction (articleId : string) (action : string)
  (reason : value) : async S :=
  apiCall ("/admin/articles/" ++ articleId ++ "/action")%string []
    {| method := Some "POST";
       body := Some (VObj [("action", VStr action); ("reason", reason)]);
       extra_headers := [] |}.
End Calls.
End Api.

(* ===================================================================== *)
(** * [context/AuthContext.js] *)
(* ===================================================================== *)

Module AuthContext.
Import JS Async.
Local Open Scope async_scope.

(** The state of [AuthProvider]. *)
Record State : Type := mkState {
  user : value;
  loading : bool
}.

Definition initial : State := {| user := VNull; loading := true |}.

Definition setUser (u : value) : effect State :=
  Update (fun s => {| user := u; loading := loading s |}).

(** What [useAuth()] hands to a component. *)
Definition isAuthenticated (s : State) : bool := truthy (user s).

(** [if (!response.ok) { const error = await response.json();
      throw new Error(error.detail || fallback); }] *)
Definition reject_unless_ok (fallback : string) (resp : response)
  : async State :=
  if negb (ok resp) then
    error <- parse resp ;;
    detail <- read error "detail" ;;
    Throw (Error (to_string (or_else detail (VStr fallback))))
  else Ret VUndefined.

Definition login (email password : string) : async State :=
  fetch {| path := "/auth/login"; query := [];
           req_method := Some "POST";
           credentials := Some "include";
           headers := [Api.json_content];
           req_body := Some (VObj [("email", VStr email);
                                   ("password", VStr password)]) |}
    (fun resp =>
       reject_unless_ok "Login failed" resp ;;
       data <- parse resp ;;
       u <- read data "user" ;;
       Do (setUser u) (Ret data)).

Definition register (name email password : string) : async State :=
  fetch {| path := "/auth/register"; query := [];
           req_method := Some "POST";
           credentials := None;
           headers := [Api.json_content];
           req_body := Some (VObj [("name", VStr name);
                                   ("email", VStr email);
                                   ("password", VStr password);
                                   ("role", VStr "student")]) |}
    (fun resp =>
       reject_unless_ok "Registration failed" resp ;;
       parse resp).

(** The URL is a template literal: the e-mail goes through
    [encodeURIComponent], the OTP is spliced in as typed. *)
Definition verifyOtp (email otpCode : string) : async State :=
  fetch {| path := ("/auth/verify-otp?email=" ++ encodeURIComponent email
                    ++ "&otp_code=" ++ otpCode)%string;
           query := [];
           req_method := Some "POST";
           credentials := Some "include";
           headers := [];
           req_body := None |}
    (fun resp =>
       reject_unless_ok "OTP verification failed" resp ;;
       data <- parse resp ;;
       u <- read data "user" ;;
       Do (setUser u) (Ret data)).
End AuthContext.

(* ===================================================================== *)
(** * [App.js]: the route guard and the router *)
(* ===================================================================== *)

Module App.
Import JS.

Inductive page : Type :=
| Home | Explore | Article | EducatorProfile | Login | AuthCallback
| Contact | About | Vision
| StudentDashboard | EducatorDashboard | ArticleEditor | AdminDashboard.

(** [useLocation()]; [hash] is read through [?.]. *)
Record location : Type := mkLocation {
  pathname : string;
  search : string;
  hash : option string
}.

(** What a component returns. *)
Inductive element : Type :=
| Spinner
| Navigate (to : string) (state : option location) (replace : bool)
| Show (p : page).

(** [const ProtectedRoute = ({ children, allowedRoles = [] }) => ...] *)
Definition ProtectedRoute (auth : AuthContext.State) (loc : location)
  (allowedRoles : list string) (children : element) : element :=
  if AuthContext.loading auth then Spinner
  else if negb (AuthContext.isAuthenticated auth) then
    Navigate "/login" (Some loc) true
  else if (0 <? Z.of_nat (List.length allowedRoles))
          && negb (includes_str allowedRoles
                     (get_opt (AuthContext.user auth) "role")) then
    Navigate "/" None true
  else children.

Definition lower (c : ascii) : ascii :=
  let n := nat_of_ascii c in
  if ((65 <=? n) && (n <=? 90))%nat then ascii_of_nat (n + 32) else c.

Fixpoint lowercase (s : string) : string :=
  match s with
  | EmptyString => EmptyString
  | String c s' => String (lower c) (lowercase s')
  end.

(** The segments of a path, empty ones dropped. *)
Fixpoint split_path (s : string) (cur : string) : list string :=
  match s with
  | EmptyString => if (cur =? "")%string then [] else [cur]
  | String c s' =>
      if Ascii.eqb c "/"%char then
        (if (cur =? "")%string then [] else [cur]) ++ split_path s' ""
      else split_path s' (cur ++ String c EmptyString)%string
  end.

Definition segments (pathname : string) : list string :=
  split_path pathname "".

(** The [<Routes>] table.  The router picks the best-ranked match: a
    static segment wins over a [:param], which wins over [*]; static
    segments compare without regard to case. *)
Definition Routes (auth : AuthContext.State) (loc : location) : element :=
  let guarded roles p := ProtectedRoute auth loc roles (Show p) in
  match map lowercase (segments (pathname loc)) with
  | [] => Show Home
  | ["explore"] => Show Explore
  | ["article"; _] => Show Article
  | ["login"] => Show Login
  | ["auth"; "callback"] => Show AuthCallback
  | ["contact"] => Show Contact
  | ["about"] => Show About
  | ["vision"] => Show Vision
  | ["dashboard"] => guarded ["student"] StudentDashboard
  | ["educator"] => guarded ["educator"; "admin"] EducatorDashboard
  | ["educator"; "create"] => guarded ["educator"; "admin"] ArticleEditor
  | ["educator"; "edit"; _] => guarded ["educator"; "admin"] ArticleEditor
  | ["educator"; _] => Show EducatorProfile
  | ["admin"] => guarded ["admin"] AdminDashboard
  | _ => Navigate "/" None true
  end.

(** [if (location.hash?.includes('session_id=')) return <AuthCallback />;
    return <Routes>...</Routes>;] *)
Definition AppRouter (auth : AuthContext.State) (loc : location) : element :=
  if match hash loc with
     | Some h => includes h "session_id="
     | None => false
     end
  then Show AuthCallback
  else Routes auth loc.
End App.

(* ===================================================================== *)
(** * [pages/Login.js] *)
(* ===================================================================== *)

Module LoginPage.
Import JS Async.
Local Open Scope async_scope.

Record FormData : Type := mkFormData {
  name : string;
  form_email : string;
  password : string
}.

(** The state of the page, with the [AuthProvider] state it reaches
    through [useAuth()]. *)
Record State : Type := mkState {
  auth : AuthContext.State;
  isLogin : bool;
  loading : bool;
  showOtp : bool;
  email : string;
  otp : string;
  formData : FormData
}.

Definition set_auth (a : AuthContext.State) (s : State) : State :=
  {| auth := a; isLogin := isLogin s; loading := loading s;
     showOtp := showOtp s; email := email s; otp := otp s;
     formData := formData s |}.

Definition setLoading (b : bool) : effect State :=
  Update (fun s =>
    {| auth := auth s; isLogin := isLogin s; loading := b;
       showOtp := showOtp s; email := email s; otp := otp s;
       formData := formData s |}).

Definition setShowOtp (b : bool) : effect State :=
  Update (fun s =>
    {| auth := auth s; isLogin := isLogin s; loading := loading s;
       showOtp := b; email := email s; otp := otp s;
       formData := formData s |}).

Definition setEmail (e : string) : effect State :=
  Update (fun s =>
    {| auth := auth s; isLogin := isLogin s; loading := loading s;
       showOtp := showOtp s; email := e; otp := otp s;
       formData := formData s |}).

Definition in_auth (p : async AuthContext.State) : async State :=
  lift auth set_auth p.

(** [handleSubmit], created by the render of [rendered]; [from] is
    [location.state?.from?.pathname || '/']. *)
Definition handleSubmit (rendered : State) (from : string) : async State :=
  let form := formData rendered in
  exec (setLoading true) ;;
  try_finally
    (try_catch
       (if isLogin rendered then
          in_auth (AuthContext.login (form_email form) (password form)) ;;
          exec (ToastSuccess "Welcome back!") ;;
          exec (NavigateTo from)
        else
          in_auth (AuthContext.register (name form) (form_email form)
                     (password form)) ;;
          exec (setEmail (form_email form)) ;;
          exec (setShowOtp true) ;;
          exec (ToastSuccess "OTP sent to your email"))
       (fun error => exec (ToastError (message_of error))))
    (exec (setLoading false)).

End LoginPage.

(* ===================================================================== *)
(** * [pages/Article.js] *)
(* ===================================================================== *)

Module ArticlePage.
Import JS Async.
Local Open Scope async_scope.

Record State : Type := mkState {
  article : value;
  relatedArticles : value;
  loading : bool;
  isLiked : value;
  isBookmarked : value;
  likeCount : value;
  bookmarkCount : value
}.

Definition initial : State :=
  {| article := VNull; relatedArticles := VArr []; loading := true;
     isLiked := VBool false; isBookmarked := VBool false;
     likeCount := VNum 0; bookmarkCount := VNum 0 |}.

Definition setArticle (v : value) : effect State :=
  Update (fun s =>
    {| article := v; relatedArticles := relatedArticles s;
       loading := loading s; isLiked := isLiked s;
       isBookmarked := isBookmarked s; likeCount := likeCount s;
       bookmarkCount := bookmarkCount s |}).

Definition setRelatedArticles (v : value) : effect State :=
  Update (fun s =>
    {| article := article s; relatedArticles := v;
       loading := loading s; isLiked := isLiked s;
       isBookmarked := isBookmarked s; likeCount := likeCount s;
       bookmarkCount := bookmarkCount s |}).

Definition setLoading (b : bool) : effect State :=
  Update (fun s =>
    {| article := article s; relatedArticles := relatedArticles s;
       loading := b; isLiked := isLiked s;
       isBookmarked := isBookmarked s; likeCount := likeCount s;
       bookmarkCount := bookmarkCount s |}).

Definition setIsLiked (v : value) : effect State :=
  Update (fun s =>
    {| article := article s; relatedArticles := relatedArticles s;
       loading := loading s; isLiked := v;
       isBookmarked := isBookmarked s; likeCount := likeCount s;
       bookmarkCount := bookmarkCount s |}).

Definition setIsBookmarked (v : value) : effect State :=
  Update (fun s =>
    {| article := article s; relatedArticles := relatedArticles s;
       loading := loading s; isLiked := isLiked s;
       isBookmarked := v; likeCount := likeCount s;
       bookmarkCount := bookmarkCount s |}).

Definition setLikeCount (v : value) : effect State :=
  Update (fun s =>
    {| article := article s; relatedArticles := relatedArticles s;
       loading := loading s; isLiked := isLiked s;
       isBookmarked := isBookmarked s; likeCount := v;
       bookmarkCount := bookmarkCount s |}).

Definition setBookmarkCount (v : value) : effect State :=
  Update (fun s =>
    {| article := article s; relatedArticles := relatedArticles s;
       loading := loading s; isLiked := isLiked s;
       isBookmarked := isBookmarked s; likeCount := likeCount s;
       bookmarkCount := v |}).

(** The effect run on mount and whenever the route [id] changes. *)
Definition fetchData (id : value) : async State :=
  try_finally
    (try_catch
       (exec (setLoading true) ;;
        articleData <- Api.getArticle id ;;
        exec (setArticle articleData) ;;
        is_liked <- read articleData "is_liked" ;;
        exec (setIsLiked is_liked) ;;
        is_bookmarked <- read articleData "is_bookmarked" ;;
        exec (setIsBookmarked is_bookmarked) ;;
        like_count <- read articleData "like_count" ;;
        exec (setLikeCount like_count) ;;
        bookmark_count <- read articleData "bookmark_count" ;;
        exec (setBookmarkCount bookmark_count) ;;
        article_id <- read articleData "article_id" ;;
        related <- Api.getRelatedArticles article_id ;;
        exec (setRelatedArticles related))
       (fun error =>
          exec (ConsoleError "Failed to fetch article:") ;;
          exec (ToastError "Article not found") ;;
          exec (NavigateTo "/explore")))
    (exec (setLoading false)).

(** [handleLike], created by the render of [rendered]. *)
Definition handleLike (isAuthenticated : bool) (rendered : State)
  : async State :=
  if negb isAuthenticated then
    exec (ToastError "Please login to like articles")
  else
    try_catch
      (article_id <- read (article rendered) "article_id" ;;
       result <- Api.likeArticle article_id ;;
       liked <- read result "liked" ;;
       exec (setIsLiked liked) ;;
       like_count <- read result "like_count" ;;
       exec (setLikeCount like_count) ;;
       exec (ToastSuccess
               (if truthy liked then "Article liked!" else "Like removed")))
      (fun error => exec (ToastError "Failed to like article")).

(** [handleBookmark], created by the render of [rendered]. *)
Definition handleBookmark (isAuthenticated : bool) (rendered : State)
  : async State :=
  if negb isAuthenticated then
    exec (ToastError "Please login to bookmark articles")
  else
    try_catch
      (article_id <- read (article rendered) "article_id" ;;
       result <- Api.bookmarkArticle article_id ;;
       bookmarked <- read result "bookmarked" ;;
       exec (setIsBookmarked bookmarked) ;;
       bookmark_count <- read result "bookmark_count" ;;
       exec (setBookmarkCount bookmark_count) ;;
       exec (ToastSuccess
               (if truthy bookmarked then "Article bookmarked!"
                else "Bookmark removed")))
      (fun error => exec (ToastError "Failed to bookmark article")).
End ArticlePage.

(* ===================================================================== *)
(** * [pages/EducatorProfile.js] *)
(* ===================================================================== *)

Module EducatorProfilePage.
Import JS Async.
Local Open Scope async_scope.

Record State : Type := mkState {
  educator : value;
  articles : value;
  loading : bool
}.

Definition initial : State :=
  {| educator := VNull; articles := VArr []; loading := true |}.

Definition setEducator (v : value) : effect State :=
  Update (fun s =>
    {| educator := v; articles := articles s; loading := loading s |}).

Definition setArticles (v : value) : effect State :=
  Update (fun s =>
    {| educator := educator s; articles := v; loading := loading s |}).

Definition setLoading (b : bool) : effect State :=
  Update (fun s =>
    {| educator := educator s; articles := articles s; loading := b |}).

(** [const [a, b] = pair] *)
Definition item (pair : value) (i : nat) : value :=
  match pair with
  | VArr items => nth i items VUndefined
  | _ => VUndefined
  end.

Definition fetchData (id : value) : async State :=
  try_finally
    (try_catch
       (both <- await_all
                  [Api.getEducator id;
                   Api.getEducatorArticles id
                     [("status", VStr "published"); ("limit", VNum 20)]] ;;
        exec (setEducator (item both 0)) ;;
        exec (setArticles (item both 1)))
       (fun error => exec (ConsoleError "Failed to fetch educator:")))
    (exec (setLoading false)).
End EducatorProfilePage.

(* ===================================================================== *)
(** * [pages/Explore.js] *)
(* ===================================================================== *)

Module ExplorePage.
Import JS Async.
Local Open Scope async_scope.

Record Filters : Type := mkFilters {
  search : string;
  subject : string;
  sort : string
}.

(** [crashed] records that a state updater threw while React applied it:
    the exception surfaces in the render, outside every [try]. *)
Record State : Type := mkState {
  articles : value;
  subjects : value;
  loading : bool;
  page : Z;
  hasMore : bool;
  filters : Filters;
  crashed : bool
}.

Definition initial (f : Filters) : State :=
  {| articles := VArr []; subjects := VArr []; loading := true;
     page := 1; hasMore := true; filters := f; crashed := false |}.

Definition setLoading (b : bool) : effect State :=
  Update (fun s =>
    {| articles := articles s; subjects := subjects s; loading := b;
       page := page s; hasMore := hasMore s; filters := filters s;
       crashed := crashed s |}).

Definition setArticles (v : value) : effect State :=
  Update (fun s =>
    {| articles := v; subjects := subjects s; loading := loading s;
       page := page s; hasMore := hasMore s; filters := filters s;
       crashed := crashed s |}).

(** [setArticles((prev) => [...prev, ...data])] *)
Definition appendArticles (data : value) : effect State :=
  Update (fun s =>
    match spread (articles s), spread data with
    | Some prev, Some batch =>
        {| articles := VArr (prev ++ batch); subjects := subjects s;
           loading := loading s; page := page s; hasMore := hasMore s;
           filters := filters s; crashed := crashed s |}
    | _, _ =>
        {| articles := articles s; subjects := subjects s;
           loading := loading s; page := page s; hasMore := hasMore s;
           filters := filters s; crashed := true |}
    end).

Definition setPage (n : Z) : effect State :=
  Update (fun s =>
    {| articles := articles s; subjects := subjects s;
       loading := loading s; page := n; hasMore := hasMore s;
       filters := filters s; crashed := crashed s |}).

(** [setPage((prev) => prev + 1)] *)
Definition nextPage : effect State :=
  Update (fun s =>
    {| articles := articles s; subjects := subjects s;
       loading := loading s; page := page s + 1; hasMore := hasMore s;
       filters := filters s; crashed := crashed s |}).

Definition setHasMore (b : bool) : effect State :=
  Update (fun s =>
    {| articles := articles s; subjects := subjects s;
       loading := loading s; page := page s; hasMore := b;
       filters := filters s; crashed := crashed s |}).

(** The [params] object of [fetchArticles]. *)
Definition params_of (currentPage : Z) (f : Filters)
  : list (string * value) :=
  [("page", VNum currentPage); ("limit", VNum 12); ("sort", VStr (sort f))]
    ++ (if (subject f =? "")%string then []
        else [("subject", VStr (subject f))])
    ++ (if (search f =? "")%string then []
        else [("search", VStr (search f))]).

(** [data.length] *)
Definition read_length (data : value) : async State :=
  match length_of data with
  | Some n => Ret n
  | None => Throw (TypeError "Cannot read properties of null")
  end.

(** [fetchArticles], created by the render of [rendered]: [page] and
    [filters] are the values of that render. *)
Definition fetchArticles (rendered : State) (resetPage : bool)
  : async State :=
  try_finally
    (try_catch
       (exec (setLoading true) ;;
        let currentPage := if resetPage then 1 else page rendered in
        data <- Api.getArticles (params_of currentPage (filters rendered)) ;;
        (if resetPage then
           exec (setArticles data) ;;
           exec (setPage 1)
         else
           exec (appendArticles data)) ;;
        n <- read_length data ;;
        exec (setHasMore (strict_eq_num n 12)))
       (fun error => exec (ConsoleError "Failed to fetch articles:")))
    (exec (setLoading false)).

(** [loadMore], created by the render of [rendered]; it calls the
    [fetchArticles] of the same render. *)
Definition loadMore (rendered : State) : async State :=
  exec nextPage ;;
  fetchArticles rendered false.
End ExplorePage.

(* ===================================================================== *)
(** * Moderation lists: [EducatorDashboard.js] and [AdminDashboard.js] *)
(* ===================================================================== *)

Module Lists.
Import JS Async.

(** [list.filter(a => a.article_id !== articleId)] on the elements of an
    array; [None] when reading [article_id] throws. *)
Fixpoint others (articleId : string) (l : list value)
  : option (list value) :=
  match l with
  | [] => Some []
  | a :: rest =>
      match get a "article_id" with
      | None => None
      | Some x =>
          match others articleId rest with
          | None => None
          | Some kept =>
              Some (if strict_eq_str x articleId then kept else a :: kept)
          end
      end
  end.

(** [articles.filter(a => a.article_id !== articleId)] *)
Definition without {S : Type} (articles : value) (articleId : string)
  : async S :=
  match articles with
  | VArr l =>
      match others articleId l with
      | Some kept => Ret (VArr kept)
      | None => Throw (TypeError "Cannot read properties of null")
      end
  | _ => Throw (TypeError "articles.filter is not a function")
  end.

(** [error.message || fallback] *)
Definition message_or (e : exn) (fallback : string) : string :=
  to_string (or_else (VStr (message_of e)) (VStr fallback)).
End Lists.

Module EducatorDashboardPage.
Import JS Async.
Local Open Scope async_scope.

Record State : Type := mkState {
  activeTab : string;
  profile : value;
  articles : value;
  stats : value;
  subjects : value;
  loading : bool;
  articleFilter : string
}.

Definition setArticles (v : value) : effect State :=
  Update (fun s =>
    {| activeTab := activeTab s; profile := profile s; articles := v;
       stats := stats s; subjects := subjects s; loading := loading s;
       articleFilter := articleFilter s |}).

(** [handleDeleteArticle], created by the render of [rendered];
    [confirmed] is the answer to [window.confirm]. *)
Definition handleDeleteArticle (rendered : State) (confirmed : bool)
  (articleId : string) : async State :=
  if negb confirmed then Ret VUndefined
  else
    try_catch
      (Api.deleteArticle articleId ;;
       kept <- Lists.without (articles rendered) articleId ;;
       exec (setArticles kept) ;;
       exec (ToastSuccess "Article deleted"))
      (fun error =>
         exec (ToastError
                 (Lists.message_or error "Failed to delete article"))).
End EducatorDashboardPage.

Module AdminDashboardPage.
Import JS Async.
Local Open Scope async_scope.

Record State : Type := mkState {
  activeTab : string;
  dashboard : value;
  educators : value;
  articles : value;
  reports : value;
  queries : value;
  subjects : value;
  loading : bool;
  showCreateEducator : bool;
  newEducator : value
}.

Definition setArticles (v : value) : effect State :=
  Update (fun s =>
    {| activeTab := activeTab s; dashboard := dashboard s;
       educators := educators s; articles := v; reports := reports s;
       queries := queries s; subjects := subjects s;
       loading := loading s;
       showCreateEducator := showCreateEducator s;
       newEducator := newEducator s |}).

(** [handleArticleAction], created by the render of [rendered];
    [reason] defaults to [null]. *)
Definition handleArticleAction (rendered : State) (articleId : string)
  (action : string) (reason : value) : async State :=
  try_catch
    (Api.articleAction articleId action reason ;;
     kept <- Lists.without (articles rendered) articleId ;;
     exec (setArticles kept) ;;
     exec (ToastSuccess ("Article " ++ action ++ "d successfully")%string))
    (fun error =>
       exec (ToastError
               (Lists.message_or error
                  ("Failed to " ++ action ++ " article")%string))).
End AdminDashboardPage.

(* ===================================================================== *)
(** * Vocabulary of the properties *)
(* ===================================================================== *)

Module Spec.
Import JS Async Api.

(** The role a signed-in user holds, as the guard reads it. *)
Definition role_of (auth : AuthContext.State) : value :=
  get_opt (AuthContext.user auth) "role".

Definition holds_one_of (auth : AuthContext.State) (roles : list string)
  : Prop :=
  exists r, In r roles /\ role_of auth = VStr r.

(** What a helper makes of the settled [fetch]. *)
Definition answer (r : fetch_result) : result :=
  match r with
  | Rejected => Thrown (TypeError "Failed to fetch")
  | Resolved resp =>
      if ok resp then
        match json resp with
        | Some v => Returned v
        | None => Thrown (SyntaxError "Unexpected end of JSON input")
        end
      else
        match json resp with
        | None => Thrown (Error "An error occurred")
        | Some v =>
            match get v "detail" with
            | None => Thrown (TypeError "Cannot read properties of null")
            | Some d =>
                Thrown (Error (to_string (or_else d (VStr "Request failed"))))
            end
        end
  end.

(** A backend that answers every request with [resp]. *)
Definition answering (resp : response) : request -> fetch_result :=
  fun _ => Resolved resp.

Definition like_request (article_id : value) : request :=
  authenticated ("/articles/" ++ to_string article_id ++ "/like")%string
                [] Api.POST.

Definition bookmark_request (article_id : value) : request :=
  authenticated ("/articles/" ++ to_string article_id ++ "/bookmark")%string
                [] Api.POST.

(** The component state at the moment the synchronous part of a handler
    is over. *)
Definition state_at_await {S : Type} (p : async S) (s : S) : S :=
  fst (fst (start p s)).

Definition stage_at_await {S : Type} (p : async S) (s : S) : stage :=
  snd (start p s).

(** The calls of [p] are independent of the responses: whatever the
    backend answers, the same requests are issued in the same order. *)
Definition response_independent {S : Type} (p : async S) : Prop :=
  forall (b1 b2 : request -> fetch_result) (s : S),
    requests (run b1 p s) = requests (run b2 p s).

Definition article_request (id : value) : request :=
  authenticated ("/articles/" ++ to_string id)%string [] no_options.

Definition related_request (article_id : value) : request :=
  authenticated ("/articles/related/" ++ to_string article_id)%string
                [("limit", VNum 4)] no_options.

Definition educator_request (id : value) : request :=
  authenticated ("/educators/" ++ to_string id)%string [] no_options.

Definition educator_articles_request (id : value) : request :=
  authenticated ("/educators/" ++ to_string id ++ "/articles")%string
                [("status", VStr "published"); ("limit", VNum 20)]
                no_options.

Definition register_request (name email password : string) : request :=
  {| path := "/auth/register"; query := [];
     req_method := Some "POST";
     credentials := None;
     headers := [Api.json_content];
     req_body := Some (VObj [("name", VStr name);
                             ("email", VStr email);
                             ("password", VStr password);
                             ("role", VStr "student")]) |}.

(** The request asks for the student role. *)
Definition asks_student_role (rq : request) : Prop :=
  path rq = "/auth/register"
  /\ exists b, req_body rq = Some b /\ get b "role" = Some (VStr "student").

Definition articles_request (currentPage : Z) (f : ExplorePage.Filters) : request :=
  authenticated "/articles/" (ExplorePage.params_of currentPage f) no_options.

Definition page_of (rq : request) : value :=
  match lookup "page" (query rq) with
  | Some p => p
  | None => VUndefined
  end.

(** [kept] is [l] without the entries whose [article_id] is [X]: those
    entries are dropped, every other entry stays, in the same order. *)
Inductive removed (X : string) : list value -> list value -> Prop :=
| removed_nil : removed X [] []
| removed_drop (a : value) (l kept : list value) :
    get a "article_id" = Some (VStr X) ->
    removed X l kept -> removed X (a :: l) kept
| removed_keep (a : value) (l kept : list value) :
    get a "article_id" <> Some (VStr X) ->
    removed X l kept -> removed X (a :: l) (a :: kept).

(** Every entry is a record (not [null] or [undefined]). *)
Definition records (l : list value) : Prop :=
  Forall (fun a => nullish a = false) l.

Definition delete_request (X : string) : request :=
  authenticated ("/educators/me/articles/" ++ X)%string [] Api.DELETE.

Definition action_request (X action : string) (reason : value) : request :=
  authenticated ("/admin/articles/" ++ X ++ "/action")%string []
    {| method := Some "POST";
       body := Some (VObj [("action", VStr action); ("reason", reason)]);
       extra_headers := [] |}.

End Spec.

(* ===================================================================== *)
(** * Sample inputs *)
(* ===================================================================== *)

Module Samples.
Import JS Async Api App Spec.

Definition student : AuthContext.State :=
  {| AuthContext.user := VObj [("user_id", VStr "u1"); ("role", VStr "student")];
     AuthContext.loading := false |}.

Definition at_admin : location :=
  {| pathname := "/admin"; search := ""; hash := Some "" |}.

Definition admin_callback : location :=
  {| pathname := "/admin"; search := "";
     hash := Some "#session_id=abc123" |}.

Definition empty_detail : response :=
  {| ok := false; json := Some (VObj [("detail", VStr "")]) |}.

Definition not_found : response :=
  {| ok := false; json := Some (VObj [("detail", VStr "Article not found")]) |}.

Definition unliked : ArticlePage.State :=
  {| ArticlePage.article :=
       VObj [("article_id", VStr "a1"); ("like_count", VNum 5)];
     ArticlePage.relatedArticles := VArr [];
     ArticlePage.loading := false;
     ArticlePage.isLiked := VBool false;
     ArticlePage.isBookmarked := VBool false;
     ArticlePage.likeCount := VNum 5;
     ArticlePage.bookmarkCount := VNum 2 |}.

Definition liked_answer : value :=
  VObj [("liked", VBool true); ("like_count", VNum 6)].

Definition server_error : response :=
  {| ok := false; json := Some (VObj [("detail", VStr "Internal error")]) |}.

(** A backend that serves the article stored under the requested path. *)
Definition store (article_id : string) : request -> fetch_result :=
  fun rq =>
    if (path rq =? "/articles/intro")%string then
      Resolved {| ok := true;
                  json := Some (VObj [("article_id", VStr article_id)]) |}
    else Resolved {| ok := true; json := Some (VArr []) |}.

Definition signup_form : LoginPage.State :=
  {| LoginPage.auth := AuthContext.initial;
     LoginPage.isLogin := false; LoginPage.loading := false;
     LoginPage.showOtp := false; LoginPage.email := "";
     LoginPage.otp := "";
     LoginPage.formData :=
       {| LoginPage.name := "Asha"; LoginPage.form_email := "asha@example.org";
          LoginPage.password := "secret" |} |}.

Definition created : request -> fetch_result :=
  fun _ => Resolved {| ok := true;
                       json := Some (VObj [("message", VStr "OTP sent")]) |}.

(** The twelve articles of page [p] of a catalogue. *)
Definition batch (p : value) : list value :=
  map (fun i =>
         VObj [("article_id",
                VStr ("p" ++ to_string p ++ "-" ++ decimal (Z.of_nat i)))])
      (seq 1 12).

(** A backend with full pages everywhere. *)
Definition catalogue : request -> fetch_result :=
  fun rq => Resolved {| ok := true; json := Some (VArr (batch (page_of rq))) |}.

Definition recent : ExplorePage.Filters :=
  {| ExplorePage.search := ""; ExplorePage.subject := "";
     ExplorePage.sort := "recent" |}.

(** The Explore page once the effect of the first render has run. *)
Definition mounted : ExplorePage.State :=
  final (run catalogue
           (ExplorePage.fetchArticles (ExplorePage.initial recent) true)
           (ExplorePage.initial recent)).

Definition entry (id title : string) : value :=
  VObj [("article_id", VStr id); ("title", VStr title)].

Definition shelf : list value :=
  [entry "a1" "Vectors"; entry "a2" "Cells"; entry "a3" "Tides"].

Definition my_articles : EducatorDashboardPage.State :=
  {| EducatorDashboardPage.activeTab := "articles";
     EducatorDashboardPage.profile := VNull;
     EducatorDashboardPage.articles := VArr shelf;
     EducatorDashboardPage.stats := VNull;
     EducatorDashboardPage.subjects := VArr [];
     EducatorDashboardPage.loading := false;
     EducatorDashboardPage.articleFilter := "all" |}.

Definition deleted : request -> fetch_result :=
  fun _ => Resolved {| ok := true;
                       json := Some (VObj [("message", VStr "Article deleted")]) |}.

End Samples.

(* ===================================================================== *)
(** * [context/AuthContext.js]: session check, sign-in and sign-out *)
(* ===================================================================== *)

Module AuthSession.
Import JS Async AuthContext.
Local Open Scope async_scope.

Definition setLoading (b : bool) : effect State :=
Update (fun s => {| user := user s; loading := b |}).

Definition me_request : request :=
{| path := "/auth/me"; query := []; req_method := None;
   credentials := Some "include"; headers := []; req_body := None |}.

(** [checkAuth]: the effect run once when [AuthProvider] mounts. *)
Definition checkAuth : async State :=
try_finally
  (try_catch
     (fetch me_request
        (fun response =>
           if ok response then
             userData <- parse response ;;
             exec (setUser userData)
           else exec (setUser VNull)))
     (fun error =>
        exec (ConsoleError "Auth check failed:") ;;
        exec (setUser VNull)))
  (exec (setLoading false)).

(** The URL is a template literal: the session id is spliced in as it
    is. *)
Definition google_request (sessionId : string) : request :=
{| path := ("/auth/google-callback?session_id=" ++ sessionId)%string;
   query := [];
   req_method := Some "POST";
   credentials := Some "include"; headers := []; req_body := None |}.

Definition googleLogin (sessionId : string) : async State :=
fetch (google_request sessionId)
  (fun resp =>
     reject_unless_ok "Google login failed" resp ;;
     data <- parse resp ;;
     u <- read data "user" ;;
     Do (setUser u) (Ret data)).

Definition logout_request : request :=
{| path := "/auth/logout"; query := []; req_method := Some "POST";
   credentials := Some "include"; headers := []; req_body := None |}.

(** [await fetch(.../auth/logout); setUser(null);] *)
Definition logout : async State :=
fetch logout_request (fun _ => exec (setUser VNull)).

(** [isAdmin: user?.role === 'admin'] and its two siblings. *)
Definition isAdmin (s : State) : bool :=
strict_eq_str (get_opt (user s) "role") "admin".

Definition isEducator (s : State) : bool :=
strict_eq_str (get_opt (user s) "role") "educator".

Definition isStudent (s : State) : bool :=
strict_eq_str (get_opt (user s) "role") "student".

End AuthSession.

(* ===================================================================== *)
(** * [pages/AuthCallback.js] *)
(* ===================================================================== *)

Module AuthCallbackPage.
Import JS Async.
Local Open Scope async_scope.

(** The [AuthProvider] state the page reaches through [useAuth()], and
    the [hasProcessed] ref. *)
Record State : Type := mkState {
  auth : AuthContext.State;
  hasProcessed : bool
}.

Definition set_auth (a : AuthContext.State) (s : State) : State :=
{| auth := a; hasProcessed := hasProcessed s |}.


Fixpoint skip (n : nat) (s : string) : string :=
match n, s with
| O, _ => s
| S n', String _ rest => skip n' rest
| S _, EmptyString => EmptyString
end.

(** The longest prefix without [&]: what [([^&]+)] captures. *)
Fixpoint token (s : string) : string :=
match s with
| EmptyString => EmptyString
| String c rest =>
    if Ascii.eqb c "&"%char then EmptyString else String c (token rest)
end.

(** [hash.match(/session_id=([^&]+)/)]: the capture group of the leftmost
    match, [None] when the pattern matches nowhere. *)
Fixpoint sessionIdMatch (hash : string) : option string :=
let here :=
  if is_prefix "session_id=" hash then
    match token (skip 11 hash) with
    | EmptyString => None
    | found => Some found
    end
  else None in
match here with
| Some found => Some found
| None =>
    match hash with
    | EmptyString => None
    | String _ rest => sessionIdMatch rest
    end
end.

Definition processAuth (hash : string) : async State :=
match sessionIdMatch hash with
| None =>
    exec (ToastError "Invalid authentication response") ;;
    exec (NavigateTo "/login")
| Some sessionId =>
    try_catch
      (lift auth set_auth (AuthSession.googleLogin sessionId) ;;
       exec (ToastSuccess "Welcome to TATVGYA!") ;;
       exec (NavigateTo "/"))
      (fun error =>
         exec (ConsoleError "Auth callback error:") ;;
         exec (ToastError (Lists.message_or error "Authentication failed")) ;;
         exec (NavigateTo "/login"))
end.


End AuthCallbackPage.

(* ===================================================================== *)
(** * [pages/Explore.js]: filters and their URL *)
(* ===================================================================== *)

Module ExploreFilters.
Import JS Async ExplorePage.

(** [new URLSearchParams()] with [set] on distinct keys, and [get]. *)
Definition SearchParams : Type := list (string * string).

Fixpoint param (ps : SearchParams) (key : string) : option string :=
match ps with
| [] => None
| (k, v) :: rest => if (k =? key)%string then Some v else param rest key
end.

(** [searchParams.get(key) || fallback] *)
Definition param_or (ps : SearchParams) (key fallback : string) : string :=
match param ps key with
| Some v => if (v =? "")%string then fallback else v
| None => fallback
end.

(** The initial value of [filters]. *)
Definition filters_of (searchParams : SearchParams) : Filters :=
{| search := param_or searchParams "search" "";
   subject := param_or searchParams "subject" "";
   sort := param_or searchParams "sort" "recent" |}.

(** The parameters the effect on [filters] writes to the URL. *)
Definition url_of (f : Filters) : SearchParams :=
(if (subject f =? "")%string then [] else [("subject", subject f)])
  ++ (if (search f =? "")%string then [] else [("search", search f)])
  ++ (if (sort f =? "recent")%string then [] else [("sort", sort f)]).

Definition setFilters (g : Filters -> Filters) : effect State :=
Update (fun s =>
  {| articles := articles s; subjects := subjects s; loading := loading s;
     page := page s; hasMore := hasMore s; filters := g (filters s);
     crashed := crashed s |}).

(** [setFilters((prev) => ({ ...prev, [key]: value }))] for the three keys
    the page uses; another key would add a property no code reads. *)
Definition with_key (key value : string) (prev : Filters) : Filters :=
if (key =? "search")%string then
  {| search := value; subject := subject prev; sort := sort prev |}
else if (key =? "subject")%string then
  {| search := search prev; subject := value; sort := sort prev |}
else if (key =? "sort")%string then
  {| search := search prev; subject := subject prev; sort := value |}
else prev.

Definition handleFilterChange (key value : string) : effect State :=
setFilters (with_key key value).

Definition no_filters : Filters :=
{| search := ""; subject := ""; sort := "recent" |}.

Definition clearFilters : effect State :=
setFilters (fun _ => no_filters).

(** [[filters.search, filters.subject, filters.sort !== 'recent']
      .filter(Boolean).length] *)
Definition activeFilterCount (f : Filters) : Z :=
Z.of_nat
  (List.length
     (List.filter truthy
        [VStr (search f); VStr (subject f);
         VBool (negb (sort f =? "recent")%string)])).

End ExploreFilters.

(* ===================================================================== *)
(** * Dashboards: loading data, creating an educator, signing out *)
(* ===================================================================== *)

Module EducatorDashboardData.
Import JS Async EducatorDashboardPage.
Local Open Scope async_scope.

Definition getMyProfile : async State :=
Api.apiCall "/educators/me/profile" [] no_options.

Definition getMyStats : async State :=
Api.apiCall "/educators/me/stats" [] no_options.

Definition getMyArticles (params : list (string * value)) : async State :=
Api.apiCall "/educators/me/articles" params no_options.

Definition setProfile (v : value) : effect State :=
Update (fun s =>
  {| activeTab := activeTab s; profile := v; articles := articles s;
     stats := stats s; subjects := subjects s; loading := loading s;
     articleFilter := articleFilter s |}).

Definition setStats (v : value) : effect State :=
Update (fun s =>
  {| activeTab := activeTab s; profile := profile s; articles := articles s;
     stats := v; subjects := subjects s; loading := loading s;
     articleFilter := articleFilter s |}).

Definition setSubjects (v : value) : effect State :=
Update (fun s =>
  {| activeTab := activeTab s; profile := profile s; articles := articles s;
     stats := stats s; subjects := v; loading := loading s;
     articleFilter := articleFilter s |}).

Definition setLoading (b : bool) : effect State :=
Update (fun s =>
  {| activeTab := activeTab s; profile := profile s; articles := articles s;
     stats := stats s; subjects := subjects s; loading := b;
     articleFilter := articleFilter s |}).

(** The effect run on mount. *)
Definition fetchData : async State :=
try_finally
  (try_catch
     (all <- await_all [getMyProfile; getMyStats; Api.getSubjects] ;;
      exec (setProfile (EducatorProfilePage.item all 0)) ;;
      exec (setStats (EducatorProfilePage.item all 1)) ;;
      exec (setSubjects (EducatorProfilePage.item all 2)))
     (fun error =>
        exec (ConsoleError "Failed to fetch data:") ;;
        exec (ToastError "Failed to load dashboard data")))
  (exec (setLoading false)).

(** The effect run when [activeTab] or [articleFilter] change, created by
    the render of [rendered]. *)
Definition fetchArticles (rendered : State) : async State :=
if (activeTab rendered =? "articles")%string then
  try_catch
    (data <- getMyArticles [("status", VStr (articleFilter rendered))] ;;
     exec (setArticles data))
    (fun error => exec (ConsoleError "Failed to fetch articles:"))
else Ret VUndefined.

End EducatorDashboardData.

Module AdminDashboardData.
Import JS Async AdminDashboardPage.
Local Open Scope async_scope.

Definition getAdminDashboard : async State :=
Api.apiCall "/admin/dashboard" [] no_options.

Definition getAdminEducators : async State :=
Api.apiCall "/admin/educators" [] no_options.

Definition getAdminArticles (params : list (string * value)) : async State :=
Api.apiCall "/admin/articles" params no_options.

Definition getReports (params : list (string * value)) : async State :=
Api.apiCall "/admin/reports" params no_options.

Definition getContactQueries (params : list (string * value)) : async State :=
Api.apiCall "/admin/contact-queries" params no_options.

Definition createEducator (data : value) : async State :=
Api.apiCall "/admin/educators" []
  {| method := Some "POST"; body := Some data; extra_headers := [] |}.

Definition setDashboard (v : value) : effect State :=
Update (fun s =>
  {| activeTab := activeTab s; dashboard := v; educators := educators s;
     articles := articles s; reports := reports s; queries := queries s;
     subjects := subjects s; loading := loading s;
     showCreateEducator := showCreateEducator s;
     newEducator := newEducator s |}).

Definition setEducators (v : value) : effect State :=
Update (fun s =>
  {| activeTab := activeTab s; dashboard := dashboard s; educators := v;
     articles := articles s; reports := reports s; queries := queries s;
     subjects := subjects s; loading := loading s;
     showCreateEducator := showCreateEducator s;
     newEducator := newEducator s |}).

Definition setReports (v : value) : effect State :=
Update (fun s =>
  {| activeTab := activeTab s; dashboard := dashboard s;
     educators := educators s; articles := articles s; reports := v;
     queries := queries s; subjects := subjects s; loading := loading s;
     showCreateEducator := showCreateEducator s;
     newEducator := newEducator s |}).

Definition setQueries (v : value) : effect State :=
Update (fun s =>
  {| activeTab := activeTab s; dashboard := dashboard s;
     educators := educators s; articles := articles s;
     reports := reports s; queries := v; subjects := subjects s;
     loading := loading s;
     showCreateEducator := showCreateEducator s;
     newEducator := newEducator s |}).

Definition setSubjects (v : value) : effect State :=
Update (fun s =>
  {| activeTab := activeTab s; dashboard := dashboard s;
     educators := educators s; articles := articles s;
     reports := reports s; queries := queries s; subjects := v;
     loading := loading s;
     showCreateEducator := showCreateEducator s;
     newEducator := newEducator s |}).

Definition setLoading (b : bool) : effect State :=
Update (fun s =>
  {| activeTab := activeTab s; dashboard := dashboard s;
     educators := educators s; articles := articles s;
     reports := reports s; queries := queries s; subjects := subjects s;
     loading := b;
     showCreateEducator := showCreateEducator s;
     newEducator := newEducator s |}).

Definition setShowCreateEducator (b : bool) : effect State :=
Update (fun s =>
  {| activeTab := activeTab s; dashboard := dashboard s;
     educators := educators s; articles := articles s;
     reports := reports s; queries := queries s; subjects := subjects s;
     loading := loading s;
     showCreateEducator := b;
     newEducator := newEducator s |}).

Definition setNewEducator (v : value) : effect State :=
Update (fun s =>
  {| activeTab := activeTab s; dashboard := dashboard s;
     educators := educators s; articles := articles s;
     reports := reports s; queries := queries s; subjects := subjects s;
     loading := loading s;
     showCreateEducator := showCreateEducator s;
     newEducator := v |}).

(** [{ name: '', email: '', subject_ids: [], bio: '' }] *)
Definition blank_educator : value :=
VObj [("name", VStr ""); ("email", VStr ""); ("subject_ids", VArr []);
      ("bio", VStr "")].

(** The effect run on mount. *)
Definition fetchDashboard : async State :=
try_finally
  (try_catch
     (both <- await_all [getAdminDashboard; Api.getSubjects] ;;
      exec (setDashboard (EducatorProfilePage.item both 0)) ;;
      exec (setSubjects (EducatorProfilePage.item both 1)))
     (fun error =>
        exec (ConsoleError "Failed to fetch dashboard:") ;;
        exec (ToastError "Failed to load dashboard")))
  (exec (setLoading false)).

(** The effect run when [activeTab] changes, created by the render of
    [rendered]. *)
Definition fetchTabData (rendered : State) : async State :=
let tab := activeTab rendered in
if negb (tab =? "overview")%string then
  try_catch
    (if (tab =? "educators")%string then
       educatorsData <- getAdminEducators ;;
       exec (setEducators educatorsData)
     else if (tab =? "articles")%string then
       articlesData <- getAdminArticles [("status", VStr "pending")] ;;
       exec (setArticles articlesData)
     else if (tab =? "reports")%string then
       reportsData <- getReports [("status", VStr "pending")] ;;
       exec (setReports reportsData)
     else if (tab =? "queries")%string then
       queriesData <- getContactQueries [("status", VStr "new")] ;;
       exec (setQueries queriesData)
     else Ret VUndefined)
    (fun error => exec (ConsoleError "Failed to fetch tab data:"))
else Ret VUndefined.

(** [handleCreateEducator], created by the render of [rendered]. *)
Definition handleCreateEducator (rendered : State) : async State :=
try_catch
  (result <- createEducator (newEducator rendered) ;;
   password <- read result "password" ;;
   exec (ToastSuccess
           ("Educator created. Password: " ++ to_string password)%string) ;;
   exec (setShowCreateEducator false) ;;
   exec (setNewEducator blank_educator) ;;
   educatorsData <- getAdminEducators ;;
   exec (setEducators educatorsData))
  (fun error =>
     exec (ToastError (Lists.message_or error "Failed to create educator"))).

End AdminDashboardData.

(** [handleLogout] of the three dashboards:
    [await logout(); navigate('/');] *)
Module Dashboards.
Import JS Async.
Local Open Scope async_scope.

Definition handleLogout : async AuthContext.State :=
AuthSession.logout ;;
exec (NavigateTo "/").

End Dashboards.

(* ===================================================================== *)
(** * [pages/StudentDashboard.js] *)
(* ===================================================================== *)

Module StudentDashboardPage.
Import JS Async.
Local Open Scope async_scope.

Record State : Type := mkState {
  activeTab : string;
  profile : value;
  articles : value;
  loading : bool
}.

Definition setProfile (v : value) : effect State :=
Update (fun s =>
  {| activeTab := activeTab s; profile := v; articles := articles s;
     loading := loading s |}).

Definition setArticles (v : value) : effect State :=
Update (fun s =>
  {| activeTab := activeTab s; profile := profile s; articles := v;
     loading := loading s |}).

Definition setLoading (b : bool) : effect State :=
Update (fun s =>
  {| activeTab := activeTab s; profile := profile s;
     articles := articles s; loading := b |}).

Definition getStudentProfile : async State :=
Api.apiCall "/students/me/profile" [] no_options.

Definition getLikedArticles : async State :=
Api.apiCall "/students/me/liked" [] no_options.

Definition getBookmarkedArticles : async State :=
Api.apiCall "/students/me/bookmarked" [] no_options.

Definition getReadingHistory : async State :=
Api.apiCall "/students/me/history" [] no_options.

Definition fetchProfile : async State :=
try_catch
  (data <- getStudentProfile ;;
   exec (setProfile data))
  (fun error => exec (ConsoleError "Failed to fetch profile:")).

(** The effect run when [activeTab] changes, created by the render of
    [rendered]. *)
Definition fetchArticles (rendered : State) : async State :=
let tab := activeTab rendered in
exec (setLoading true) ;;
try_finally
  (try_catch
     (data <- (if (tab =? "liked")%string then getLikedArticles
               else if (tab =? "bookmarked")%string then getBookmarkedArticles
               else if (tab =? "history")%string then getReadingHistory
               else Ret (VArr [])) ;;
      exec (setArticles data))
     (fun error => exec (ConsoleError "Failed to fetch articles:")))
  (exec (setLoading false)).

End StudentDashboardPage.

(* ===================================================================== *)
(** * [pages/Contact.js] *)
(* ===================================================================== *)

Module ContactPage.
Import JS Async.
Local Open Scope async_scope.

Record State : Type := mkState {
  loading : bool;
  submitted : bool;
  formData : value
}.

Definition setLoading (b : bool) : effect State :=
Update (fun s =>
  {| loading := b; submitted := submitted s; formData := formData s |}).

Definition setSubmitted (b : bool) : effect State :=
Update (fun s =>
  {| loading := loading s; submitted := b; formData := formData s |}).

Definition submitContact (data : value) : async State :=
Api.apiCall "/contact" []
  {| method := Some "POST"; body := Some data; extra_headers := [] |}.

(** [handleSubmit], created by the render of [rendered]. *)
Definition handleSubmit (rendered : State) : async State :=
exec (setLoading true) ;;
try_finally
  (try_catch
     (submitContact (formData rendered) ;;
      exec (setSubmitted true) ;;
      exec (ToastSuccess "Message sent successfully!"))
     (fun error =>
        exec (ToastError (Lists.message_or error "Failed to send message"))))
  (exec (setLoading false)).

End ContactPage.

(* ===================================================================== *)
(** * Vocabulary of the further properties *)
(* ===================================================================== *)

Module MoreSpec.
Import JS Async Api App Spec.

(** The roles a page is reserved for; none for a public page. *)
Definition allowed (p : page) : list string :=
match p with
| StudentDashboard => ["student"]
| EducatorDashboard | ArticleEditor => ["educator"; "admin"]
| AdminDashboard => ["admin"]
| _ => []
end.

(** The visitor may see page [p]. *)
Definition permitted (auth : AuthContext.State) (p : page) : Prop :=
allowed p = []
\/ (AuthContext.loading auth = false /\ holds_one_of auth (allowed p)).

Definition login_request (email password : string) : request :=
{| path := "/auth/login"; query := [];
   req_method := Some "POST";
   credentials := Some "include";
   headers := [Api.json_content];
   req_body := Some (VObj [("email", VStr email);
                           ("password", VStr password)]) |}.

Definition otp_request (email otpCode : string) : request :=
{| path := ("/auth/verify-otp?email=" ++ encodeURIComponent email
            ++ "&otp_code=" ++ otpCode)%string;
   query := [];
   req_method := Some "POST";
   credentials := Some "include";
   headers := [];
   req_body := None |}.

(** [p] is a sign-in call.  It sends [rq] and nothing else.  When it
    throws the auth state is untouched.  It returns exactly when the
    response is ok and has a JSON body with properties to read (not
    [null]): the value returned is that body and the user is its [user]
    field.  A refusal with such a body throws an [Error] whose message is
    the [detail] of the body as a string, or [fallback] when the detail is
    missing or falsy.  A body that is not JSON throws the [SyntaxError] of
    [response.json()], a [null] body a [TypeError], a request that cannot
    be sent the [TypeError] of [fetch]. *)
Definition signs_in (p : async AuthContext.State) (rq : request)
  (fallback : string) : Prop :=
forall (backend : request -> fetch_result) (s : AuthContext.State),
  let o := run backend p s in
  requests o = [rq]
  /\ (forall e, settled o = Thrown e -> final o = s)
  /\ (forall data, settled o = Returned data ->
      backend rq = Resolved {| ok := true; json := Some data |}
      /\ get data "user" = Some (AuthContext.user (final o))
      /\ AuthContext.loading (final o) = AuthContext.loading s)
  /\ (forall fields m,
        backend rq = Resolved {| ok := false; json := Some (VObj fields) |} ->
        lookup "detail" fields = Some (VStr m) -> m <> "" ->
        settled o = Thrown (Error m))
  /\ (forall fields,
        backend rq = Resolved {| ok := false; json := Some (VObj fields) |} ->
        lookup "detail" fields = None ->
        settled o = Thrown (Error fallback))
  /\ (forall data u,
        backend rq = Resolved {| ok := true; json := Some data |} ->
        get data "user" = Some u ->
        settled o = Returned data /\ AuthContext.user (final o) = u)
  /\ (forall body detail,
        backend rq = Resolved {| ok := false; json := Some body |} ->
        get body "detail" = Some detail ->
        settled o
        = Thrown (Error (to_string (or_else detail (VStr fallback)))))
  /\ (forall body,
        backend rq = Resolved {| ok := false; json := Some body |} ->
        get body "detail" = None ->
        exists m, settled o = Thrown (TypeError m))
  /\ (forall data,
        backend rq = Resolved {| ok := true; json := Some data |} ->
        get data "user" = None ->
        exists m, settled o = Thrown (TypeError m))
  /\ (forall b,
        backend rq = Resolved {| ok := b; json := None |} ->
        exists m, settled o = Thrown (SyntaxError m))
  /\ (backend rq = Rejected ->
        exists m, settled o = Thrown (TypeError m)).

(** [s] contains the separator [&]. *)
Fixpoint has_amp (s : string) : bool :=
match s with
| EmptyString => false
| String c rest => Ascii.eqb c "&"%char || has_amp rest
end.

(** Every character of [s] passes [p]. *)
Fixpoint every (p : ascii -> bool) (s : string) : bool :=
match s with
| EmptyString => true
| String c rest => p c && every p rest
end.

(** What a parameter value may hold without changing the split of the
    query: an unescaped character, or the [%] of an escape. *)
Definition inert (c : ascii) : bool :=
unescaped c || Ascii.eqb c "%"%char.

(** [s] is empty or begins with [&]: what may follow a parameter value. *)
Definition ends_value (s : string) : Prop :=
s = EmptyString \/ exists rest, s = String "&"%char rest.

(** The Explore page of the sample catalogue after [n] clicks on Load
    More, each made on the render of the state the previous one left. *)
Fixpoint browse (n : nat) : ExplorePage.State :=
match n with
| O => Samples.mounted
| S k =>
    final (run Samples.catalogue (ExplorePage.loadMore (browse k)) (browse k))
end.

(** The Explore page with filters [f] once the effect of the first render
    has run against [backend]. *)
Definition first_load (backend : request -> fetch_result)
  (f : ExplorePage.Filters) : ExplorePage.State :=
final (run backend (ExplorePage.fetchArticles (ExplorePage.initial f) true)
           (ExplorePage.initial f)).

(** The page after [n] clicks on Load More from [s0], each made on the
    render of the state the previous one left. *)
Fixpoint clicks (backend : request -> fetch_result) (s0 : ExplorePage.State)
  (n : nat) : ExplorePage.State :=
match n with
| O => s0
| S k =>
    final (run backend (ExplorePage.loadMore (clicks backend s0 k))
               (clicks backend s0 k))
end.

(** The request a tab of the admin dashboard loads its list with. *)
Definition tab_request (tab : string) : option request :=
if (tab =? "educators")%string then
  Some (authenticated "/admin/educators" [] no_options)
else if (tab =? "articles")%string then
  Some (authenticated "/admin/articles" [("status", VStr "pending")] no_options)
else if (tab =? "reports")%string then
  Some (authenticated "/admin/reports" [("status", VStr "pending")] no_options)
else if (tab =? "queries")%string then
  Some (authenticated "/admin/contact-queries" [("status", VStr "new")]
                      no_options)
else None.

(** The four lists of the admin dashboard, by tab. *)
Definition lists_of (s : AdminDashboardPage.State) : list (string * value) :=
[("educators", AdminDashboardPage.educators s);
 ("articles", AdminDashboardPage.articles s);
 ("reports", AdminDashboardPage.reports s);
 ("queries", AdminDashboardPage.queries s)].

(** Everything else the admin dashboard holds. *)
Definition rest_of (s : AdminDashboardPage.State)
  : string * value * value * bool * bool * value :=
(AdminDashboardPage.activeTab s, AdminDashboardPage.dashboard s,
 AdminDashboardPage.subjects s, AdminDashboardPage.loading s,
 AdminDashboardPage.showCreateEducator s, AdminDashboardPage.newEducator s).

Definition create_request (data : value) : request :=
authenticated "/admin/educators" []
  {| method := Some "POST"; body := Some data; extra_headers := [] |}.

Definition educators_request : request :=
authenticated "/admin/educators" [] no_options.

(** The request a tab of the student dashboard loads its list with. *)
Definition student_tab_request (tab : string) : option request :=
if (tab =? "liked")%string then
  Some (authenticated "/students/me/liked" [] no_options)
else if (tab =? "bookmarked")%string then
  Some (authenticated "/students/me/bookmarked" [] no_options)
else if (tab =? "history")%string then
  Some (authenticated "/students/me/history" [] no_options)
else None.

Definition contact_request (data : value) : request :=
authenticated "/contact" []
  {| method := Some "POST"; body := Some data; extra_headers := [] |}.

(** The text of [t] tenths: [15] reads [1.5]. *)
Definition tenths_text (t : Z) : string :=
(decimal (t / 10) ++ "." ++ decimal (t mod 10))%string.

(** [k] hundreds are abbreviated as [k] tenths of a thousand, and [k]
    hundred thousands as [k] tenths of a million. *)
Definition exact_at (k : Z) : bool :=
(Format.scaled (100 * k) 1000 =? tenths_text k)%string
&& (Format.scaled (100000 * k) 1000000 =? tenths_text k)%string.

(** [ok] holds on the [n] integers from [lo] on. *)
Fixpoint all_from (ok : Z -> bool) (n : nat) (lo : Z) : bool :=
match n with
| O => true
| S n' => ok lo && all_from ok n' (lo + 1)
end.

End MoreSpec.

(* ===================================================================== *)
(** * Further sample inputs *)
(* ===================================================================== *)

Module MoreSamples.
Import JS Async Api Spec MoreSpec.

(** The admin dashboard on its moderation tab, with one pending article. *)
Definition moderation : AdminDashboardPage.State :=
{| AdminDashboardPage.activeTab := "articles";
   AdminDashboardPage.dashboard := VNull;
   AdminDashboardPage.educators := VArr [];
   AdminDashboardPage.articles := VArr [Samples.entry "a7" "Optics"];
   AdminDashboardPage.reports := VArr [];
   AdminDashboardPage.queries := VArr [];
   AdminDashboardPage.subjects := VArr [];
   AdminDashboardPage.loading := false;
   AdminDashboardPage.showCreateEducator := true;
   AdminDashboardPage.newEducator :=
     VObj [("name", VStr "Ravi"); ("email", VStr "ravi@example.org");
           ("subject_ids", VArr []); ("bio", VStr "")] |}.



(** A backend that signs a student in. *)
Definition welcomed : request -> fetch_result :=
fun _ => Resolved {| ok := true;
                     json := Some (VObj [("user",
                                          VObj [("role", VStr "student")])]) |}.

(** The admin dashboard on its moderation tab, with three pending
    articles. *)
Definition queue : AdminDashboardPage.State :=
{| AdminDashboardPage.activeTab := "articles";
   AdminDashboardPage.dashboard := VNull;
   AdminDashboardPage.educators := VArr [];
   AdminDashboardPage.articles := VArr Samples.shelf;
   AdminDashboardPage.reports := VArr [];
   AdminDashboardPage.queries := VArr [];
   AdminDashboardPage.subjects := VArr [];
   AdminDashboardPage.loading := false;
   AdminDashboardPage.showCreateEducator := false;
   AdminDashboardPage.newEducator := AdminDashboardData.blank_educator |}.

End MoreSamples.

(* ===================================================================== *)
(** * Properties *)
(* ===================================================================== *)

(** ** Strings and values *)

Module JSFacts.
Import JS.

Lemma is_prefix_app (p s : string) : is_prefix p (p ++ s)%string = true.
Proof.
  induction p as [|c p IH]; simpl; [reflexivity|].
  now rewrite Ascii.eqb_refl, IH.
Qed.

Lemma includes_unfold (s needle : string) :
  includes s needle =
  is_prefix needle s ||
  match s with
  | EmptyString => false
  | String _ s' => includes s' needle
  end.
Proof. destruct s; reflexivity. Qed.

(** A string that contains [needle] anywhere is accepted by [includes]. *)
Lemma includes_intro (pre needle post : string) :
  includes (pre ++ needle ++ post)%string needle = true.
Proof.
  induction pre as [|c pre IH].
  - rewrite includes_unfold. simpl. now rewrite is_prefix_app.
  - simpl. rewrite IH. apply orb_true_r.
Qed.

Lemma is_prefix_elim (p s : string) :
  is_prefix p s = true -> exists post, s = (p ++ post)%string.
Proof.
  revert s; induction p as [|c p IH]; intros s H.
  - now exists s.
  - destruct s as [|d s]; simpl in H; [discriminate|].
    apply andb_true_iff in H as [Hc Hp].
    apply Ascii.eqb_eq in Hc; subst d.
    destruct (IH _ Hp) as [post ->]. now exists post.
Qed.

(** ... and only such strings are. *)
Lemma includes_elim (s needle : string) :
  includes s needle = true ->
  exists pre post, s = (pre ++ needle ++ post)%string.
Proof.
  induction s as [|c s IH]; simpl; intros H.
  - apply orb_true_iff in H as [H|H]; [|discriminate].
    destruct (is_prefix_elim _ _ H) as [post E].
    exists EmptyString, post. exact E.
  - apply orb_true_iff in H as [H|H].
    + destruct (is_prefix_elim _ _ H) as [post E].
      exists EmptyString, post. exact E.
    + destruct (IH H) as (pre & post & ->).
      now exists (String c pre), post.
Qed.

Lemma strict_eq_str_spec (v : value) (s : string) :
  strict_eq_str v s = true <-> v = VStr s.
Proof.
  destruct v; simpl; split; intros H; try discriminate.
  - apply String.eqb_eq in H. now subst.
  - injection H as ->. apply String.eqb_refl.
Qed.

Lemma includes_str_spec (xs : list string) (v : value) :
  includes_str xs v = true <-> exists r, In r xs /\ v = VStr r.
Proof.
  unfold includes_str. rewrite existsb_exists.
  split; intros (r & Hin & H); exists r; split; auto;
    now apply strict_eq_str_spec.
Qed.

Lemma decimal_nonempty (z : Z) : decimal z <> EmptyString.
Proof.
  unfold decimal. destruct (Z.to_int z) as [d|d]; simpl.
  - destruct d; simpl; discriminate.
  - discriminate.
Qed.

Lemma truthy_decimal (z : Z) : truthy (VStr (decimal z)) = true.
Proof.
  simpl. pose proof (decimal_nonempty z) as H.
  destruct (decimal z); [contradiction|reflexivity].
Qed.
Lemma get_defined (v : value) (name : string) :
  nullish v = false -> get v name = Some (get_opt v name).
Proof.
  unfold get_opt.
  destruct v; simpl; try discriminate; try reflexivity.
  now destruct (lookup name fields).
Qed.

Lemma get_nullish (v : value) (name : string) :
  nullish v = true -> get v name = None.
Proof. destruct v; simpl; try discriminate; reflexivity. Qed.

End JSFacts.

(** ** Route guard and router *)

Module AppFacts.
Import JS App Spec Samples.

Lemma nonempty_length (roles : list string) :
  (0 <? Z.of_nat (List.length roles)) = negb (match roles with [] => true | _ => false end).
Proof. destruct roles; reflexivity. Qed.

(** C1.  [ProtectedRoute] shows a spinner while the auth state loads;
    sends a visitor who is not signed in to [/login], keeping the
    location they came from; sends a signed-in user who holds none of a
    non-empty list of allowed roles to [/]; and renders its children in
    every other case.  So whenever a page guarded by a non-empty role list
    is shown, the user holds one of those roles. *)
Theorem ProtectedRoute_gate
  (auth : AuthContext.State) (loc : location) (roles : list string)
  (children : element) :
  (AuthContext.loading auth = true ->
   ProtectedRoute auth loc roles children = Spinner) /\
  (AuthContext.loading auth = false ->
   AuthContext.isAuthenticated auth = false ->
   ProtectedRoute auth loc roles children = Navigate "/login" (Some loc) true) /\
  (AuthContext.loading auth = false ->
   AuthContext.isAuthenticated auth = true ->
   roles <> [] -> ~ holds_one_of auth roles ->
   ProtectedRoute auth loc roles children = Navigate "/" None true) /\
  (AuthContext.loading auth = false ->
   AuthContext.isAuthenticated auth = true ->
   roles = [] \/ holds_one_of auth roles ->
   ProtectedRoute auth loc roles children = children) /\
  (forall p, roles <> [] ->
   ProtectedRoute auth loc roles (Show p) = Show p ->
   AuthContext.isAuthenticated auth = true /\ holds_one_of auth roles).
Proof.
  unfold ProtectedRoute, holds_one_of, role_of.
  rewrite nonempty_length.
  repeat split.
  - now intros ->.
  - now intros -> ->.
  - intros -> -> Hne Hnone. simpl.
    destruct (includes_str roles _) eqn:E.
    + apply JSFacts.includes_str_spec in E. contradiction.
    + destruct roles; [contradiction|reflexivity].
  - intros -> -> [->|Hin]; [reflexivity|]. simpl.
    apply JSFacts.includes_str_spec in Hin. rewrite Hin.
    now rewrite andb_false_r.
  - destruct (AuthContext.loading auth); [discriminate|].
    destruct (AuthContext.isAuthenticated auth); [reflexivity|discriminate].
  - destruct (AuthContext.loading auth); [discriminate|].
    destruct (AuthContext.isAuthenticated auth); [|discriminate]. simpl.
    destruct (includes_str roles _) eqn:E.
    + now apply JSFacts.includes_str_spec in E.
    + destruct roles; [contradiction|discriminate].
Qed.

(** A student who opens the admin route is sent home. *)
Lemma ProtectedRoute_gate_witness :
  ProtectedRoute student at_admin ["admin"] (Show AdminDashboard)
  = Navigate "/" None true.
Proof.
  apply (ProtectedRoute_gate student at_admin ["admin"] (Show AdminDashboard)).
  - reflexivity.
  - reflexivity.
  - discriminate.
  - intros (r & [<-|[]] & H). discriminate H.
Defined.

(** C9.  Whatever the pathname, a location whose hash contains
    [session_id=] is rendered by [AuthCallback], not by the route table. *)
Theorem AppRouter_session_fragment
  (auth : AuthContext.State) (loc : location) (before rest : string) :
  hash loc = Some (before ++ "session_id=" ++ rest)%string ->
  AppRouter auth loc = Show AuthCallback.
Proof.
  intros H. unfold AppRouter. rewrite H.
  now rewrite JSFacts.includes_intro.
Qed.

Lemma AppRouter_session_fragment_witness :
  AppRouter student admin_callback = Show AuthCallback
  /\ Routes student admin_callback = Navigate "/" None true.
Proof.
  split.
  - apply (AppRouter_session_fragment student admin_callback "#" "abc123").
    reflexivity.
  - reflexivity.
Defined.
End AppFacts.

(** ** Number formatting *)

Module FormatFacts.
Import JS Format.

Lemma numeric_safe (z : Z) :
  safe z = true -> numeric (VNum z) = Some (Some z).
Proof. intros H. unfold numeric. now rewrite H. Qed.

Lemma small_is_safe (z : Z) : 0 <= z < 1000 -> safe z = true.
Proof.
  intros H. unfold safe, MAX_SAFE_INTEGER. apply Z.leb_le.
  rewrite Z.abs_eq by lia. change (2 ^ 53 - 1) with 9007199254740991. lia.
Qed.

Lemma toString_or_zero_num (z : Z) :
  toString_or_zero (VNum z) = decimal z.
Proof.
  unfold toString_or_zero, or_else. cbn [to_string].
  now rewrite JSFacts.truthy_decimal.
Qed.

(** C5, as formulated: the card shows 1000 views as [1.0K], not as the
    number received. *)
Lemma formatNumber_abbreviates_counterexample :
  ArticleCard.formatNumber (VNum 1000) = Some "1.0K"
  /\ Dashboard.formatNumber (VNum 1000) = Some "1.0K"
  /\ ArticleCard.formatNumber (VNum 1000) <> Some (to_string (VNum 1000)).
Proof. repeat split; vm_compute; congruence. Qed.

(** C5, amended.  A counter below one thousand is shown as the decimal
    text of the number received, and a missing one as [0].  From one
    thousand on, [formatNumber] shows an abbreviation: thousands with one
    decimal and the suffix [K], and on the cards millions with the suffix
    [M]. *)
Theorem formatNumber_small_unchanged (z : Z) :
  (0 <= z < 1000 ->
   ArticleCard.formatNumber (VNum z) = Some (decimal z)
   /\ Dashboard.formatNumber (VNum z) = Some (decimal z))
  /\ ArticleCard.formatNumber VNull = Some "0"
  /\ ArticleCard.formatNumber VUndefined = Some "0"
  /\ Dashboard.formatNumber VNull = Some "0"
  /\ Dashboard.formatNumber VUndefined = Some "0"
  /\ (1000 <= z <= MAX_SAFE_INTEGER ->
      Dashboard.formatNumber (VNum z)
      = Some (scaled z 1000 ++ "K")%string)
  /\ (1000 <= z < 1000000 ->
      ArticleCard.formatNumber (VNum z)
      = Some (scaled z 1000 ++ "K")%string)
  /\ (1000000 <= z <= MAX_SAFE_INTEGER ->
      ArticleCard.formatNumber (VNum z)
      = Some (scaled z 1000000 ++ "M")%string).
Proof.
  assert (Hsafe : forall y, 0 <= y <= MAX_SAFE_INTEGER -> safe y = true).
  { intros y Hy. unfold safe. apply Z.leb_le. rewrite Z.abs_eq; lia. }
  assert (Hmax : MAX_SAFE_INTEGER = 9007199254740991) by reflexivity.
  assert (Hlt : forall k, z < k -> (k <=? z) = false)
    by (intros; apply Z.leb_gt; lia).
  assert (Hge : forall k, k <= z -> (k <=? z) = true)
    by (intros; apply Z.leb_le; lia).
  split; [intros Hz; split|].
  3: repeat (split; [reflexivity|]); split; [|split]; intros Hz.
  - unfold ArticleCard.formatNumber.
    rewrite numeric_safe by (apply small_is_safe; lia). simpl ge_num.
    rewrite !Hlt by lia. now rewrite toString_or_zero_num.
  - unfold Dashboard.formatNumber.
    rewrite numeric_safe by (apply small_is_safe; lia). simpl ge_num.
    rewrite !Hlt by lia. now rewrite toString_or_zero_num.
  - unfold Dashboard.formatNumber.
    rewrite numeric_safe by (apply Hsafe; lia). simpl ge_num.
    now rewrite Hge by lia.
  - unfold ArticleCard.formatNumber.
    rewrite numeric_safe by (apply Hsafe; lia). simpl ge_num.
    rewrite Hlt by lia. now rewrite Hge by lia.
  - unfold ArticleCard.formatNumber.
    rewrite numeric_safe by (apply Hsafe; lia). simpl ge_num.
    now rewrite Hge by lia.
Qed.

Lemma formatNumber_small_unchanged_witness :
  ArticleCard.formatNumber (VNum 999) = Some "999"
  /\ Dashboard.formatNumber (VNum 999) = Some "999"
  /\ ArticleCard.formatNumber (VNum 1500) = Some "1.5K"
  /\ ArticleCard.formatNumber (VNum 1234567) = Some "1.2M"
  /\ Dashboard.formatNumber (VNum 1234567) = Some "1234.6K".
Proof.
  pose proof (formatNumber_small_unchanged 999) as (H1 & _).
  pose proof (formatNumber_small_unchanged 1500) as (_ & _ & _ & _ & _ & _ & H2 & _).
  pose proof (formatNumber_small_unchanged 1234567)
    as (_ & _ & _ & _ & _ & H3 & _ & H4).
  destruct H1 as [H1a H1b]; [lia|].
  split; [exact H1a|]. split; [exact H1b|].
  split; [rewrite H2 by lia; reflexivity|].
  split; [rewrite H4 by (unfold MAX_SAFE_INTEGER; simpl; lia); reflexivity|].
  rewrite H3 by (unfold MAX_SAFE_INTEGER; simpl; lia). reflexivity.
Defined.
End FormatFacts.

(** ** Running asynchronous functions *)

Module AsyncFacts.
Import JS Async.

Section Run.
Context {S : Type}.
Variable backend : request -> fetch_result.

Lemma run_All (ps : list (async S)) (k : result -> async S) (s : S) :
  run backend (All ps k) s =
  let '(s', evs, rs) := run_all backend ps s in
  after evs (run backend (k (gather rs)) s').
Proof. reflexivity. Qed.

Lemma after_nil (o : outcome S) : after [] o = o.
Proof. now destruct o. Qed.

Lemma after_after (e1 e2 : list event) (o : outcome S) :
  after e1 (after e2 o) = after (e1 ++ e2) o.
Proof. unfold after; simpl. now rewrite app_assoc. Qed.

(** Sequencing: the continuation runs from the state the first part
    left, unless the first part threw. *)
Lemma run_bind (p : async S) (f : value -> async S) (s : S) :
  run backend (bind p f) s =
  match settled (run backend p s) with
  | Returned v =>
      after (trace (run backend p s))
            (run backend (f v) (final (run backend p s)))
  | Thrown _ => run backend p s
  end.
Proof.
  revert s.
  induction p as [v|e|rq k IH|a k IH|ps k IH]; intros s.
  - simpl. now rewrite after_nil.
  - reflexivity.
  - simpl. rewrite IH.
    destruct (settled (run backend (k (backend rq)) s));
      [now rewrite after_after|reflexivity].
  - simpl. rewrite IH.
    destruct (settled (run backend k (apply a s)));
      [now rewrite after_after|reflexivity].
  - cbn [bind]. rewrite !run_All.
    destruct (run_all backend ps s) as [[s' evs] rs]. rewrite IH.
    destruct (run backend (k (gather rs)) s') as [s2 t2 [v|e]];
      cbn [after settled final trace];
      [now rewrite after_after|reflexivity].
Qed.

(** [catch] runs only after a throw, from the state reached by then. *)
Lemma run_try_catch (p : async S) (h : exn -> async S) (s : S) :
  run backend (try_catch p h) s =
  match settled (run backend p s) with
  | Returned _ => run backend p s
  | Thrown e =>
      after (trace (run backend p s))
            (run backend (h e) (final (run backend p s)))
  end.
Proof.
  revert s.
  induction p as [v|e|rq k IH|a k IH|ps k IH]; intros s.
  - reflexivity.
  - simpl. now rewrite after_nil.
  - simpl. rewrite IH.
    destruct (settled (run backend (k (backend rq)) s));
      [reflexivity|now rewrite after_after].
  - simpl. rewrite IH.
    destruct (settled (run backend k (apply a s)));
      [reflexivity|now rewrite after_after].
  - cbn [try_catch]. rewrite !run_All.
    destruct (run_all backend ps s) as [[s' evs] rs]. rewrite IH.
    destruct (run backend (k (gather rs)) s') as [s2 t2 [v|e]];
      cbn [after settled final trace];
      [reflexivity|now rewrite after_after].
Qed.

(** [finally] always runs, and keeps the outcome of the body unless it
    throws itself. *)
Lemma run_try_finally (p fin : async S) (s : S) :
  run backend (try_finally p fin) s =
  let o := run backend p s in
  let o' := run backend fin (final o) in
  match settled o' with
  | Returned _ =>
      {| final := final o'; trace := trace o ++ trace o';
         settled := settled o |}
  | Thrown _ => after (trace o) o'
  end.
Proof.
  revert s.
  induction p as [v|e|rq k IH|a k IH|ps k IH]; intros s.
  - cbn [try_finally]. rewrite run_bind. cbv zeta.
    cbn [run final trace settled].
    destruct (run backend fin s) as [s' t [r|e]];
      unfold after; simpl; rewrite ?app_nil_r; reflexivity.
  - cbn [try_finally]. rewrite run_bind. cbv zeta.
    cbn [run final trace settled].
    destruct (run backend fin s) as [s' t [r|e']];
      unfold after; simpl; rewrite ?app_nil_r; reflexivity.
  - simpl. rewrite IH. cbv zeta.
    destruct (settled (run backend fin _)); [reflexivity|].
    now rewrite after_after.
  - simpl. rewrite IH. cbv zeta.
    destruct (settled (run backend fin _)); [|now rewrite after_after].
    unfold after; simpl. now rewrite app_assoc.
  - cbn [try_finally]. rewrite !run_All.
    destruct (run_all backend ps s) as [[s' evs] rs]. rewrite IH. cbv zeta.
    cbn [after settled final trace].
    destruct (settled (run backend fin _)); [|now rewrite after_after].
    unfold after; simpl. now rewrite app_assoc.
Qed.

Lemma run_exec (a : effect S) (s : S) :
  run backend (exec a) s =
  {| final := apply a s; trace := trace_of a;
     settled := Returned VUndefined |}.
Proof. unfold exec. simpl. unfold after. simpl. now rewrite app_nil_r. Qed.
End Run.

(** *** The requests of a run *)

Section Requests.
Context {S : Type}.
Variable backend : request -> fetch_result.

Lemma run_read (v : value) (name : string) (s : S) :
  run backend (read v name) s =
  {| final := s; trace := [];
     settled := match get v name with
                | Some x => Returned x
                | None => Thrown (TypeError "Cannot read properties of null")
                end |}.
Proof. unfold read. now destruct (get v name). Qed.

Lemma requests_bind (p : async S) (f : value -> async S) (s : S) :
  requests (run backend (bind p f) s) =
  requests (run backend p s) ++
  match settled (run backend p s) with
  | Returned v => requests (run backend (f v) (final (run backend p s)))
  | Thrown _ => []
  end.
Proof.
  rewrite run_bind.
  destruct (run backend p s) as [s' t [v|e]]; cbn [settled final trace].
  - unfold requests, after. cbn [trace]. apply flat_map_app.
  - unfold requests. cbn [trace]. now rewrite app_nil_r.
Qed.

(** A [catch] block that calls nothing adds no request. *)
Lemma requests_try_catch (p : async S) (h : exn -> async S) (s : S) :
  (forall e s', requests (run backend (h e) s') = []) ->
  requests (run backend (try_catch p h) s) = requests (run backend p s).
Proof.
  intros Hq. rewrite run_try_catch.
  destruct (run backend p s) as [s' t [v|e]] eqn:E;
    cbn [settled final trace]; [reflexivity|].
  unfold requests at 1, after. cbn [trace]. rewrite flat_map_app.
  fold (requests (run backend (h e) s')). rewrite Hq.
  unfold requests. cbn [trace]. now rewrite app_nil_r.
Qed.

(** So does a [finally] block that only updates state. *)
Lemma requests_try_finally (p : async S) (a : effect S) (s : S) :
  requests (run backend (try_finally p (exec a)) s)
  = requests (run backend p s).
Proof.
  rewrite run_try_finally. cbv zeta. rewrite run_exec.
  cbn [settled]. unfold requests. cbn [trace]. rewrite flat_map_app.
  destruct a; cbn; now rewrite app_nil_r.
Qed.

Lemma requests_exec (a : effect S) (s : S) :
  requests (run backend (exec a) s) = [].
Proof. rewrite run_exec. unfold requests. now destruct a. Qed.
End Requests.

End AsyncFacts.

(** ** The fetch helpers *)

Module ApiFacts.
Import JS Async Api Spec Samples.
Import AsyncFacts.

Section Helpers.
Context {S : Type}.
Variable backend : request -> fetch_result.

Lemma run_settle (resp : response) (s : S) :
  run backend (settle resp) s =
  {| final := s; trace := []; settled := answer (Resolved resp) |}.
Proof.
  unfold settle, answer, parse, read.
  destruct resp as [[] [v|]]; simpl; try reflexivity.
  destruct (get v "detail"); reflexivity.
Qed.

Lemma run_apiCall endpoint params opts (s : S) :
  run backend (apiCall endpoint params opts) s =
  {| final := s;
     trace := [Fetched (authenticated endpoint params opts)];
     settled := answer (backend (authenticated endpoint params opts)) |}.
Proof.
  unfold apiCall, fetch. cbn [run]. fold (authenticated endpoint params opts).
  destruct (backend _) as [resp|]; [|reflexivity].
  now rewrite run_settle.
Qed.

Lemma run_publicApiCall endpoint params opts (s : S) :
  run backend (publicApiCall endpoint params opts) s =
  {| final := s;
     trace := [Fetched (anonymous endpoint params opts)];
     settled := answer (backend (anonymous endpoint params opts)) |}.
Proof.
  unfold publicApiCall, fetch. cbn [run]. fold (anonymous endpoint params opts).
  destruct (backend _) as [resp|]; [|reflexivity].
  now rewrite run_settle.
Qed.
End Helpers.

(** One step of a [requests] computation along a [bind]. *)
Ltac call_step :=
  rewrite requests_bind;
  rewrite ?run_exec, ?run_apiCall, ?run_read;
  cbn [settled final trace].

(** C2, as formulated: a 4xx body whose [detail] is the empty string does
    not give an error with that message, it gives the fallback. *)
Lemma apiCall_empty_detail_counterexample :
  ok empty_detail = false
  /\ option_map (fun b => get b "detail") (json empty_detail)
     = Some (Some (VStr ""))
  /\ settled (run (answering empty_detail)
                (apiCall "/articles/a1/like" [] POST) tt)
     = Thrown (Error "Request failed")
  /\ settled (run (answering empty_detail)
                (apiCall "/articles/a1/like" [] POST) tt)
     <> Thrown (Error "").
Proof. repeat split; vm_compute; congruence. Qed.

(** C2, amended.  A call issues exactly one fetch, whatever comes back.
    On a response that is not [ok] it throws an [Error]: with
    [An error occurred] when the body is not JSON; with the text of
    [detail] when the body is an object whose [detail] is truthy (a
    non-empty string is taken as it is); with [Request failed] when
    [detail] is missing or falsy.  On an [ok] response with a JSON body it
    returns the parsed body.  The component state is not touched. *)
Theorem apiCall_outcome
  (S : Type) (call : string -> list (string * value) -> options -> async S)
  (endpoint : string) (params : list (string * value)) (opts : options)
  (s : S) :
  In call [apiCall; publicApiCall] ->
  (forall backend,
     List.length (requests (run backend (call endpoint params opts) s)) = 1%nat
     /\ final (run backend (call endpoint params opts) s) = s)
  /\ (forall resp,
        let o := run (answering resp) (call endpoint params opts) s in
        (ok resp = true -> forall v, json resp = Some v ->
         settled o = Returned v)
        /\ (ok resp = false -> json resp = None ->
            settled o = Thrown (Error "An error occurred"))
        /\ (ok resp = false -> forall fields d,
            json resp = Some (VObj fields) ->
            lookup "detail" fields = Some d -> truthy d = true ->
            settled o = Thrown (Error (to_string d)))
        /\ (ok resp = false -> forall fields m,
            json resp = Some (VObj fields) ->
            lookup "detail" fields = Some (VStr m) -> m <> "" ->
            settled o = Thrown (Error m))
        /\ (ok resp = false -> forall fields,
            json resp = Some (VObj fields) ->
            (lookup "detail" fields = None
             \/ exists d, lookup "detail" fields = Some d
                          /\ truthy d = false) ->
            settled o = Thrown (Error "Request failed"))).
Proof.
  intros Hcall.
  assert (Hrun : forall backend, exists rq,
             run backend (call endpoint params opts) s =
             {| final := s; trace := [Fetched rq];
                settled := answer (backend rq) |}).
  { intros backend. destruct Hcall as [<-|[<-|[]]].
    - eexists. apply run_apiCall.
    - eexists. apply run_publicApiCall. }
  split.
  - intros backend. destruct (Hrun backend) as [rq ->]. now split.
  - intros resp o. subst o.
    destruct (Hrun (answering resp)) as [rq ->]. cbn [settled].
    unfold answering, answer.
    repeat match goal with |- _ /\ _ => split end.
    + intros -> v ->. reflexivity.
    + intros -> ->. reflexivity.
    + intros -> fields d -> Hd Ht. simpl. rewrite Hd.
      unfold or_else. now rewrite Ht.
    + intros -> fields m -> Hd Hm. simpl. rewrite Hd.
      unfold or_else. simpl.
      destruct m; [contradiction|reflexivity].
    + intros -> fields -> [Hd|(d & Hd & Ht)]; simpl; rewrite Hd.
      * reflexivity.
      * unfold or_else. now rewrite Ht.
Qed.

Lemma apiCall_outcome_witness :
  settled (run (answering not_found) (apiCall "/articles/zz" [] no_options) tt)
  = Thrown (Error "Article not found")
  /\ List.length (requests (run (answering not_found)
                    (apiCall "/articles/zz" [] no_options) tt)) = 1%nat.
Proof.
  destruct (apiCall_outcome unit apiCall "/articles/zz" [] no_options tt
              (or_introl eq_refl)) as [Hone Hresp].
  split.
  - destruct (Hresp not_found) as (_ & _ & _ & H & _).
    apply (H eq_refl [("detail", VStr "Article not found")]
             "Article not found" eq_refl eq_refl).
    discriminate.
  - apply Hone.
Defined.
End ApiFacts.

(** ** Like and bookmark on the article page *)

Module ArticleFacts.
Import JS Async Api Spec Samples ArticlePage.
Import AsyncFacts ApiFacts.

(** C3, as formulated: with the POST still in flight, the heart is not
    toggled and the count has not moved. *)
Lemma handleLike_not_optimistic_counterexample :
  stage_at_await (handleLike true unliked) unliked
  = Waiting [like_request (VStr "a1")]
  /\ isLiked (state_at_await (handleLike true unliked) unliked) = VBool false
  /\ likeCount (state_at_await (handleLike true unliked) unliked) = VNum 5
  /\ stage_at_await (handleBookmark true unliked) unliked
     = Waiting [bookmark_request (VStr "a1")]
  /\ isBookmarked (state_at_await (handleBookmark true unliked) unliked)
     = VBool false
  /\ bookmarkCount (state_at_await (handleBookmark true unliked) unliked)
     = VNum 2.
Proof. repeat split. Qed.

Lemma run_handleLike (backend : request -> fetch_result)
  (rendered s : State) (aid : value) :
  get (article rendered) "article_id" = Some aid ->
  run backend (handleLike true rendered) s =
  match answer (backend (like_request aid)) with
  | Returned result =>
      match get result "liked", get result "like_count" with
      | Some liked, Some like_count =>
          {| final := apply (setLikeCount like_count)
                        (apply (setIsLiked liked) s);
             trace := [Fetched (like_request aid);
                       ToastedSuccess (if truthy liked then "Article liked!"
                                       else "Like removed")];
             settled := Returned VUndefined |}
      | _, _ =>
          {| final := s;
             trace := [Fetched (like_request aid);
                       ToastedError "Failed to like article"];
             settled := Returned VUndefined |}
      end
  | Thrown _ =>
      {| final := s;
         trace := [Fetched (like_request aid);
                   ToastedError "Failed to like article"];
         settled := Returned VUndefined |}
  end.
Proof.
  intros Haid. unfold handleLike, read. rewrite Haid. cbn [negb bind].
  rewrite run_try_catch, run_bind. unfold Api.likeArticle.
  rewrite run_apiCall. fold (like_request aid). cbn [settled final trace].
  destruct (answer (backend (like_request aid))) as [result|e];
    [|reflexivity].
  destruct result as [| | | | | |fields]; try reflexivity.
  cbn [get]. destruct (lookup "liked" fields), (lookup "like_count" fields);
    reflexivity.
Qed.

Lemma run_handleBookmark (backend : request -> fetch_result)
  (rendered s : State) (aid : value) :
  get (article rendered) "article_id" = Some aid ->
  run backend (handleBookmark true rendered) s =
  match answer (backend (bookmark_request aid)) with
  | Returned result =>
      match get result "bookmarked", get result "bookmark_count" with
      | Some bookmarked, Some bookmark_count =>
          {| final := apply (setBookmarkCount bookmark_count)
                        (apply (setIsBookmarked bookmarked) s);
             trace := [Fetched (bookmark_request aid);
                       ToastedSuccess
                         (if truthy bookmarked then "Article bookmarked!"
                          else "Bookmark removed")];
             settled := Returned VUndefined |}
      | _, _ =>
          {| final := s;
             trace := [Fetched (bookmark_request aid);
                       ToastedError "Failed to bookmark article"];
             settled := Returned VUndefined |}
      end
  | Thrown _ =>
      {| final := s;
         trace := [Fetched (bookmark_request aid);
                   ToastedError "Failed to bookmark article"];
         settled := Returned VUndefined |}
  end.
Proof.
  intros Haid. unfold handleBookmark, read. rewrite Haid. cbn [negb bind].
  rewrite run_try_catch, run_bind. unfold Api.bookmarkArticle.
  rewrite run_apiCall. fold (bookmark_request aid). cbn [settled final trace].
  destruct (answer (backend (bookmark_request aid))) as [result|e];
    [|reflexivity].
  destruct result as [| | | | | |fields]; try reflexivity.
  cbn [get].
  destruct (lookup "bookmarked" fields), (lookup "bookmark_count" fields);
    reflexivity.
Qed.

Lemma start_handleLike (auth : bool) (rendered s : State) :
  state_at_await (handleLike auth rendered) s = s.
Proof.
  unfold state_at_await, handleLike, read.
  destruct auth; [|reflexivity].
  destruct (get (article rendered) "article_id"); reflexivity.
Qed.

Lemma start_handleBookmark (auth : bool) (rendered s : State) :
  state_at_await (handleBookmark auth rendered) s = s.
Proof.
  unfold state_at_await, handleBookmark, read.
  destruct auth; [|reflexivity].
  destruct (get (article rendered) "article_id"); reflexivity.
Qed.

(** C3, amended.  Pressing like or bookmark only sends the POST: while it
    is in flight the four values are what they were.  When the backend
    answers with a JSON record, [isLiked] and [likeCount] (resp.
    [isBookmarked] and [bookmarkCount]) become the [liked] and
    [like_count] (resp. [bookmarked] and [bookmark_count]) of that
    answer, whatever they were before, and the other pair is untouched. *)
Theorem toggle_follows_backend
  (rendered s : State) (aid result : value) :
  get (article rendered) "article_id" = Some aid ->
  get result "liked" <> None ->
  (stage_at_await (handleLike true rendered) s = Waiting [like_request aid]
   /\ state_at_await (handleLike true rendered) s = s
   /\ stage_at_await (handleBookmark true rendered) s
      = Waiting [bookmark_request aid]
   /\ state_at_await (handleBookmark true rendered) s = s)
  /\ (let o := run (answering {| ok := true; json := Some result |})
                 (handleLike true rendered) s in
      isLiked (final o) = get_opt result "liked"
      /\ likeCount (final o) = get_opt result "like_count"
      /\ isBookmarked (final o) = isBookmarked s
      /\ bookmarkCount (final o) = bookmarkCount s)
  /\ (let o := run (answering {| ok := true; json := Some result |})
                 (handleBookmark true rendered) s in
      isBookmarked (final o) = get_opt result "bookmarked"
      /\ bookmarkCount (final o) = get_opt result "bookmark_count"
      /\ isLiked (final o) = isLiked s
      /\ likeCount (final o) = likeCount s).
Proof.
  intros Haid Hrec. split; [|split].
  - rewrite start_handleLike, start_handleBookmark.
    unfold stage_at_await, handleLike, handleBookmark, read.
    rewrite Haid. repeat split.
  - cbv zeta. rewrite (run_handleLike _ _ _ _ Haid).
    unfold answering, answer, get_opt. cbn [ok json].
    destruct result as [| | | | | |fields];
      try (exfalso; apply Hrec; reflexivity); try (repeat split; fail).
    cbn [get].
    destruct (lookup "liked" fields), (lookup "like_count" fields);
      repeat split.
  - cbv zeta. rewrite (run_handleBookmark _ _ _ _ Haid).
    unfold answering, answer, get_opt. cbn [ok json].
    destruct result as [| | | | | |fields];
      try (exfalso; apply Hrec; reflexivity); try (repeat split; fail).
    cbn [get].
    destruct (lookup "bookmarked" fields), (lookup "bookmark_count" fields);
      repeat split.
Qed.

Lemma toggle_follows_backend_witness :
  state_at_await (handleLike true unliked) unliked = unliked
  /\ isLiked (final (run (answering {| ok := true; json := Some liked_answer |})
                       (handleLike true unliked) unliked)) = VBool true
  /\ likeCount (final (run (answering {| ok := true; json := Some liked_answer |})
                         (handleLike true unliked) unliked)) = VNum 6.
Proof.
  destruct (toggle_follows_backend unliked unliked (VStr "a1") liked_answer)
    as ((_ & Hs & _) & (Hl & Hc & _) & _).
  - reflexivity.
  - discriminate.
  - split; [exact Hs|]. split; [exact Hl|exact Hc].
Defined.

(** C7.  When the like (resp. bookmark) call throws, the handler leaves
    the whole page state as it was and shows one error toast; a click by
    a visitor who is not signed in sends nothing and changes nothing. *)
Theorem toggle_failure_keeps_state
  (backend : request -> fetch_result) (rendered s : State)
  (aid : value) (e : exn) :
  get (article rendered) "article_id" = Some aid ->
  (settled (run backend (Api.likeArticle aid) s) = Thrown e ->
   let o := run backend (handleLike true rendered) s in
   final o = s
   /\ trace o = [Fetched (like_request aid);
                 ToastedError "Failed to like article"])
  /\ (settled (run backend (Api.bookmarkArticle aid) s) = Thrown e ->
      let o := run backend (handleBookmark true rendered) s in
      final o = s
      /\ trace o = [Fetched (bookmark_request aid);
                    ToastedError "Failed to bookmark article"])
  /\ (let o := run backend (handleLike false rendered) s in
      final o = s /\ trace o = [ToastedError "Please login to like articles"])
  /\ (let o := run backend (handleBookmark false rendered) s in
      final o = s
      /\ trace o = [ToastedError "Please login to bookmark articles"]).
Proof.
  intros Haid. repeat match goal with |- _ /\ _ => split end.
  - unfold Api.likeArticle. rewrite run_apiCall. cbn [settled].
    fold (like_request aid). intros H. cbv zeta.
    rewrite (run_handleLike _ _ _ _ Haid), H. now split.
  - unfold Api.bookmarkArticle. rewrite run_apiCall. cbn [settled].
    fold (bookmark_request aid). intros H. cbv zeta.
    rewrite (run_handleBookmark _ _ _ _ Haid), H. now split.
  - now split.
  - now split.
Qed.

Lemma toggle_failure_keeps_state_witness :
  final (run (answering server_error) (handleLike true unliked) unliked)
  = unliked
  /\ trace (run (answering server_error) (handleLike true unliked) unliked)
     = [Fetched (like_request (VStr "a1"));
        ToastedError "Failed to like article"].
Proof.
  destruct (toggle_failure_keeps_state (answering server_error)
              unliked unliked (VStr "a1") (Error "Internal error") eq_refl)
    as (H & _).
  apply H. reflexivity.
Defined.
End ArticleFacts.

(** ** Which calls a screen issues *)

Module FetchFacts.
Import JS Async Api Spec Samples.
Import JSFacts AsyncFacts ApiFacts.

(** C6, as formulated: on the article page the second call is built
    from the answer to the first. *)
Lemma fetchData_chained_counterexample :
  requests (run (store "a1") (ArticlePage.fetchData (VStr "intro"))
              ArticlePage.initial)
  = [article_request (VStr "intro"); related_request (VStr "a1")]
  /\ requests (run (store "a2") (ArticlePage.fetchData (VStr "intro"))
                 ArticlePage.initial)
     = [article_request (VStr "intro"); related_request (VStr "a2")]
  /\ ~ response_independent (ArticlePage.fetchData (VStr "intro")).
Proof.
  split; [reflexivity|]. split; [reflexivity|].
  intros H.
  specialize (H (store "a1") (store "a2") ArticlePage.initial).
  vm_compute in H. discriminate H.
Qed.

Lemma requests_article (backend : request -> fetch_result)
  (id : value) (s : ArticlePage.State) :
  let o := run backend (ArticlePage.fetchData id) s in
  match answer (backend (article_request id)) with
  | Returned articleData =>
      match get articleData "article_id" with
      | Some article_id =>
          requests o = [article_request id; related_request article_id]
      | None => requests o = [article_request id]
      end
  | Thrown _ => requests o = [article_request id]
  end.
Proof.
  cbv zeta.
  assert (Hbody : forall body : async ArticlePage.State,
    requests (run backend
      (try_finally
         (try_catch body
            (fun _ =>
               bind (exec (ConsoleError "Failed to fetch article:"))
                 (fun _ => bind (exec (ToastError "Article not found"))
                    (fun _ => exec (NavigateTo "/explore")))))
         (exec (ArticlePage.setLoading false))) s)
    = requests (run backend body s)).
  { intros body. rewrite requests_try_finally, requests_try_catch;
      [reflexivity|].
    intros e s'. do 2 call_step. rewrite ?requests_exec. reflexivity. }
  unfold ArticlePage.fetchData. rewrite Hbody. clear Hbody.
  destruct (answer (backend (article_request id)))
    as [articleData|e] eqn:Ha;
    [destruct (nullish articleData) eqn:N;
     [rewrite (get_nullish _ "article_id" N)
     |rewrite (get_defined _ "article_id" N)]|];
    call_step; unfold Api.getArticle; call_step;
    fold (article_request id); rewrite Ha;
    unfold requests at 1 2; cbn [trace flat_map app].
  - call_step. unfold requests at 1. cbn [trace flat_map app].
    call_step. rewrite (get_nullish _ "is_liked" N).
    reflexivity.
  - do 10 (call_step; rewrite ?(get_defined _ _ N);
           cbn [settled final trace];
           unfold requests at 1; cbn [trace flat_map app]).
    rewrite requests_bind. unfold Api.getRelatedArticles.
    rewrite run_apiCall. cbn [settled final trace].
    fold (related_request (get_opt articleData "article_id")).
    unfold requests at 1. cbn [trace flat_map app].
    destruct (answer (backend (related_request
                                 (get_opt articleData "article_id"))));
      [now rewrite requests_exec|reflexivity].
  - reflexivity.
Qed.

Lemma requests_educator (backend : request -> fetch_result)
  (id : value) (s : EducatorProfilePage.State) :
  requests (run backend (EducatorProfilePage.fetchData id) s)
  = [educator_request id; educator_articles_request id].
Proof.
  unfold EducatorProfilePage.fetchData.
  rewrite requests_try_finally, requests_try_catch
    by (intros; apply requests_exec).
  call_step. unfold await_all. rewrite run_All.
  unfold run_all, Api.getEducator, Api.getEducatorArticles.
  rewrite !run_apiCall. cbn [final trace settled app].
  fold (educator_request id) (educator_articles_request id).
  set (r1 := answer (backend (educator_request id))).
  set (r2 := answer (backend (educator_articles_request id))).
  destruct (gather [r1; r2]) as [both|e]; cbn [run after settled final trace].
  - unfold requests at 1. cbn [trace flat_map app].
    call_step. rewrite ?requests_exec. reflexivity.
  - reflexivity.
Qed.

(** C6, amended.  No call is cancelled or repeated, and the two calls of
    the educator profile are independent of each other's answers.  The
    article page chains its two calls: it asks for the article named by
    the route and, once that answer is there, asks for the related
    articles of the [article_id] found in it; when the first call fails
    the second is not made. *)
Theorem calls_of_a_screen (id : value) :
  response_independent (EducatorProfilePage.fetchData id)
  /\ (forall backend s,
        requests (run backend (EducatorProfilePage.fetchData id) s)
        = [educator_request id; educator_articles_request id])
  /\ (forall backend s articleData,
        answer (backend (article_request id)) = Returned articleData ->
        nullish articleData = false ->
        requests (run backend (ArticlePage.fetchData id) s)
        = [article_request id;
           related_request (get_opt articleData "article_id")])
  /\ (forall backend s e,
        answer (backend (article_request id)) = Thrown e ->
        requests (run backend (ArticlePage.fetchData id) s)
        = [article_request id]).
Proof.
  split; [|split; [|split]].
  - intros b1 b2 s. now rewrite !requests_educator.
  - intros. apply requests_educator.
  - intros backend s articleData Ha Hn.
    pose proof (requests_article backend id s) as H. cbv zeta in H.
    rewrite Ha, (get_defined _ _ Hn) in H. exact H.
  - intros backend s e Ha.
    pose proof (requests_article backend id s) as H. cbv zeta in H.
    now rewrite Ha in H.
Qed.

Lemma calls_of_a_screen_witness :
  requests (run (store "a1") (ArticlePage.fetchData (VStr "intro"))
              ArticlePage.initial)
  = [article_request (VStr "intro"); related_request (VStr "a1")].
Proof.
  destruct (calls_of_a_screen (VStr "intro")) as (_ & _ & H & _).
  apply (H (store "a1") ArticlePage.initial
           (VObj [("article_id", VStr "a1")])); reflexivity.
Defined.
End FetchFacts.

(** ** Registration *)

Module RegisterFacts.
Import JS Async Spec Samples.
Import AsyncFacts.

Lemma register_request_role (name email password : string) :
  asks_student_role (register_request name email password).
Proof. split; [reflexivity|]. eexists; split; reflexivity. Qed.

Lemma run_register (backend : request -> fetch_result)
  (name email password : string) (s : AuthContext.State) :
  exists r,
    run backend (AuthContext.register name email password) s =
    {| final := s;
       trace := [Fetched (register_request name email password)];
       settled := r |}.
Proof.
  unfold AuthContext.register, fetch. cbn [run].
  fold (register_request name email password).
  unfold AuthContext.reject_unless_ok, parse, read.
  destruct (backend _) as [[[] [v|]]|]; cbn; try (eexists; reflexivity).
  destruct (get v "detail"); eexists; reflexivity.
Qed.

Lemma run_handleSubmit_register (backend : request -> fetch_result)
  (rendered st : LoginPage.State) (from : string) :
  LoginPage.isLogin rendered = false ->
  let o := run backend (LoginPage.handleSubmit rendered from) st in
  requests o =
    [register_request (LoginPage.name (LoginPage.formData rendered))
                      (LoginPage.form_email (LoginPage.formData rendered))
                      (LoginPage.password (LoginPage.formData rendered))]
  /\ LoginPage.auth (final o) = LoginPage.auth st.
Proof.
  intros Hmode. cbv zeta. unfold LoginPage.handleSubmit. rewrite Hmode.
  unfold LoginPage.in_auth, AuthContext.register, fetch.
  unfold AuthContext.reject_unless_ok, parse, read.
  cbn [lift bind try_catch try_finally exec run].
  match goal with
  | |- context [backend ?rq] =>
      change rq with
        (register_request (LoginPage.name (LoginPage.formData rendered))
           (LoginPage.form_email (LoginPage.formData rendered))
           (LoginPage.password (LoginPage.formData rendered)));
      destruct (backend
        (register_request (LoginPage.name (LoginPage.formData rendered))
           (LoginPage.form_email (LoginPage.formData rendered))
           (LoginPage.password (LoginPage.formData rendered))))
        as [[[] [v|]]|]
  end; cbn; try (split; reflexivity).
  destruct (get v "detail"); cbn; split; reflexivity.
Qed.

(** C8.  Whatever name, e-mail and password are submitted, the one
    request made by [register] goes to [/auth/register] with [role] equal
    to [student], and [register] leaves the signed-in user as it was.
    The sign-up form of the login page sends exactly that request, built
    from its three fields, and does not change the signed-in user
    either. *)
Theorem registration_is_student
  (backend : request -> fetch_result) (name email password : string) :
  (forall s : AuthContext.State,
     let o := run backend (AuthContext.register name email password) s in
     requests o = [register_request name email password]
     /\ Forall asks_student_role (requests o)
     /\ final o = s)
  /\ (forall (rendered st : LoginPage.State) (from : string),
        LoginPage.isLogin rendered = false ->
        LoginPage.formData rendered =
          {| LoginPage.name := name; LoginPage.form_email := email;
             LoginPage.password := password |} ->
        let o := run backend (LoginPage.handleSubmit rendered from) st in
        requests o = [register_request name email password]
        /\ Forall asks_student_role (requests o)
        /\ LoginPage.auth (final o) = LoginPage.auth st).
Proof.
  split.
  - intros s. cbv zeta.
    destruct (run_register backend name email password s) as [r ->].
    unfold requests. cbn. repeat split.
    constructor; [apply register_request_role|constructor].
  - intros rendered st from Hmode Hform. cbv zeta.
    destruct (run_handleSubmit_register backend rendered st from Hmode)
      as [Hreq Hauth].
    rewrite Hreq, Hform. cbn [LoginPage.name LoginPage.form_email
                               LoginPage.password].
    repeat split; [|exact Hauth].
    constructor; [apply register_request_role|constructor].
Qed.

Lemma registration_is_student_witness :
  requests (run created (LoginPage.handleSubmit signup_form "/") signup_form)
  = [register_request "Asha" "asha@example.org" "secret"]
  /\ LoginPage.auth (final (run created
                              (LoginPage.handleSubmit signup_form "/")
                              signup_form))
     = AuthContext.initial.
Proof.
  destruct (registration_is_student created "Asha" "asha@example.org" "secret")
    as [_ H].
  destruct (H signup_form signup_form "/" eq_refl eq_refl) as (Hr & _ & Ha).
  split; [exact Hr|exact Ha].
Defined.
End RegisterFacts.

(** ** Pagination on the Explore page *)

Module ExploreFacts.
Import JS Async Api Spec Samples ExplorePage.
Import AsyncFacts ApiFacts.

(** [loadMore] asks for the page the current render holds, not for the
    next one. *)
Lemma loadMore_requests (backend : request -> fetch_result)
  (rendered s : State) :
  requests (run backend (loadMore rendered) s)
  = [articles_request (page rendered) (filters rendered)].
Proof.
  unfold loadMore, fetchArticles.
  rewrite requests_bind, run_exec. cbn [settled final trace].
  rewrite requests_try_finally, requests_try_catch
    by (intros; apply requests_exec).
  rewrite requests_bind, run_exec. cbn [settled final trace].
  rewrite requests_bind. unfold Api.getArticles.
  rewrite run_apiCall. cbn [settled final trace].
  fold (articles_request (page rendered) (filters rendered)).
  unfold requests at 1 2 3. cbn [trace flat_map app nextPage setLoading trace_of].
  destruct (answer _) as [data|e]; [|reflexivity].
  rewrite requests_bind, run_exec. cbn [settled final trace].
  unfold requests at 1. cbn [trace flat_map app appendArticles trace_of].
  rewrite requests_bind. unfold read_length.
  destruct (length_of data); cbn [run settled final trace];
    [rewrite requests_exec|]; reflexivity.
Qed.

(** The state a successful click leaves: the batch answered for the page of
    the current render is appended, the page counter is advanced, and
    [hasMore] tells whether that batch had exactly twelve entries. *)
Lemma loadMore_outcome (backend : request -> fetch_result)
  (s : State) (prev received : list value) :
  articles s = VArr prev ->
  answer (backend (articles_request (page s) (filters s)))
  = Returned (VArr received) ->
  final (run backend (loadMore s) s) =
  {| articles := VArr (prev ++ received); subjects := subjects s;
     loading := false; page := page s + 1;
     hasMore := Z.of_nat (List.length received) =? 12;
     filters := filters s; crashed := crashed s |}.
Proof.
  intros Hprev Hans. unfold loadMore, fetchArticles.
  rewrite run_bind, run_exec. cbn [settled final trace].
  rewrite run_try_finally. cbv zeta. rewrite run_try_catch.
  rewrite run_bind, run_exec. cbn [settled final trace].
  rewrite run_bind. unfold Api.getArticles. rewrite run_apiCall.
  fold (articles_request (page s) (filters s)). rewrite Hans.
  cbn [settled final trace]. rewrite !run_bind, !run_exec.
  cbn [settled final trace read_length length_of run].
  rewrite run_exec. cbn. rewrite Hprev. reflexivity.
Qed.

(** C4, at the failing input.  After the first load the page holds
    page 1 of the catalogue and [hasMore] is set.  One click on Load More
    asks for page 1 again and appends the same twelve articles a second
    time, while the page counter moves to 2. *)
Theorem loadMore_refetches_first_page :
  page mounted = 1
  /\ hasMore mounted = true
  /\ articles mounted = VArr (batch (VNum 1))
  /\ requests (run catalogue (loadMore mounted) mounted)
     = [articles_request 1 recent]
  /\ articles (final (run catalogue (loadMore mounted) mounted))
     = VArr (batch (VNum 1) ++ batch (VNum 1))
  /\ page (final (run catalogue (loadMore mounted) mounted)) = 2
  /\ hasMore (final (run catalogue (loadMore mounted) mounted)) = true.
Proof. repeat split; vm_compute; reflexivity. Qed.
End ExploreFacts.

(** ** Frame of the list mutations *)

Module ListFacts.
Import JS Async Api Spec Samples.
Import AsyncFacts ApiFacts.

Lemma others_removed (X : string) (l : list value) :
  records l ->
  exists kept, Lists.others X l = Some kept /\ removed X l kept.
Proof.
  induction 1 as [|a l Ha _ IH].
  - exists []. split; [reflexivity|constructor].
  - destruct IH as (kept & Hk & Hr). cbn [Lists.others].
    rewrite (JSFacts.get_defined a "article_id" Ha), Hk.
    destruct (strict_eq_str (get_opt a "article_id") X) eqn:E.
    + exists kept. split; [reflexivity|].
      apply removed_drop; [|exact Hr].
      apply JSFacts.strict_eq_str_spec in E.
      now rewrite (JSFacts.get_defined a "article_id" Ha), E.
    + exists (a :: kept). split; [reflexivity|].
      apply removed_keep; [|exact Hr].
      rewrite (JSFacts.get_defined a "article_id" Ha).
      intros H. injection H as H.
      apply JSFacts.strict_eq_str_spec in H. congruence.
Qed.

Lemma run_handleDeleteArticle (backend : request -> fetch_result)
  (rendered s : EducatorDashboardPage.State) (X : string) :
  run backend (EducatorDashboardPage.handleDeleteArticle rendered true X) s =
  match answer (backend (delete_request X)) with
  | Returned _ =>
      match EducatorDashboardPage.articles rendered with
      | VArr l =>
          match Lists.others X l with
          | Some kept =>
              {| final := apply (EducatorDashboardPage.setArticles (VArr kept)) s;
                 trace := [Fetched (delete_request X);
                           ToastedSuccess "Article deleted"];
                 settled := Returned VUndefined |}
          | None =>
              {| final := s;
                 trace := [Fetched (delete_request X);
                           ToastedError "Cannot read properties of null"];
                 settled := Returned VUndefined |}
          end
      | _ =>
          {| final := s;
             trace := [Fetched (delete_request X);
                       ToastedError "articles.filter is not a function"];
             settled := Returned VUndefined |}
      end
  | Thrown e =>
      {| final := s;
         trace := [Fetched (delete_request X);
                   ToastedError
                     (Lists.message_or e "Failed to delete article")];
         settled := Returned VUndefined |}
  end.
Proof.
  unfold EducatorDashboardPage.handleDeleteArticle. cbn [negb].
  rewrite run_try_catch, run_bind. unfold Api.deleteArticle.
  rewrite run_apiCall. fold (delete_request X). cbn [settled final trace].
  destruct (answer (backend (delete_request X))) as [v|e];
    [|reflexivity].
  unfold Lists.without.
  destruct (EducatorDashboardPage.articles rendered); try reflexivity.
  destruct (Lists.others X items); reflexivity.
Qed.

Lemma run_handleArticleAction (backend : request -> fetch_result)
  (rendered s : AdminDashboardPage.State) (X action : string)
  (reason : value) :
  run backend
    (AdminDashboardPage.handleArticleAction rendered X action reason) s =
  match answer (backend (action_request X action reason)) with
  | Returned _ =>
      match AdminDashboardPage.articles rendered with
      | VArr l =>
          match Lists.others X l with
          | Some kept =>
              {| final := apply (AdminDashboardPage.setArticles (VArr kept)) s;
                 trace := [Fetched (action_request X action reason);
                           ToastedSuccess
                             ("Article " ++ action ++ "d successfully")%string];
                 settled := Returned VUndefined |}
          | None =>
              {| final := s;
                 trace := [Fetched (action_request X action reason);
                           ToastedError "Cannot read properties of null"];
                 settled := Returned VUndefined |}
          end
      | _ =>
          {| final := s;
             trace := [Fetched (action_request X action reason);
                       ToastedError "articles.filter is not a function"];
             settled := Returned VUndefined |}
      end
  | Thrown e =>
      {| final := s;
         trace := [Fetched (action_request X action reason);
                   ToastedError
                     (Lists.message_or e
                        ("Failed to " ++ action ++ " article")%string)];
         settled := Returned VUndefined |}
  end.
Proof.
  unfold AdminDashboardPage.handleArticleAction.
  rewrite run_try_catch, run_bind. unfold Api.articleAction.
  rewrite run_apiCall. fold (action_request X action reason).
  cbn [settled final trace].
  destruct (answer (backend (action_request X action reason))) as [v|e];
    [|reflexivity].
  unfold Lists.without.
  destruct (AdminDashboardPage.articles rendered); try reflexivity.
  destruct (Lists.others X items); reflexivity.
Qed.

(** C10, at the failing input.  The educator clicks Delete on [a1] and on
    [a3] of the same list of three, before the first answer has come back.
    Both deletions succeed.  The first answer leaves [a2; a3].  The second
    handler filters the list of the render that created it, so it writes
    [a1; a2]: the list is not the previous list without [a3], and [a1],
    deleted, is shown again.  Two approvals by the admin on the same
    render do the same. *)
Theorem list_mutation_overwrites :
  let first :=
    run deleted (EducatorDashboardPage.handleDeleteArticle my_articles true "a1")
        my_articles in
  let second :=
    run deleted (EducatorDashboardPage.handleDeleteArticle my_articles true "a3")
        (final first) in
  let approved :=
    run deleted
        (AdminDashboardPage.handleArticleAction MoreSamples.queue "a1"
           "approve" VNull)
        MoreSamples.queue in
  let approved_next :=
    run deleted
        (AdminDashboardPage.handleArticleAction MoreSamples.queue "a3"
           "approve" VNull)
        (final approved) in
  EducatorDashboardPage.articles (final first)
  = VArr [entry "a2" "Cells"; entry "a3" "Tides"]
  /\ trace second = [Fetched (delete_request "a3");
                     ToastedSuccess "Article deleted"]
  /\ EducatorDashboardPage.articles (final second)
     = VArr [entry "a1" "Vectors"; entry "a2" "Cells"]
  /\ AdminDashboardPage.articles (final approved)
     = VArr [entry "a2" "Cells"; entry "a3" "Tides"]
  /\ trace approved_next
     = [Fetched (action_request "a3" "approve" VNull);
        ToastedSuccess "Article approved successfully"]
  /\ AdminDashboardPage.articles (final approved_next)
     = VArr [entry "a1" "Vectors"; entry "a2" "Cells"]
  /\ ~ removed "a3" [entry "a2" "Cells"; entry "a3" "Tides"]
                    [entry "a1" "Vectors"; entry "a2" "Cells"].
Proof.
  cbv zeta. repeat (split; [vm_compute; reflexivity|]).
  intros H. unfold entry in H. inversion H as [|a l kept Hid|]; subst.
  discriminate Hid.
Qed.
End ListFacts.

(* ===================================================================== *)
(** * Further properties *)
(* ===================================================================== *)

(** ** Who gets to see which page *)

Module GateFacts.
Import JS App Spec MoreSpec.

Lemma ProtectedRoute_shows (auth : AuthContext.State) (loc : location)
  (roles : list string) (p q : page) :
  roles <> [] ->
  ProtectedRoute auth loc roles (Show q) = Show p ->
  p = q /\ AuthContext.loading auth = false /\ holds_one_of auth roles.
Proof.
intros Hne H.
unfold ProtectedRoute in H.
destruct (AuthContext.loading auth) eqn:Hl; [discriminate|].
destruct (negb (AuthContext.isAuthenticated auth)); [discriminate|].
destruct (_ && _) eqn:E; [discriminate|].
injection H as <-. split; [reflexivity|]. split; [reflexivity|].
apply andb_false_iff in E as [E|E].
- destruct roles; [contradiction|discriminate].
- apply negb_false_iff in E.
  now apply JSFacts.includes_str_spec in E.
Qed.

Ltac split_route :=
  match goal with
  | |- context [match ?x with _ => _ end] => destruct x
  end.

Lemma Routes_shows (auth : AuthContext.State) (loc : location) (p : page) :
  Routes auth loc = Show p -> permitted auth p.
Proof.
assert (Hg : forall roles q, roles <> [] -> allowed q = roles ->
               ProtectedRoute auth loc roles (Show q) = Show p ->
               permitted auth p).
{ intros roles q Hne Hq H. apply ProtectedRoute_shows in H; [|exact Hne].
  destruct H as (-> & Hl & Hr). right. rewrite Hq. now split. }
assert (Hpub : forall q, allowed q = [] -> Show q = Show p -> permitted auth p).
{ intros q Hq H. injection H as <-. now left. }
unfold Routes.
generalize (map lowercase (segments (pathname loc))). intros l.
repeat split_route;
  first [ (intros H; discriminate H)
        | apply Hpub; reflexivity
        | apply Hg; [discriminate|reflexivity] ].
Qed.

(** X1.  Whatever the location and the auth state, the router shows a page
    reserved for some roles only to a visitor whose auth state has loaded
    and whose role is one of them: the student dashboard to students, the
    educator dashboard and the article editor to educators and admins, the
    admin dashboard to admins. *)
Theorem AppRouter_shows_only_permitted
  (auth : AuthContext.State) (loc : location) (p : page) :
  AppRouter auth loc = Show p -> permitted auth p.
Proof.
unfold AppRouter.
destruct (match hash loc with Some h => includes h "session_id=" | None => false end).
- intros H. injection H as <-. now left.
- apply Routes_shows.
Qed.

Lemma AppRouter_shows_only_permitted_witness :
  permitted Samples.student StudentDashboard.
Proof.
apply (AppRouter_shows_only_permitted Samples.student
         {| pathname := "/dashboard"; search := ""; hash := Some "" |}).
reflexivity.
Defined.

(** X2.  The three role flags of the auth context exclude one another, and
    each of them implies that a user is signed in. *)
Theorem role_flags_exclusive (s : AuthContext.State) :
  (AuthSession.isAdmin s = true ->
   AuthSession.isEducator s = false /\ AuthSession.isStudent s = false
   /\ AuthContext.isAuthenticated s = true)
  /\ (AuthSession.isEducator s = true ->
      AuthSession.isAdmin s = false /\ AuthSession.isStudent s = false
      /\ AuthContext.isAuthenticated s = true)
  /\ (AuthSession.isStudent s = true ->
      AuthSession.isAdmin s = false /\ AuthSession.isEducator s = false
      /\ AuthContext.isAuthenticated s = true).
Proof.
unfold AuthSession.isAdmin, AuthSession.isEducator, AuthSession.isStudent,
  AuthContext.isAuthenticated.
assert (Hobj : forall r, get_opt (AuthContext.user s) "role" = VStr r ->
                 truthy (AuthContext.user s) = true).
{ intros r. destruct (AuthContext.user s); try discriminate; reflexivity. }
repeat split;
  match goal with
  | H : strict_eq_str _ _ = true |- _ =>
      apply JSFacts.strict_eq_str_spec in H;
      first [ rewrite H; reflexivity | exact (Hobj _ H) ]
  end.
Qed.

Lemma role_flags_exclusive_witness :
  AuthSession.isEducator Samples.student = false
  /\ AuthSession.isAdmin Samples.student = false
  /\ AuthContext.isAuthenticated Samples.student = true.
Proof.
destruct (role_flags_exclusive Samples.student) as (_ & _ & H).
destruct (H eq_refl) as (Ha & He & Hi).
split; [exact He|]. split; [exact Ha|exact Hi].
Defined.

End GateFacts.

(** ** Session check, sign-in and sign-out *)

Module SessionFacts.
Import JS Async AuthContext AuthSession Spec MoreSpec.
Import AsyncFacts.

(** X3.  [checkAuth] never throws and always ends with [loading] false.  It
    asks [/auth/me] once; the user becomes the parsed body when the answer
    is ok and JSON, and [null] in every other case (error status, body that
    is not JSON, network failure). *)
Theorem checkAuth_settles (backend : request -> fetch_result) (s : State) :
  let o := run backend checkAuth s in
  loading (final o) = false
  /\ settled o = Returned VUndefined
  /\ requests o = [me_request]
  /\ (forall v, backend me_request = Resolved {| ok := true; json := Some v |} ->
      user (final o) = v)
  /\ ((forall v, backend me_request <> Resolved {| ok := true; json := Some v |}) ->
      user (final o) = VNull).
Proof.
cbv zeta. unfold checkAuth, fetch, parse. cbn [try_catch try_finally run].
destruct (backend me_request) as [[[] [v|]]|] eqn:E; cbn;
  repeat split; intros; try congruence;
  match goal with
  | H : forall v, _ <> _ |- _ => now destruct (H v)
  end.
Qed.

Lemma checkAuth_settles_witness :
  user (final (run (answering {| ok := true; json := Some (VStr "u") |})
                 checkAuth initial)) = VStr "u".
Proof.
destruct (checkAuth_settles
            (answering {| ok := true; json := Some (VStr "u") |}) initial)
  as (_ & _ & _ & H & _).
apply H. reflexivity.
Defined.

(** Closes a clause about an answer the backend did not give, or one that
    holds as computed. *)
Ltac settle :=
  intros;
  repeat match goal with
         | H : Resolved _ = Resolved _ |- _ => injection H as ?; subst
         end;
  try congruence;
  try (eexists; reflexivity).

(** The common shape of [login], [verifyOtp] and [googleLogin]. *)
Lemma signin_shape (backend : request -> fetch_result) (rq : request)
  (fallback : string) (s : State) :
  let o := run backend
             (fetch rq
                (fun resp =>
                   bind (reject_unless_ok fallback resp) (fun _ =>
                   bind (parse resp) (fun data =>
                   bind (read data "user") (fun u =>
                   Do (setUser u) (Ret data)))))) s in
  requests o = [rq]
  /\ (forall e, settled o = Thrown e -> final o = s)
  /\ (forall data, settled o = Returned data ->
      backend rq = Resolved {| ok := true; json := Some data |}
      /\ get data "user" = Some (user (final o))
      /\ loading (final o) = loading s)
  /\ (forall fields m,
        backend rq = Resolved {| ok := false; json := Some (VObj fields) |} ->
        lookup "detail" fields = Some (VStr m) -> m <> "" ->
        settled o = Thrown (Error m))
  /\ (forall fields,
        backend rq = Resolved {| ok := false; json := Some (VObj fields) |} ->
        lookup "detail" fields = None ->
        settled o = Thrown (Error fallback))
  /\ (forall data u,
        backend rq = Resolved {| ok := true; json := Some data |} ->
        get data "user" = Some u ->
        settled o = Returned data /\ user (final o) = u)
  /\ (forall body detail,
        backend rq = Resolved {| ok := false; json := Some body |} ->
        get body "detail" = Some detail ->
        settled o
        = Thrown (Error (to_string (or_else detail (VStr fallback)))))
  /\ (forall body,
        backend rq = Resolved {| ok := false; json := Some body |} ->
        get body "detail" = None ->
        exists m, settled o = Thrown (TypeError m))
  /\ (forall data,
        backend rq = Resolved {| ok := true; json := Some data |} ->
        get data "user" = None ->
        exists m, settled o = Thrown (TypeError m))
  /\ (forall b,
        backend rq = Resolved {| ok := b; json := None |} ->
        exists m, settled o = Thrown (SyntaxError m))
  /\ (backend rq = Rejected ->
        exists m, settled o = Thrown (TypeError m)).
Proof.
cbv zeta. unfold fetch, reject_unless_ok, parse, read. cbn [run].
destruct (backend rq) as [[[] [v|]]|] eqn:E; cbn.
- destruct (get v "user") eqn:G; cbn; repeat split; settle.
- repeat split; settle.
- destruct (get v "detail") eqn:G; cbn; repeat split; settle.
  + cbn in G. match goal with H : lookup _ _ = _ |- _ => rewrite H in G end.
    injection G as <-. unfold or_else. cbn.
    destruct m; [contradiction|reflexivity].
  + cbn in G. match goal with H : lookup _ _ = _ |- _ => rewrite H in G end.
    injection G as <-. reflexivity.
  + cbn in G. match goal with H : lookup _ _ = _ |- _ => rewrite H in G end.
    discriminate.
  + cbn in G. match goal with H : lookup _ _ = _ |- _ => rewrite H in G end.
    discriminate.
- repeat split; settle.
- repeat split; settle.
Qed.

(** X4.  [login], [verifyOtp] and [googleLogin] each send one request.
    They return exactly when the response is ok and has a JSON body other
    than [null]: the signed-in user becomes the [user] field of that body
    and the body is the value returned.  In every other case the call
    throws and the auth state is what it was.  A refusal with a JSON body
    other than [null] throws an [Error] whose message is the [detail] of
    the body converted to a string (a non-empty string as it is), or the
    fallback text of the call when the detail is missing or falsy.  A
    response whose body is not JSON throws the [SyntaxError] of
    [response.json()], a [null] body a [TypeError], and a request that
    cannot be sent the [TypeError] of [fetch]. *)
Theorem signin_only_on_ok (email password otpCode sessionId : string) :
  signs_in (login email password) (login_request email password)
           "Login failed"
  /\ signs_in (verifyOtp email otpCode) (otp_request email otpCode)
              "OTP verification failed"
  /\ signs_in (googleLogin sessionId) (google_request sessionId)
              "Google login failed".
Proof.
split; [|split]; intros backend s; apply signin_shape.
Qed.

Lemma signin_only_on_ok_witness :
  settled (run (answering
                  {| ok := false;
                     json := Some (VObj [("detail", VStr "Invalid OTP")]) |})
               (verifyOtp "a@b.c" "000000") initial)
  = Thrown (Error "Invalid OTP")
  /\ (exists m,
        settled (run (answering {| ok := false; json := None |})
                   (verifyOtp "a@b.c" "000000") initial)
        = Thrown (SyntaxError m)).
Proof.
destruct (signin_only_on_ok "a@b.c" "secret" "000000" "sid") as (_ & H & _).
split.
- destruct (H (answering
                 {| ok := false;
                    json := Some (VObj [("detail", VStr "Invalid OTP")]) |})
              initial) as (_ & _ & _ & H' & _).
  apply (H' [("detail", VStr "Invalid OTP")] "Invalid OTP");
    [reflexivity|reflexivity|discriminate].
- destruct (H (answering {| ok := false; json := None |}) initial)
    as (_ & _ & _ & _ & _ & _ & _ & _ & _ & H' & _).
  apply (H' false). reflexivity.
Defined.

(** X5.  [logout] clears the user as soon as the request is answered,
    whatever the status of the answer; when the request cannot be sent the
    call throws and the user stays signed in. *)
Theorem logout_clears_user (backend : request -> fetch_result) (s : State) :
  let o := run backend logout s in
  requests o = [logout_request]
  /\ (forall resp, backend logout_request = Resolved resp ->
      user (final o) = VNull /\ loading (final o) = loading s
      /\ settled o = Returned VUndefined)
  /\ (backend logout_request = Rejected ->
      final o = s /\ exists e, settled o = Thrown e).
Proof.
cbv zeta. unfold logout, fetch. cbn [run].
destruct (backend logout_request) as [resp|]; cbn; repeat split;
  intros; try congruence.
eexists. reflexivity.
Qed.

Lemma logout_clears_user_witness :
  user (final (run (answering {| ok := false; json := None |})
                 logout Samples.student)) = VNull.
Proof.
destruct (logout_clears_user (answering {| ok := false; json := None |})
            Samples.student) as (_ & H & _).
now destruct (H {| ok := false; json := None |} eq_refl).
Defined.

End SessionFacts.

(** ** The sign-in callback *)

Module CallbackFacts.
Import JS Async AuthCallbackPage Spec MoreSpec.
Import AsyncFacts.

Lemma sessionIdMatch_unfold (hash : string) :
  sessionIdMatch hash =
  match (if is_prefix "session_id=" hash then
           match token (skip 11 hash) with
           | EmptyString => None
           | found => Some found
           end
         else None) with
  | Some found => Some found
  | None =>
      match hash with
      | EmptyString => None
      | String _ rest => sessionIdMatch rest
      end
  end.
Proof. destruct hash; reflexivity. Qed.

Lemma token_clean (s : string) : has_amp (token s) = false.
Proof.
induction s as [|c s IH]; [reflexivity|]. simpl.
destruct (Ascii.eqb c "&") eqn:E; [reflexivity|]. simpl. now rewrite E, IH.
Qed.

Lemma token_split (s : string) :
  exists post, s = (token s ++ post)%string /\ ends_value post.
Proof.
induction s as [|c s (post & IH & Hp)].
- exists EmptyString. split; [reflexivity|now left].
- simpl. destruct (Ascii.eqb c "&") eqn:E.
  + apply Ascii.eqb_eq in E. subst c. exists (String "&" s).
    split; [reflexivity|]. right. now exists s.
  + exists post. split; [|exact Hp]. simpl. now rewrite <- IH.
Qed.

Lemma token_app (tok tail : string) :
  has_amp tok = false -> ends_value tail -> token (tok ++ tail) = tok.
Proof.
intros Hc Ht. induction tok as [|c tok IH].
- destruct Ht as [->|(r & ->)]; reflexivity.
- simpl in *. apply orb_false_iff in Hc as [Hc1 Hc2].
  rewrite Hc1. now rewrite IH.
Qed.

(** X6.  What [processAuth] extracts from the hash is a real parameter
    value: it is not empty, holds no [&], and stands in the hash right
    after [session_id=], up to the next [&] or the end.  In particular the
    router's test for [session_id=] succeeds on every hash from which an
    id can be extracted. *)
Theorem sessionIdMatch_sound (hash found : string) :
  sessionIdMatch hash = Some found ->
  found <> EmptyString
  /\ has_amp found = false
  /\ (exists before rest,
        hash = (before ++ "session_id=" ++ found ++ rest)%string
        /\ ends_value rest)
  /\ includes hash "session_id=" = true.
Proof.
intros H.
assert (Hmain : found <> EmptyString /\ has_amp found = false
                /\ exists before rest,
                     hash = (before ++ "session_id=" ++ found ++ rest)%string
                     /\ ends_value rest).
{ revert H. induction hash as [|c hash IH]; rewrite sessionIdMatch_unfold.
  - simpl. discriminate.
  - destruct (is_prefix "session_id=" (String c hash)) eqn:P.
    + destruct (token (skip 11 (String c hash))) as [|t0 t] eqn:T.
      * intros H. destruct (IH H) as (Hn & Hc & pre & post & -> & Hp).
        split; [exact Hn|]. split; [exact Hc|].
        now exists (String c pre), post.
      * intros H. injection H as <-.
        split; [discriminate|]. split; [rewrite <- T; apply token_clean|].
        apply JSFacts.is_prefix_elim in P as [rest E]. rewrite E in T |- *.
        change (skip 11 ("session_id=" ++ rest)) with rest in T.
        destruct (token_split rest) as (post & Hr & Hp).
        exists EmptyString, post. split; [|exact Hp].
        rewrite T in Hr. simpl. now rewrite Hr at 1.
    + intros H. destruct (IH H) as (Hn & Hc & pre & post & -> & Hp).
      split; [exact Hn|]. split; [exact Hc|].
      now exists (String c pre), post. }
destruct Hmain as (Hn & Hc & pre & post & E & Hp).
repeat split; try assumption.
- now exists pre, post.
- rewrite E. apply JSFacts.includes_intro.
Qed.

Lemma sessionIdMatch_sound_witness :
  includes "#session_id=abc&state=1" "session_id=" = true.
Proof.
apply (sessionIdMatch_sound "#session_id=abc&state=1" "abc"). reflexivity.
Defined.

(** X7.  A session id handed over as the URL fragment is recovered as it
    is, whatever parameters follow it: for an id that is not empty and
    holds no [&], the hash [#session_id=<id>], alone or followed by
    [&...], yields exactly that id. *)
Theorem sessionIdMatch_recovers (id tail : string) :
  id <> EmptyString -> has_amp id = false -> ends_value tail ->
  sessionIdMatch ("#session_id=" ++ id ++ tail) = Some id.
Proof.
intros Hn Hc Ht.
change ("#session_id=" ++ id ++ tail)%string
  with (String "#" ("session_id=" ++ id ++ tail))%string.
rewrite sessionIdMatch_unfold.
change (is_prefix "session_id=" (String "#" ("session_id=" ++ id ++ tail)))
  with false. cbv iota.
rewrite sessionIdMatch_unfold. rewrite JSFacts.is_prefix_app.
change (skip 11 ("session_id=" ++ id ++ tail)) with (id ++ tail)%string.
rewrite (token_app id tail Hc Ht).
destruct id; [contradiction|reflexivity].
Qed.

Lemma sessionIdMatch_recovers_witness :
  sessionIdMatch "#session_id=s-42&state=x" = Some "s-42".
Proof.
apply (sessionIdMatch_recovers "s-42" "&state=x").
- discriminate.
- reflexivity.
- right. now exists "state=x".
Defined.

Lemma run_processAuth (backend : request -> fetch_result)
  (hash sid : string) (s : State) :
  sessionIdMatch hash = Some sid ->
  run backend (processAuth hash) s =
  match settled (run backend (AuthSession.googleLogin sid) (auth s)) with
  | Returned _ =>
      {| final := set_auth (final (run backend (AuthSession.googleLogin sid)
                                     (auth s))) s;
         trace := [Fetched (AuthSession.google_request sid);
                   ToastedSuccess "Welcome to TATVGYA!"; Navigated "/"];
         settled := Returned VUndefined |}
  | Thrown e =>
      {| final := s;
         trace := [Fetched (AuthSession.google_request sid);
                   Logged "Auth callback error:";
                   ToastedError (Lists.message_or e "Authentication failed");
                   Navigated "/login"];
         settled := Returned VUndefined |}
  end.
Proof.
intros Hm. unfold processAuth. rewrite Hm.
unfold AuthSession.googleLogin, fetch, AuthContext.reject_unless_ok,
  parse, read.
cbn [lift bind try_catch exec run].
destruct (backend (AuthSession.google_request sid)) as [[[] [v|]]|]; cbn;
  try reflexivity.
- destruct (get v "user"); cbn; [|reflexivity].
  unfold set_auth. now destruct s.
- destruct (get v "detail"); reflexivity.
Qed.

(** X8.  [processAuth] always ends with one navigation.  Without a session
    id in the hash it sends nothing, reports an invalid response and goes
    to [/login].  With one it sends that id to [/auth/google-callback]
    once: on success the user is signed in and the page goes to [/]; on
    failure the auth state is untouched, the error is reported and the page
    goes to [/login]. *)
Theorem processAuth_outcome (backend : request -> fetch_result)
  (hash : string) (s : State) :
  let o := run backend (processAuth hash) s in
  (sessionIdMatch hash = None ->
   final o = s
   /\ trace o = [ToastedError "Invalid authentication response";
                 Navigated "/login"])
  /\ (forall sid, sessionIdMatch hash = Some sid ->
      requests o = [AuthSession.google_request sid]
      /\ (forall data,
            settled (run backend (AuthSession.googleLogin sid) (auth s))
            = Returned data ->
            get data "user" = Some (AuthContext.user (auth (final o)))
            /\ hasProcessed (final o) = hasProcessed s
            /\ trace o = [Fetched (AuthSession.google_request sid);
                          ToastedSuccess "Welcome to TATVGYA!";
                          Navigated "/"])
      /\ (forall e,
            settled (run backend (AuthSession.googleLogin sid) (auth s))
            = Thrown e ->
            final o = s
            /\ trace o = [Fetched (AuthSession.google_request sid);
                          Logged "Auth callback error:";
                          ToastedError
                            (Lists.message_or e "Authentication failed");
                          Navigated "/login"])).
Proof.
cbv zeta. split.
- intros Hm. unfold processAuth. rewrite Hm. now split.
- intros sid Hm. rewrite (run_processAuth backend hash sid s Hm).
  pose proof (SessionFacts.signin_shape backend
                (AuthSession.google_request sid) "Google login failed"
                (auth s)) as Hg.
  cbv zeta in Hg. fold (AuthSession.googleLogin sid) in Hg.
  destruct Hg as (_ & _ & Hok & _).
  destruct (settled (run backend (AuthSession.googleLogin sid) (auth s)))
    as [data|e] eqn:E.
  + split; [reflexivity|]. split.
    * intros d Hd. injection Hd as <-.
      destruct (Hok data eq_refl) as (_ & Hu & _).
      split; [exact Hu|]. now split.
    * discriminate.
  + split; [reflexivity|]. split; [discriminate|].
    intros e' He. injection He as <-. now split.
Qed.

Lemma processAuth_outcome_witness :
  trace (run (answering {| ok := false; json := None |})
           (processAuth "#session_id=") {| auth := Samples.student;
                                          hasProcessed := true |})
  = [ToastedError "Invalid authentication response"; Navigated "/login"].
Proof.
destruct (processAuth_outcome (answering {| ok := false; json := None |})
            "#session_id=" {| auth := Samples.student; hasProcessed := true |})
  as (H & _).
now destruct (H eq_refl).
Defined.



End CallbackFacts.

(** ** The forms of the login page *)

Module LoginFacts.
Import JS Async LoginPage Spec MoreSpec.
Import AsyncFacts.


Lemma run_handleSubmit_signup (backend : request -> fetch_result)
  (rendered st : State) (from : string) :
  isLogin rendered = false ->
  let call := run backend
                (AuthContext.register (name (formData rendered))
                                      (form_email (formData rendered))
                                      (password (formData rendered)))
                (auth st) in
  run backend (handleSubmit rendered from) st =
  {| final := match settled call with
              | Returned _ =>
                  {| auth := auth st; isLogin := isLogin st;
                     loading := false; showOtp := true;
                     email := form_email (formData rendered);
                     otp := otp st; formData := formData st |}
              | Thrown _ =>
                  {| auth := auth st; isLogin := isLogin st;
                     loading := false; showOtp := showOtp st;
                     email := email st; otp := otp st;
                     formData := formData st |}
              end;
     trace := Fetched (register_request (name (formData rendered))
                                        (form_email (formData rendered))
                                        (password (formData rendered)))
              :: match settled call with
                 | Returned _ => [ToastedSuccess "OTP sent to your email"]
                 | Thrown e => [ToastedError (message_of e)]
                 end;
     settled := Returned VUndefined |}.
Proof.
intros Hmode. cbv zeta. unfold handleSubmit. rewrite Hmode.
unfold in_auth, AuthContext.register, fetch, AuthContext.reject_unless_ok,
  parse, read.
cbn [lift bind try_catch try_finally exec run].
fold (register_request (name (formData rendered))
                       (form_email (formData rendered))
                       (password (formData rendered))).
destruct (backend _) as [[[] [v|]]|]; cbn; try (now destruct (auth st)).
destruct (get v "detail"); cbn; now destruct (auth st).
Qed.




(** X11.  Submitting the sign-up form always ends with [loading] false and
    never navigates.  The OTP step opens, for the e-mail of the form, only
    when the registration call succeeds; when it fails the page stays on
    the form ([showOtp] and [email] unchanged) and shows the message of the
    error. *)
Theorem signup_form_outcome (backend : request -> fetch_result)
  (rendered st : State) (from : string) :
  isLogin rendered = false ->
  let call := run backend
                (AuthContext.register (name (formData rendered))
                                      (form_email (formData rendered))
                                      (password (formData rendered)))
                (auth st) in
  let o := run backend (handleSubmit rendered from) st in
  loading (final o) = false
  /\ (forall to, ~ In (Navigated to) (trace o))
  /\ (forall data, settled call = Returned data ->
       showOtp (final o) = true
       /\ email (final o) = form_email (formData rendered)
       /\ In (ToastedSuccess "OTP sent to your email") (trace o))
  /\ (forall e, settled call = Thrown e ->
       showOtp (final o) = showOtp st
       /\ email (final o) = email st
       /\ In (ToastedError (message_of e)) (trace o)).
Proof.
intros Hmode. cbv zeta.
rewrite (run_handleSubmit_signup backend rendered st from Hmode).
cbv zeta. cbn [final trace].
destruct (settled _) as [data|e];
  (split; [reflexivity|]);
  (split; [intros to [H0|[H0|[]]]; discriminate|]); split.
- intros d _. cbn. tauto.
- intros e' He. discriminate.
- intros d Hd. discriminate.
- intros e' He. injection He as <-. cbn. tauto.
Qed.

Lemma signup_form_outcome_witness :
  showOtp (final (run Samples.created
                    (handleSubmit Samples.signup_form "/")
                    Samples.signup_form)) = true.
Proof.
destruct (signup_form_outcome Samples.created Samples.signup_form
            Samples.signup_form "/" eq_refl) as (_ & _ & H & _).
now destruct (H (VObj [("message", VStr "OTP sent")]) eq_refl).
Defined.

End LoginFacts.

(** ** Filters and pages of the Explore page *)

Module FilterFacts.
Import JS Async ExplorePage ExploreFilters Spec MoreSpec.
Import AsyncFacts ApiFacts.

Lemma eqb_empty (s : string) : (s =? "")%string = true -> s = EmptyString.
Proof. apply String.eqb_eq. Qed.

(** X12.  Filters survive the trip through the URL: the parameters the
    page writes for its filters, read back as the page does on load, give
    the same filters, provided [sort] is not the empty string (an empty
    [sort] would come back as [recent]). *)
Theorem filters_url_round_trip (f : Filters) :
  sort f <> EmptyString ->
  filters_of (url_of f) = f.
Proof.
intros Hsort. destruct f as [se su so]. unfold filters_of, url_of, param_or.
cbn [search subject sort] in *.
destruct (su =? "")%string eqn:Esu; destruct (se =? "")%string eqn:Ese;
  destruct (so =? "recent")%string eqn:Eso;
  try apply eqb_empty in Esu; try apply eqb_empty in Ese;
  try (apply String.eqb_eq in Eso); subst; cbn;
  rewrite ?Esu, ?Ese;
  try reflexivity;
  (destruct (so =? "")%string eqn:E0;
   [apply eqb_empty in E0; contradiction|reflexivity]).
Qed.

Lemma filters_url_round_trip_witness :
  filters_of (url_of {| search := "tides"; subject := "physics";
                        sort := "popular" |})
  = {| search := "tides"; subject := "physics"; sort := "popular" |}.
Proof.
apply (filters_url_round_trip
         {| search := "tides"; subject := "physics"; sort := "popular" |}).
discriminate.
Defined.

(** X13.  The number on the filter badge is the number of parameters the
    page writes to the URL; it lies between 0 and 3, and it is 0 exactly
    for the filters [clearFilters] sets. *)
Theorem activeFilterCount_counts_url (f : Filters) :
  activeFilterCount f = Z.of_nat (List.length (url_of f))
  /\ 0 <= activeFilterCount f <= 3
  /\ (activeFilterCount f = 0 <-> f = no_filters).
Proof.
destruct f as [se su so]. unfold activeFilterCount, url_of, no_filters.
cbn [search subject sort filter truthy].
destruct (su =? "")%string eqn:Esu; destruct (se =? "")%string eqn:Ese;
  destruct (so =? "recent")%string eqn:Eso; cbn;
  (split; [reflexivity|]); (split; [lia|]);
  split; intros H; try discriminate; try lia.
- apply eqb_empty in Esu, Ese. apply String.eqb_eq in Eso. now subst.
- injection H as -> -> ->. discriminate.
- injection H as -> -> ->. discriminate.
- injection H as -> -> ->. discriminate.
- injection H as -> -> ->. discriminate.
- injection H as -> -> ->. discriminate.
- injection H as -> -> ->. discriminate.
- injection H as -> -> ->. discriminate.
Qed.

Lemma activeFilterCount_counts_url_witness :
  activeFilterCount no_filters = 0.
Proof.
destruct (activeFilterCount_counts_url no_filters) as (_ & _ & H).
now apply H.
Defined.

Lemma run_fetchArticles_reset (backend : request -> fetch_result)
  (rendered s : State) :
  run backend (fetchArticles rendered true) s =
  {| final :=
       match answer (backend (articles_request 1 (filters rendered))) with
       | Returned data =>
           {| articles := data; subjects := subjects s; loading := false;
              page := 1;
              hasMore := match length_of data with
                         | Some n => strict_eq_num n 12
                         | None => hasMore s
                         end;
              filters := filters s; crashed := crashed s |}
       | Thrown _ =>
           {| articles := articles s; subjects := subjects s;
              loading := false; page := page s; hasMore := hasMore s;
              filters := filters s; crashed := crashed s |}
       end;
     trace :=
       Fetched (articles_request 1 (filters rendered))
       :: match answer (backend (articles_request 1 (filters rendered))) with
          | Returned data =>
              match length_of data with
              | Some _ => []
              | None => [Logged "Failed to fetch articles:"]
              end
          | Thrown _ => [Logged "Failed to fetch articles:"]
          end;
     settled := Returned VUndefined |}.
Proof.
unfold fetchArticles.
rewrite run_try_finally. cbv zeta. rewrite run_try_catch.
rewrite run_bind, run_exec. cbn [settled final trace].
rewrite run_bind. unfold Api.getArticles. rewrite run_apiCall.
fold (articles_request 1 (filters rendered)). cbn [settled final trace].
destruct (answer (backend (articles_request 1 (filters rendered))))
  as [data|e].
- cbv iota. unfold read_length.
  repeat (rewrite ?run_bind, ?run_exec; cbn [settled final trace]).
  destruct (length_of data) as [n|]; cbn; reflexivity.
- cbn. reflexivity.
Qed.

(** X14.  A search (or a change of filters) asks for page 1 of the filters
    of the current render, whatever page the list had reached, and never
    throws.  When the backend answers with an array, that array replaces
    the list, the page counter is back to 1 and [hasMore] tells whether it
    holds exactly twelve entries; when the call fails the list, the page
    counter and [hasMore] are kept.  In both cases [loading] ends false. *)
Theorem search_resets_list (backend : request -> fetch_result)
  (rendered s : State) :
  let o := run backend (fetchArticles rendered true) s in
  requests o = [articles_request 1 (filters rendered)]
  /\ settled o = Returned VUndefined
  /\ loading (final o) = false
  /\ (forall received,
        answer (backend (articles_request 1 (filters rendered)))
        = Returned (VArr received) ->
        articles (final o) = VArr received
        /\ page (final o) = 1
        /\ hasMore (final o) = (Z.of_nat (List.length received) =? 12))
  /\ (forall e,
        answer (backend (articles_request 1 (filters rendered))) = Thrown e ->
        articles (final o) = articles s
        /\ page (final o) = page s
        /\ hasMore (final o) = hasMore s).
Proof.
cbv zeta. rewrite run_fetchArticles_reset. unfold requests. cbn [trace final settled].
destruct (answer (backend (articles_request 1 (filters rendered))))
  as [data|e].
- split; [destruct (length_of data); reflexivity|].
  split; [reflexivity|]. split; [reflexivity|]. split.
  + intros received H. injection H as ->. now repeat split.
  + intros e H. discriminate.
- split; [reflexivity|]. split; [reflexivity|]. split; [reflexivity|]. split.
  + intros received H. discriminate.
  + intros e' _. now repeat split.
Qed.

Lemma search_resets_list_witness :
  articles (final (run Samples.catalogue
                     (fetchArticles (browse 2) true) (browse 2)))
  = VArr (Samples.batch (VNum 1)).
Proof.
destruct (search_resets_list Samples.catalogue (browse 2) (browse 2))
  as (_ & _ & _ & H & _).
now destruct (H (Samples.batch (VNum 1)) eq_refl).
Defined.

Lemma clicks_state (backend : request -> fetch_result) (f : Filters)
  (pages : Z -> list value) (n : nat) :
  (forall p, answer (backend (articles_request p f))
             = Returned (VArr (pages p))) ->
  clicks backend (first_load backend f) n =
  {| articles :=
       VArr (pages 1 ++ flat_map (fun i => pages (Z.of_nat i)) (seq 1 n));
     subjects := VArr []; loading := false;
     page := Z.of_nat n + 1;
     hasMore :=
       Z.of_nat (List.length (pages (Z.max 1 (Z.of_nat n)))) =? 12;
     filters := f; crashed := false |}.
Proof.
intros Hpages. induction n as [|n IH].
- cbn [clicks]. unfold first_load. rewrite run_fetchArticles_reset.
  cbn [final initial filters]. rewrite Hpages. cbn. now rewrite app_nil_r.
- cbn [clicks].
  rewrite (ExploreFacts.loadMore_outcome backend _
             (pages 1 ++ flat_map (fun i => pages (Z.of_nat i)) (seq 1 n))
             (pages (Z.of_nat n + 1))).
  + rewrite IH. cbn [subjects page filters crashed].
    rewrite seq_S, flat_map_app, <- app_assoc. cbn [flat_map].
    rewrite app_nil_r.
    replace (Z.of_nat (1 + n)) with (Z.of_nat n + 1) by lia.
    replace (Z.of_nat (S n) + 1) with (Z.of_nat n + 1 + 1) by lia.
    replace (Z.max 1 (Z.of_nat (S n))) with (Z.of_nat n + 1) by lia.
    reflexivity.
  + now rewrite IH.
  + rewrite IH. cbn [page filters]. apply Hpages.
Qed.

(** X15.  Against a backend that answers page [p] of the filters [f] with
    the list [pages p], the first render loads page 1 and the [n]-th click
    on Load More then asks for page [n]: the first click repeats page 1
    and every later click is one page behind the counter.  After [n]
    clicks the counter is [n + 1] and the list is page 1 followed by pages
    1 to [n]. *)
Theorem loadMore_one_page_behind (backend : request -> fetch_result)
  (f : Filters) (pages : Z -> list value) (n : nat) :
  (forall p, answer (backend (articles_request p f))
             = Returned (VArr (pages p))) ->
  let s := clicks backend (first_load backend f) n in
  requests (run backend (loadMore s) s)
  = [articles_request (Z.of_nat n + 1) f]
  /\ page s = Z.of_nat n + 1
  /\ articles s
     = VArr (pages 1 ++ flat_map (fun i => pages (Z.of_nat i)) (seq 1 n)).
Proof.
intros Hpages s. subst s.
rewrite ExploreFacts.loadMore_requests, (clicks_state _ _ pages n Hpages).
now repeat split.
Qed.

Lemma loadMore_one_page_behind_witness :
  let s := clicks Samples.catalogue
             (first_load Samples.catalogue Samples.recent) 2 in
  requests (run Samples.catalogue (loadMore s) s)
  = [articles_request 3 Samples.recent]
  /\ page s = 3
  /\ articles s
     = VArr (Samples.batch (VNum 1)
             ++ Samples.batch (VNum 1) ++ Samples.batch (VNum 2)).
Proof.
apply (loadMore_one_page_behind Samples.catalogue Samples.recent
         (fun p => Samples.batch (VNum p)) 2).
intros p. reflexivity.
Defined.

End FilterFacts.

(** ** Loading the dashboards *)

Module DashboardFacts.
Import JS Async Api Spec MoreSpec.
Import AsyncFacts ApiFacts.

Section ByValue.
Context {S : Type}.
Variable backend : request -> fetch_result.

(** The run lemmas again, with the first part of the program run once and
    its outcome taken apart. *)
Lemma step_bind (p : async S) (f : value -> async S) (s : S) :
  run backend (bind p f) s =
  match run backend p s with
  | {| final := s'; trace := t; settled := r |} =>
      match r with
      | Returned v => after t (run backend (f v) s')
      | Thrown e => {| final := s'; trace := t; settled := Thrown e |}
      end
  end.
Proof. rewrite run_bind. destruct (run backend p s) as [s' t [v|e]]; reflexivity. Qed.

Lemma step_try_catch (p : async S) (h : exn -> async S) (s : S) :
  run backend (try_catch p h) s =
  match run backend p s with
  | {| final := s'; trace := t; settled := r |} =>
      match r with
      | Returned v => {| final := s'; trace := t; settled := Returned v |}
      | Thrown e => after t (run backend (h e) s')
      end
  end.
Proof.
rewrite run_try_catch. destruct (run backend p s) as [s' t [v|e]]; reflexivity.
Qed.

Lemma step_try_finally (p : async S) (a : effect S) (s : S) :
  run backend (try_finally p (exec a)) s =
  match run backend p s with
  | {| final := s'; trace := t; settled := r |} =>
      {| final := apply a s'; trace := t ++ trace_of a; settled := r |}
  end.
Proof.
rewrite run_try_finally. cbv zeta. rewrite run_exec.
destruct (run backend p s) as [s' t r]. reflexivity.
Qed.

Lemma step_all (ps : list (async S)) (s : S) :
  run backend (await_all ps) s =
  match run_all backend ps s with
  | (s', evs, rs) =>
      {| final := s'; trace := evs ++ [];
         settled := gather rs |}
  end.
Proof.
unfold await_all. rewrite run_All.
destruct (run_all backend ps s) as [[s' evs] rs].
destruct (gather rs); reflexivity.
Qed.

Lemma run_all_cons (p : async S) (rest : list (async S)) (s : S) :
  run_all backend (p :: rest) s =
  match run backend p s with
  | {| final := s1; trace := t1; settled := r1 |} =>
      match run_all backend rest s1 with
      | (s', evs, rs) => (s', t1 ++ evs, r1 :: rs)
      end
  end.
Proof. cbn [run_all]. destruct (run backend p s) as [s1 t1 r1]. reflexivity. Qed.

Lemma run_all_nil (s : S) : run_all backend [] s = (s, [], []).
Proof. reflexivity. Qed.
End ByValue.

(** Evaluate a run as far as the answers of the backend are known. *)
Ltac eval_run :=
  repeat (first [ rewrite step_try_finally
                | rewrite step_try_catch
                | rewrite step_bind
                | rewrite step_all
                | rewrite run_all_cons
                | rewrite run_all_nil
                | rewrite run_apiCall
                | rewrite run_publicApiCall
                | rewrite run_exec
                | rewrite run_read ];
          cbn [after gather app]).

(** The same inside the equation [H] that names a run. *)
Ltac eval_in H :=
  repeat (first [ rewrite step_try_finally in H
                | rewrite step_try_catch in H
                | rewrite step_bind in H
                | rewrite step_all in H
                | rewrite run_all_cons in H
                | rewrite run_all_nil in H
                | rewrite run_apiCall in H
                | rewrite run_publicApiCall in H
                | rewrite run_exec in H
                | rewrite run_read in H ];
          cbn [after gather app] in H).

(** X16.  The educator dashboard loads its profile, statistics and
    subjects together.  All three requests are always sent and [loading]
    always ends false.  The three values are stored only when all three
    calls succeed; as soon as one fails none of them is stored and an error
    toast is shown.  The article list is never touched. *)
Theorem educator_dashboard_all_or_nothing
  (backend : request -> fetch_result) (s : EducatorDashboardPage.State) :
  let o := run backend EducatorDashboardData.fetchData s in
  let a1 := answer (backend (authenticated "/educators/me/profile" [] no_options)) in
  let a2 := answer (backend (authenticated "/educators/me/stats" [] no_options)) in
  let a3 := answer (backend (anonymous "/subjects" [] no_options)) in
  requests o = [authenticated "/educators/me/profile" [] no_options;
                authenticated "/educators/me/stats" [] no_options;
                anonymous "/subjects" [] no_options]
  /\ EducatorDashboardPage.loading (final o) = false
  /\ EducatorDashboardPage.articles (final o) = EducatorDashboardPage.articles s
  /\ (forall p st su,
        a1 = Returned p -> a2 = Returned st -> a3 = Returned su ->
        EducatorDashboardPage.profile (final o) = p
        /\ EducatorDashboardPage.stats (final o) = st
        /\ EducatorDashboardPage.subjects (final o) = su
        /\ ~ In (ToastedError "Failed to load dashboard data") (trace o))
  /\ ((exists e, a1 = Thrown e \/ a2 = Thrown e \/ a3 = Thrown e) ->
      EducatorDashboardPage.profile (final o) = EducatorDashboardPage.profile s
      /\ EducatorDashboardPage.stats (final o) = EducatorDashboardPage.stats s
      /\ EducatorDashboardPage.subjects (final o)
         = EducatorDashboardPage.subjects s
      /\ In (ToastedError "Failed to load dashboard data") (trace o)).
Proof.
cbv zeta.
unfold EducatorDashboardData.fetchData,
  EducatorDashboardData.getMyProfile, EducatorDashboardData.getMyStats,
  Api.getSubjects.
eval_run.
destruct (answer (backend (authenticated "/educators/me/profile" [] no_options)))
  as [p|e1];
destruct (answer (backend (authenticated "/educators/me/stats" [] no_options)))
  as [st|e2];
destruct (answer (backend (anonymous "/subjects" [] no_options)))
  as [su|e3];
  eval_run; unfold requests; cbn;
  (split; [reflexivity|]); (split; [reflexivity|]); (split; [reflexivity|]);
  (split;
   [ intros p' st' su' H1 H2 H3;
     first [ congruence
           | injection H1 as <-; injection H2 as <-; injection H3 as <-;
             repeat split; intros [H|[H|[H|[]]]]; discriminate ]
   | first [ intros (e & [H|[H|H]]); discriminate
           | intros _; repeat split; cbn; tauto ] ]).
Qed.

Lemma educator_dashboard_all_or_nothing_witness :
  EducatorDashboardPage.profile
    (final (run (answering {| ok := true; json := Some (VStr "x") |})
              EducatorDashboardData.fetchData Samples.my_articles))
  = VStr "x".
Proof.
destruct (educator_dashboard_all_or_nothing
            (answering {| ok := true; json := Some (VStr "x") |})
            Samples.my_articles) as (_ & _ & _ & H & _).
now destruct (H (VStr "x") (VStr "x") (VStr "x") eq_refl eq_refl eq_refl).
Defined.

(** X17.  The educator profile page and the admin dashboard load their two
    values the same way: both requests are always sent, [loading] always
    ends false, and the two values are stored together when both calls
    succeed and not at all when one fails. *)
Theorem paired_loads_all_or_nothing (backend : request -> fetch_result)
  (id : value) :
  (forall s : EducatorProfilePage.State,
     let o := run backend (EducatorProfilePage.fetchData id) s in
     let a1 := answer (backend (educator_request id)) in
     let a2 := answer (backend (educator_articles_request id)) in
     requests o = [educator_request id; educator_articles_request id]
     /\ EducatorProfilePage.loading (final o) = false
     /\ (forall e a, a1 = Returned e -> a2 = Returned a ->
          EducatorProfilePage.educator (final o) = e
          /\ EducatorProfilePage.articles (final o) = a)
     /\ ((exists e, a1 = Thrown e \/ a2 = Thrown e) ->
          EducatorProfilePage.educator (final o)
          = EducatorProfilePage.educator s
          /\ EducatorProfilePage.articles (final o)
             = EducatorProfilePage.articles s))
  /\ (forall s : AdminDashboardPage.State,
        let o := run backend AdminDashboardData.fetchDashboard s in
        let a1 := answer (backend (authenticated "/admin/dashboard" [] no_options)) in
        let a2 := answer (backend (anonymous "/subjects" [] no_options)) in
        requests o = [authenticated "/admin/dashboard" [] no_options;
                      anonymous "/subjects" [] no_options]
        /\ AdminDashboardPage.loading (final o) = false
        /\ (forall d su, a1 = Returned d -> a2 = Returned su ->
             AdminDashboardPage.dashboard (final o) = d
             /\ AdminDashboardPage.subjects (final o) = su)
        /\ ((exists e, a1 = Thrown e \/ a2 = Thrown e) ->
             AdminDashboardPage.dashboard (final o)
             = AdminDashboardPage.dashboard s
             /\ AdminDashboardPage.subjects (final o)
                = AdminDashboardPage.subjects s
             /\ In (ToastedError "Failed to load dashboard") (trace o))).
Proof.
split; intros s; cbv zeta.
- unfold EducatorProfilePage.fetchData, Api.getEducator,
    Api.getEducatorArticles.
  eval_run. fold (educator_request id) (educator_articles_request id).
  destruct (answer (backend (educator_request id))) as [e|e1];
  destruct (answer (backend (educator_articles_request id))) as [a|e2];
    eval_run; unfold requests; cbn;
    (split; [reflexivity|]); (split; [reflexivity|]);
    (split;
     [ intros e' a' H1 H2;
       first [ congruence
             | injection H1 as <-; injection H2 as <-; now split ]
     | first [ intros (x & [H|H]); discriminate
             | intros _; now split ] ]).
- unfold AdminDashboardData.fetchDashboard,
    AdminDashboardData.getAdminDashboard, Api.getSubjects.
  eval_run.
  destruct (answer (backend (authenticated "/admin/dashboard" [] no_options)))
    as [d|e1];
  destruct (answer (backend (anonymous "/subjects" [] no_options)))
    as [su|e2];
    eval_run; unfold requests; cbn;
    (split; [reflexivity|]); (split; [reflexivity|]);
    (split;
     [ intros d' su' H1 H2;
       first [ congruence
             | injection H1 as <-; injection H2 as <-; now split ]
     | first [ intros (x & [H|H]); discriminate
             | intros _; repeat split; cbn; tauto ] ]).
Qed.

Lemma paired_loads_all_or_nothing_witness :
  EducatorProfilePage.educator
    (final (run (answering {| ok := false; json := None |})
              (EducatorProfilePage.fetchData (VStr "e1"))
              EducatorProfilePage.initial))
  = VNull.
Proof.
destruct (paired_loads_all_or_nothing
            (answering {| ok := false; json := None |}) (VStr "e1"))
  as (H & _).
destruct (H EducatorProfilePage.initial) as (_ & _ & _ & Hf).
destruct Hf as [Hf _]; [|exact Hf].
exists (Error "An error occurred"). now left.
Defined.


Lemma lookup_other (name key : string) (v : value)
  (rest : list (string * value)) :
  name <> key -> lookup name ((key, v) :: rest) = lookup name rest.
Proof.
intros H. cbn [lookup]. destruct (key =? name)%string eqn:E; [|reflexivity].
apply String.eqb_eq in E. congruence.
Qed.

(** Loading one value: a call whose answer is stored by [store], with a
    [catch] that only logs. *)
Lemma run_load {S : Type} (backend : request -> fetch_result)
  (endpoint : string) (params : list (string * value))
  (store : value -> effect S) (note : string) (s : S) :
  run backend
    (try_catch
       (bind (Api.apiCall endpoint params no_options)
             (fun data => exec (store data)))
       (fun _ => exec (ConsoleError note))) s =
  match answer (backend (authenticated endpoint params no_options)) with
  | Returned data =>
      {| final := apply (store data) s;
         trace := Fetched (authenticated endpoint params no_options)
                  :: trace_of (store data);
         settled := Returned VUndefined |}
  | Thrown _ =>
      {| final := s;
         trace := [Fetched (authenticated endpoint params no_options);
                   Logged note];
         settled := Returned VUndefined |}
  end.
Proof.
eval_run.
destruct (answer (backend (authenticated endpoint params no_options)));
  eval_run; reflexivity.
Qed.

Ltac other_lists Hn :=
  intros name Hn; unfold lists_of; cbn -[String.eqb];
  repeat match goal with
         | |- context [(?k =? name)%string] =>
             let E := fresh "E" in
             destruct (k =? name)%string eqn:E;
             [ try (apply String.eqb_eq in E; congruence) | ]
         end;
  reflexivity.

(** X18.  Opening a tab of the admin dashboard sends at most one request,
    the one of that tab (none for the overview or an unknown tab), and
    never throws.  It changes nothing but the list of that tab: on success
    that list becomes the answer, on failure the whole state is kept. *)
Theorem admin_tab_load_frame (backend : request -> fetch_result)
  (rendered s : AdminDashboardPage.State) :
  let tab := AdminDashboardPage.activeTab rendered in
  let o := run backend (AdminDashboardData.fetchTabData rendered) s in
  requests o = match tab_request tab with Some rq => [rq] | None => [] end
  /\ settled o = Returned VUndefined
  /\ rest_of (final o) = rest_of s
  /\ (forall name, name <> tab ->
       lookup name (lists_of (final o)) = lookup name (lists_of s))
  /\ (forall rq data, tab_request tab = Some rq ->
       answer (backend rq) = Returned data ->
       lookup tab (lists_of (final o)) = Some data)
  /\ (forall rq e, tab_request tab = Some rq ->
       answer (backend rq) = Thrown e -> final o = s)
  /\ (tab_request tab = None -> final o = s).
Proof.
cbv zeta. unfold AdminDashboardData.fetchTabData. cbv zeta.
generalize (AdminDashboardPage.activeTab rendered). intros tab.
assert (Hfinish : forall (rq : request) (store : value -> effect _) key,
  tab_request tab = Some rq ->
  tab = key ->
  (forall data x, rest_of (apply (store data) x) = rest_of x) ->
  (forall data, trace_of (store data) = []) ->
  (forall data x name, name <> key ->
     lookup name (lists_of (apply (store data) x)) = lookup name (lists_of x)) ->
  (forall data x, lookup key (lists_of (apply (store data) x)) = Some data) ->
  forall o,
  o = match answer (backend rq) with
      | Returned data =>
          {| final := apply (store data) s;
             trace := Fetched rq :: trace_of (store data);
             settled := Returned VUndefined |}
      | Thrown _ =>
          {| final := s; trace := [Fetched rq; Logged "Failed to fetch tab data:"];
             settled := Returned VUndefined |}
      end ->
  requests o = match tab_request tab with Some rq => [rq] | None => [] end
  /\ settled o = Returned VUndefined
  /\ rest_of (final o) = rest_of s
  /\ (forall name, name <> tab ->
       lookup name (lists_of (final o)) = lookup name (lists_of s))
  /\ (forall rq data, tab_request tab = Some rq ->
       answer (backend rq) = Returned data ->
       lookup tab (lists_of (final o)) = Some data)
  /\ (forall rq e, tab_request tab = Some rq ->
       answer (backend rq) = Thrown e -> final o = s)
  /\ (tab_request tab = None -> final o = s)).
{ intros rq store key Hrq Hkey Hrest Htr Hother Hown o ->. rewrite Hrq.
  destruct (answer (backend rq)) as [data|e] eqn:Ha;
    unfold requests; cbn [trace final settled]; rewrite ?Htr;
    cbn [flat_map app].
  - split; [reflexivity|]. split; [reflexivity|]. split; [apply Hrest|].
    split; [intros name Hn; apply Hother; congruence|].
    split; [|split; [|discriminate]].
    + intros rq' d Hrq' Hd. injection Hrq' as <-. rewrite Ha in Hd.
      injection Hd as <-. rewrite Hkey. apply Hown.
    + intros rq' e Hrq' He. injection Hrq' as <-. congruence.
  - split; [reflexivity|]. split; [reflexivity|]. split; [reflexivity|].
    split; [reflexivity|].
    split; [|split; [reflexivity|discriminate]].
    intros rq' d Hrq' Hd. injection Hrq' as <-. congruence. }
destruct (tab =? "overview")%string eqn:Eo.
{ apply String.eqb_eq in Eo. subst tab. cbn.
  repeat split; intros; congruence. }
cbn [negb].
destruct (tab =? "educators")%string eqn:E1;
  [|destruct (tab =? "articles")%string eqn:E2;
    [|destruct (tab =? "reports")%string eqn:E3;
      [|destruct (tab =? "queries")%string eqn:E4]]].
- apply (Hfinish (authenticated "/admin/educators" [] no_options)
           AdminDashboardData.setEducators "educators");
    try (intros; reflexivity).
  + unfold tab_request. now rewrite E1.
  + now apply String.eqb_eq.
  + intros data x. other_lists Hn.
  + apply run_load.
- apply (Hfinish (authenticated "/admin/articles" [("status", VStr "pending")]
                                no_options)
           AdminDashboardPage.setArticles "articles");
    try (intros; reflexivity).
  + unfold tab_request. now rewrite E1, E2.
  + now apply String.eqb_eq.
  + intros data x. other_lists Hn.
  + apply run_load.
- apply (Hfinish (authenticated "/admin/reports" [("status", VStr "pending")]
                                no_options)
           AdminDashboardData.setReports "reports");
    try (intros; reflexivity).
  + unfold tab_request. now rewrite E1, E2, E3.
  + now apply String.eqb_eq.
  + intros data x. other_lists Hn.
  + apply run_load.
- apply (Hfinish (authenticated "/admin/contact-queries"
                                [("status", VStr "new")] no_options)
           AdminDashboardData.setQueries "queries");
    try (intros; reflexivity).
  + unfold tab_request. now rewrite E1, E2, E3, E4.
  + now apply String.eqb_eq.
  + intros data x. other_lists Hn.
  + apply run_load.
- unfold tab_request. rewrite E1, E2, E3, E4. cbn.
  repeat split; intros; congruence.
Qed.

Lemma admin_tab_load_frame_witness :
  lookup "reports"
    (lists_of (final (run Samples.deleted
                        (AdminDashboardData.fetchTabData MoreSamples.moderation)
                        MoreSamples.moderation)))
  = Some (VArr []).
Proof.
destruct (admin_tab_load_frame Samples.deleted MoreSamples.moderation
            MoreSamples.moderation) as (_ & _ & _ & H & _).
apply (H "reports"). discriminate.
Defined.

(** X19.  Creating an educator never throws.  When the creation call fails
    nothing is refreshed and the page state is kept as it was (the dialog
    stays open with the data typed in); the error is shown.  When it
    succeeds the password returned is shown, the dialog is closed, the form
    is blanked and the list of educators is asked for again: the list
    becomes that answer, or stays as it was when the refresh fails. *)
Theorem create_educator_outcome (backend : request -> fetch_result)
  (rendered s : AdminDashboardPage.State) :
  let o := run backend (AdminDashboardData.handleCreateEducator rendered) s in
  let created :=
    answer (backend (create_request (AdminDashboardPage.newEducator rendered))) in
  let listed := answer (backend educators_request) in
  settled o = Returned VUndefined
  /\ (forall e, created = Thrown e ->
       final o = s
       /\ trace o =
          [Fetched (create_request (AdminDashboardPage.newEducator rendered));
           ToastedError (Lists.message_or e "Failed to create educator")])
  /\ (forall result, created = Returned result -> nullish result = false ->
       requests o =
         [create_request (AdminDashboardPage.newEducator rendered);
          educators_request]
       /\ AdminDashboardPage.showCreateEducator (final o) = false
       /\ AdminDashboardPage.newEducator (final o)
          = AdminDashboardData.blank_educator
       /\ In (ToastedSuccess
                ("Educator created. Password: "
                 ++ to_string (get_opt result "password"))%string) (trace o)
       /\ (forall l, listed = Returned l ->
            AdminDashboardPage.educators (final o) = l)
       /\ (forall e, listed = Thrown e ->
            AdminDashboardPage.educators (final o)
            = AdminDashboardPage.educators s
            /\ In (ToastedError
                     (Lists.message_or e "Failed to create educator"))
                  (trace o))).
Proof.
cbv zeta.
unfold AdminDashboardData.handleCreateEducator,
  AdminDashboardData.createEducator, AdminDashboardData.getAdminEducators.
eval_run.
fold (create_request (AdminDashboardPage.newEducator rendered)).
fold educators_request.
destruct (answer (backend (create_request
                             (AdminDashboardPage.newEducator rendered))))
  as [result|e].
- eval_run. destruct (nullish result) eqn:N.
  + rewrite (JSFacts.get_nullish _ "password" N). eval_run.
    split; [reflexivity|]. split; [discriminate|].
    intros r Hr Hn. injection Hr as <-. congruence.
  + rewrite (JSFacts.get_defined _ "password" N). eval_run.
    fold educators_request.
    destruct (answer (backend educators_request)) as [l|e]; eval_run;
      unfold requests; cbn;
      (split; [reflexivity|]); (split; [discriminate|]);
      intros r Hr _; injection Hr as <-;
      (split; [reflexivity|]); (split; [reflexivity|]);
      (split; [reflexivity|]); (split; [tauto|]);
      (split; [intros l' Hl; congruence|]);
      intros e' He; try discriminate.
    injection He as <-. split; [reflexivity|tauto].
- eval_run. split; [reflexivity|]. split.
  + intros e' He. injection He as <-. now split.
  + discriminate.
Qed.

Lemma create_educator_outcome_witness :
  final (run (answering {| ok := false; json := None |})
           (AdminDashboardData.handleCreateEducator MoreSamples.moderation)
           MoreSamples.moderation)
  = MoreSamples.moderation.
Proof.
destruct (create_educator_outcome (answering {| ok := false; json := None |})
            MoreSamples.moderation MoreSamples.moderation) as (_ & H & _).
now destruct (H (Error "An error occurred") eq_refl).
Defined.

(** X20.  The list of the student dashboard follows the tab: a known tab
    ([liked], [bookmarked], [history]) sends its one request and the list
    becomes the answer, or stays as it was when the call fails; any other
    tab sends nothing and empties the list.  The effect never throws,
    always ends with [loading] false and never touches the profile. *)
Theorem student_tab_load (backend : request -> fetch_result)
  (rendered s : StudentDashboardPage.State) :
  let tab := StudentDashboardPage.activeTab rendered in
  let o := run backend (StudentDashboardPage.fetchArticles rendered) s in
  settled o = Returned VUndefined
  /\ StudentDashboardPage.loading (final o) = false
  /\ StudentDashboardPage.profile (final o) = StudentDashboardPage.profile s
  /\ requests o
     = match student_tab_request tab with Some rq => [rq] | None => [] end
  /\ (student_tab_request tab = None ->
       StudentDashboardPage.articles (final o) = VArr [])
  /\ (forall rq data, student_tab_request tab = Some rq ->
       answer (backend rq) = Returned data ->
       StudentDashboardPage.articles (final o) = data)
  /\ (forall rq e, student_tab_request tab = Some rq ->
       answer (backend rq) = Thrown e ->
       StudentDashboardPage.articles (final o)
       = StudentDashboardPage.articles s).
Proof.
cbv zeta. unfold StudentDashboardPage.fetchArticles, student_tab_request.
cbv zeta.
generalize (StudentDashboardPage.activeTab rendered). intros tab.
destruct (tab =? "liked")%string;
  [|destruct (tab =? "bookmarked")%string;
    [|destruct (tab =? "history")%string]];
  unfold StudentDashboardPage.getLikedArticles,
    StudentDashboardPage.getBookmarkedArticles,
    StudentDashboardPage.getReadingHistory;
  eval_run;
  try match goal with
      | |- context [answer (backend ?rq)] =>
          destruct (answer (backend rq)) as [data|e] eqn:Ha
      end;
  eval_run; unfold requests; cbn;
  repeat split; intros; congruence.
Qed.

Lemma student_tab_load_witness :
  StudentDashboardPage.articles
    (final (run Samples.deleted
              (StudentDashboardPage.fetchArticles
                 {| StudentDashboardPage.activeTab := "settings";
                    StudentDashboardPage.profile := VNull;
                    StudentDashboardPage.articles := VArr Samples.shelf;
                    StudentDashboardPage.loading := false |})
              {| StudentDashboardPage.activeTab := "settings";
                 StudentDashboardPage.profile := VNull;
                 StudentDashboardPage.articles := VArr Samples.shelf;
                 StudentDashboardPage.loading := false |}))
  = VArr [].
Proof.
destruct (student_tab_load Samples.deleted
            {| StudentDashboardPage.activeTab := "settings";
               StudentDashboardPage.profile := VNull;
               StudentDashboardPage.articles := VArr Samples.shelf;
               StudentDashboardPage.loading := false |}
            {| StudentDashboardPage.activeTab := "settings";
               StudentDashboardPage.profile := VNull;
               StudentDashboardPage.articles := VArr Samples.shelf;
               StudentDashboardPage.loading := false |})
  as (_ & _ & _ & _ & H & _).
apply H. reflexivity.
Defined.

(** X21.  Sending the contact form never throws and always ends with
    [loading] false.  The form is marked as submitted only when the call
    succeeds; when it fails [submitted] is unchanged and the message of the
    error is shown.  The data typed in is sent as it is and is never
    cleared. *)
Theorem contact_submit_outcome (backend : request -> fetch_result)
  (rendered s : ContactPage.State) :
  let o := run backend (ContactPage.handleSubmit rendered) s in
  let sent := answer (backend (contact_request (ContactPage.formData rendered))) in
  settled o = Returned VUndefined
  /\ requests o = [contact_request (ContactPage.formData rendered)]
  /\ ContactPage.loading (final o) = false
  /\ ContactPage.formData (final o) = ContactPage.formData s
  /\ (forall v, sent = Returned v ->
       ContactPage.submitted (final o) = true
       /\ In (ToastedSuccess "Message sent successfully!") (trace o))
  /\ (forall e, sent = Thrown e ->
       ContactPage.submitted (final o) = ContactPage.submitted s
       /\ In (ToastedError (Lists.message_or e "Failed to send message"))
             (trace o)).
Proof.
cbv zeta. unfold ContactPage.handleSubmit, ContactPage.submitContact.
eval_run. fold (contact_request (ContactPage.formData rendered)).
destruct (answer (backend (contact_request (ContactPage.formData rendered))))
  as [v|e]; eval_run; unfold requests; cbn;
  (split; [reflexivity|]); (split; [reflexivity|]);
  (split; [reflexivity|]); (split; [reflexivity|]); split;
  intros x Hx; try discriminate.
- split; [reflexivity|tauto].
- injection Hx as <-. split; [reflexivity|tauto].
Qed.

Lemma contact_submit_outcome_witness :
  ContactPage.submitted
    (final (run Samples.deleted
              (ContactPage.handleSubmit
                 {| ContactPage.loading := false;
                    ContactPage.submitted := false;
                    ContactPage.formData := VObj [("name", VStr "Asha")] |})
              {| ContactPage.loading := false;
                 ContactPage.submitted := false;
                 ContactPage.formData := VObj [("name", VStr "Asha")] |}))
  = true.
Proof.
destruct (contact_submit_outcome Samples.deleted
            {| ContactPage.loading := false;
               ContactPage.submitted := false;
               ContactPage.formData := VObj [("name", VStr "Asha")] |}
            {| ContactPage.loading := false;
               ContactPage.submitted := false;
               ContactPage.formData := VObj [("name", VStr "Asha")] |})
  as (_ & _ & _ & _ & H & _).
now destruct (H (VObj [("message", VStr "Article deleted")]) eq_refl).
Defined.

(** X22.  Signing out from a dashboard goes to [/] with the user cleared as
    soon as the logout request is answered, whatever the answer; when the
    request cannot be sent the handler throws, the user stays signed in
    and there is no navigation. *)
Theorem handleLogout_outcome (backend : request -> fetch_result)
  (s : AuthContext.State) :
  let o := run backend Dashboards.handleLogout s in
  (forall resp, backend AuthSession.logout_request = Resolved resp ->
   AuthContext.user (final o) = VNull
   /\ trace o = [Fetched AuthSession.logout_request; Navigated "/"])
  /\ (backend AuthSession.logout_request = Rejected ->
       final o = s
       /\ trace o = [Fetched AuthSession.logout_request]
       /\ exists e, settled o = Thrown e).
Proof.
cbv zeta. unfold Dashboards.handleLogout, AuthSession.logout, fetch.
cbn [bind run].
destruct (backend AuthSession.logout_request) as [resp|]; cbn; split;
  intros; try congruence; repeat split.
eexists. reflexivity.
Qed.

Lemma handleLogout_outcome_witness :
  trace (run (answering {| ok := false; json := None |})
           Dashboards.handleLogout Samples.student)
  = [Fetched AuthSession.logout_request; Navigated "/"].
Proof.
destruct (handleLogout_outcome (answering {| ok := false; json := None |})
            Samples.student) as (H & _).
now destruct (H {| ok := false; json := None |} eq_refl).
Defined.

(** X23.  The article list of the educator dashboard is loaded only on the
    [articles] tab, with the status filter of the current render as the
    [status] parameter; on any other tab nothing is sent and nothing
    changes.  On success the list becomes the answer, on failure the state
    is kept; the effect never throws. *)
Theorem educator_articles_load (backend : request -> fetch_result)
  (rendered s : EducatorDashboardPage.State) :
  let o := run backend (EducatorDashboardData.fetchArticles rendered) s in
  let rq := authenticated "/educators/me/articles"
              [("status", VStr (EducatorDashboardPage.articleFilter rendered))]
              no_options in
  settled o = Returned VUndefined
  /\ (EducatorDashboardPage.activeTab rendered <> "articles" ->
       final o = s /\ trace o = [])
  /\ (EducatorDashboardPage.activeTab rendered = "articles" ->
       requests o = [rq]
       /\ (forall data, answer (backend rq) = Returned data ->
            EducatorDashboardPage.articles (final o) = data
            /\ EducatorDashboardPage.profile (final o)
               = EducatorDashboardPage.profile s
            /\ EducatorDashboardPage.stats (final o)
               = EducatorDashboardPage.stats s)
       /\ (forall e, answer (backend rq) = Thrown e -> final o = s)).
Proof.
cbv zeta. unfold EducatorDashboardData.fetchArticles.
destruct (EducatorDashboardPage.activeTab rendered =? "articles")%string eqn:E.
- apply String.eqb_eq in E. unfold EducatorDashboardData.getMyArticles.
  rewrite run_load.
  destruct (answer (backend _)) as [data|e] eqn:Ha; unfold requests; cbn;
    (split; [reflexivity|]); (split; [intros Hn; contradiction|]);
    intros _; (split; [reflexivity|]); split; intros x Hx;
    first [ discriminate | reflexivity
          | (injection Hx as <-; now repeat split) ].
- apply String.eqb_neq in E. cbn. split; [reflexivity|].
  split; [now split|]. intros H. contradiction.
Qed.

Lemma educator_articles_load_witness :
  requests (run Samples.deleted
              (EducatorDashboardData.fetchArticles Samples.my_articles)
              Samples.my_articles)
  = [authenticated "/educators/me/articles" [("status", VStr "all")]
                   no_options].
Proof.
destruct (educator_articles_load Samples.deleted Samples.my_articles
            Samples.my_articles) as (_ & _ & H).
now destruct (H eq_refl).
Defined.

End DashboardFacts.

(** ** Removing entries from a list *)

Module RemovalFacts.
Import JS Async Api Spec MoreSpec.
Import AsyncFacts ApiFacts.

Lemma others_records (X : string) (l kept : list value) :
  Lists.others X l = Some kept -> records l.
Proof.
revert kept. induction l as [|a l IH]; intros kept H; [constructor|].
cbn [Lists.others] in H.
destruct (get a "article_id") as [x|] eqn:G; [|discriminate].
destruct (Lists.others X l) as [k|] eqn:O; [|discriminate].
constructor; [|now apply (IH k)].
destruct a; try reflexivity; discriminate.
Qed.

Lemma others_keeps (X : string) (l kept : list value) (a : value) :
  Lists.others X l = Some kept ->
  In a l -> get a "article_id" <> Some (VStr X) -> In a kept.
Proof.
revert kept. induction l as [|b l IH]; intros kept H Hin Hid; [contradiction|].
cbn [Lists.others] in H.
destruct (get b "article_id") as [x|] eqn:G; [|discriminate].
destruct (Lists.others X l) as [k|] eqn:O; [|discriminate].
destruct (strict_eq_str x X) eqn:E; injection H as <-.
- destruct Hin as [->|Hin]; [|now apply IH].
  apply JSFacts.strict_eq_str_spec in E. congruence.
- destruct Hin as [->|Hin]; [now left|right; now apply IH].
Qed.

Lemma others_drops (X : string) (l kept : list value) (a : value) :
  Lists.others X l = Some kept ->
  In a kept -> In a l /\ get a "article_id" <> Some (VStr X).
Proof.
revert kept. induction l as [|b l IH]; intros kept H Hin.
- injection H as <-. contradiction.
- cbn [Lists.others] in H.
  destruct (get b "article_id") as [x|] eqn:G; [|discriminate].
  destruct (Lists.others X l) as [k|] eqn:O; [|discriminate].
  destruct (strict_eq_str x X) eqn:E; injection H as <-.
  + destruct (IH k eq_refl Hin). split; [now right|assumption].
  + destruct Hin as [->|Hin].
    * split; [now left|]. rewrite G. intros H. injection H as ->.
      simpl in E. now rewrite String.eqb_refl in E.
    * destruct (IH k eq_refl Hin). split; [now right|assumption].
Qed.

(** X24.  Removing the entries of an id is idempotent and never makes the
    list longer; what is kept is exactly the entries of the list with
    another id; a list that holds no entry with that id is returned as it
    is. *)
Theorem others_filters (X : string) (l kept : list value) :
  Lists.others X l = Some kept ->
  Lists.others X kept = Some kept
  /\ (List.length kept <= List.length l)%nat
  /\ (forall a, In a kept <->
                In a l /\ get a "article_id" <> Some (VStr X))
  /\ ((forall a, In a l -> get a "article_id" <> Some (VStr X)) ->
      kept = l).
Proof.
intros H. split; [|split; [|split; [intros a; split|]]].
- revert kept H. induction l as [|b l IH]; intros kept H.
  + injection H as <-. reflexivity.
  + cbn [Lists.others] in H.
    destruct (get b "article_id") as [x|] eqn:G; [|discriminate].
    destruct (Lists.others X l) as [k|] eqn:O; [|discriminate].
    destruct (strict_eq_str x X) eqn:E; injection H as <-.
    * now apply IH.
    * cbn [Lists.others]. now rewrite G, (IH k eq_refl), E.
- revert kept H. induction l as [|b l IH]; intros kept H.
  + injection H as <-. constructor.
  + cbn [Lists.others] in H.
    destruct (get b "article_id") as [x|] eqn:G; [|discriminate].
    destruct (Lists.others X l) as [k|] eqn:O; [|discriminate].
    specialize (IH k eq_refl).
    destruct (strict_eq_str x X); injection H as <-; simpl; lia.
- now apply others_drops.
- intros [Hin Hid]. now apply (others_keeps X l).
- revert kept H. induction l as [|b l IH]; intros kept H Hall.
  + now injection H as <-.
  + cbn [Lists.others] in H.
    destruct (get b "article_id") as [x|] eqn:G; [|discriminate].
    destruct (Lists.others X l) as [k|] eqn:O; [|discriminate].
    destruct (strict_eq_str x X) eqn:E; injection H as <-.
    * apply JSFacts.strict_eq_str_spec in E. subst x.
      now destruct (Hall b (or_introl eq_refl)).
    * f_equal. apply IH; [reflexivity|]. intros a Ha. apply Hall. now right.
Qed.

Lemma others_filters_witness :
  Lists.others "a2" [Samples.entry "a1" "Vectors"; Samples.entry "a3" "Tides"]
  = Some [Samples.entry "a1" "Vectors"; Samples.entry "a3" "Tides"].
Proof.
apply (others_filters "a2" Samples.shelf). reflexivity.
Defined.

(** X25.  Two deletions started from the same render overwrite each
    other: when both calls succeed, the list left by the second response
    is the list of that render without the second id only.  The entries
    of the first id, already removed by the first response, are back
    (unless the two ids are the same). *)
Theorem overlapping_deletes (backend : request -> fetch_result)
  (s : EducatorDashboardPage.State) (l : list value) (A B : string)
  (v w : value) :
  EducatorDashboardPage.articles s = VArr l ->
  records l ->
  answer (backend (delete_request A)) = Returned v ->
  answer (backend (delete_request B)) = Returned w ->
  let s1 := final (run backend
                     (EducatorDashboardPage.handleDeleteArticle s true A) s) in
  let s2 := final (run backend
                     (EducatorDashboardPage.handleDeleteArticle s true B) s1) in
  exists keptA keptB,
    Lists.others A l = Some keptA /\ Lists.others B l = Some keptB
    /\ EducatorDashboardPage.articles s1 = VArr keptA
    /\ EducatorDashboardPage.articles s2 = VArr keptB
    /\ (A <> B -> forall a, In a l -> get a "article_id" = Some (VStr A) ->
        ~ In a keptA /\ In a keptB).
Proof.
intros Hl Hrec HA HB. cbv zeta.
destruct (ListFacts.others_removed A l Hrec) as (keptA & HkA & _).
destruct (ListFacts.others_removed B l Hrec) as (keptB & HkB & _).
exists keptA, keptB.
rewrite !ListFacts.run_handleDeleteArticle, HA, HB, Hl, HkA, HkB.
cbn [final].
split; [reflexivity|]. split; [reflexivity|]. split; [reflexivity|].
split; [reflexivity|].
intros Hne a Hin Hid. split.
- intros Hk. apply (others_drops A l keptA a HkA) in Hk as [_ Hk].
  contradiction.
- apply (others_keeps B l keptB a HkB); [assumption|].
  rewrite Hid. intros E. injection E as E. contradiction.
Qed.

Lemma overlapping_deletes_witness :
  EducatorDashboardPage.articles
    (final (run Samples.deleted
              (EducatorDashboardPage.handleDeleteArticle
                 Samples.my_articles true "a3")
              (final (run Samples.deleted
                        (EducatorDashboardPage.handleDeleteArticle
                           Samples.my_articles true "a1")
                        Samples.my_articles))))
  = VArr [Samples.entry "a1" "Vectors"; Samples.entry "a2" "Cells"].
Proof.
assert (Hrec : records Samples.shelf) by (repeat constructor).
destruct (overlapping_deletes Samples.deleted Samples.my_articles
            Samples.shelf "a1" "a3"
            (VObj [("message", VStr "Article deleted")])
            (VObj [("message", VStr "Article deleted")])
            eq_refl Hrec eq_refl eq_refl)
  as (keptA & keptB & _ & HB & _ & H2 & _).
rewrite H2. injection HB as <-. reflexivity.
Defined.

End RemovalFacts.

(** ** More on number formatting *)

Module AbbreviationFacts.
Import JS Format Spec MoreSpec.

Lemma suffix_M_K (a b : string) : (a ++ "M")%string <> (b ++ "K")%string.
Proof.
revert b. induction a as [|x a IH]; intros [|y b]; simpl; intros H.
- discriminate.
- injection H as _ H. destruct b; discriminate.
- injection H as _ H. destruct a; discriminate.
- injection H as _ H. now apply IH in H.
Qed.

Lemma safe_range (z : Z) : 0 <= z <= MAX_SAFE_INTEGER -> safe z = true.
Proof. intros H. unfold safe. apply Z.leb_le. rewrite Z.abs_eq; lia. Qed.

Lemma card_thousands (z : Z) :
  1000 <= z < 1000000 ->
  ArticleCard.formatNumber (VNum z) = Some (scaled z 1000 ++ "K")%string.
Proof.
intros H. unfold ArticleCard.formatNumber.
rewrite FormatFacts.numeric_safe
  by (apply safe_range; unfold MAX_SAFE_INTEGER; simpl; lia).
simpl ge_num.
replace (1000000 <=? z) with false by (symmetry; apply Z.leb_gt; lia).
replace (1000 <=? z) with true by (symmetry; apply Z.leb_le; lia).
reflexivity.
Qed.

Lemma card_millions (z : Z) :
  1000000 <= z <= MAX_SAFE_INTEGER ->
  ArticleCard.formatNumber (VNum z) = Some (scaled z 1000000 ++ "M")%string.
Proof.
intros H. unfold ArticleCard.formatNumber.
rewrite FormatFacts.numeric_safe by (apply safe_range; lia).
simpl ge_num.
replace (1000000 <=? z) with true by (symmetry; apply Z.leb_le; lia).
reflexivity.
Qed.

Lemma dashboard_thousands (z : Z) :
  1000 <= z <= MAX_SAFE_INTEGER ->
  Dashboard.formatNumber (VNum z) = Some (scaled z 1000 ++ "K")%string.
Proof.
intros H. unfold Dashboard.formatNumber.
rewrite FormatFacts.numeric_safe by (apply safe_range; lia).
simpl ge_num.
replace (1000 <=? z) with true by (symmetry; apply Z.leb_le; lia).
reflexivity.
Qed.

(** X26.  The two versions of [formatNumber] show the same text for every
    value below one million (missing values included), and never the same
    text from one million on: the cards and the profile switch to
    millions, the dashboards keep counting in thousands. *)
Theorem formatNumber_versions (v : value) (z : Z) :
  (match numeric v with
   | Some (Some n) => n < 1000000
   | _ => True
   end ->
   ArticleCard.formatNumber v = Dashboard.formatNumber v)
  /\ (1000000 <= z <= MAX_SAFE_INTEGER ->
      ArticleCard.formatNumber (VNum z) <> Dashboard.formatNumber (VNum z)).
Proof.
split.
- unfold ArticleCard.formatNumber, Dashboard.formatNumber.
  destruct (numeric v) as [[n|]|]; try reflexivity.
  intros H. simpl ge_num.
  now replace (1000000 <=? n) with false by (symmetry; apply Z.leb_gt; lia).
- intros H. rewrite card_millions by lia.
  rewrite dashboard_thousands by lia.
  intros E. injection E as E. now apply suffix_M_K in E.
Qed.

Lemma formatNumber_versions_witness :
  ArticleCard.formatNumber (VNum 2500000)
  <> Dashboard.formatNumber (VNum 2500000).
Proof.
apply (formatNumber_versions VNull 2500000).
unfold MAX_SAFE_INTEGER. simpl. lia.
Defined.

Lemma all_from_spec (ok : Z -> bool) (n : nat) (lo : Z) :
  all_from ok n lo = true ->
  forall z, lo <= z < lo + Z.of_nat n -> ok z = true.
Proof.
revert lo. induction n as [|n IH]; intros lo H z Hz; [lia|].
cbn [all_from] in H. apply andb_true_iff in H as [H0 H1].
destruct (Z.eq_dec z lo) as [->|Hne]; [exact H0|].
apply (IH (lo + 1) H1). lia.
Qed.

Lemma exact_everywhere : all_from exact_at 9990 10 = true.
Proof. vm_compute. reflexivity. Qed.

(** X27.  Whole hundreds are abbreviated without error: for 10 <= k <
    10000, the count of [k] hundreds is shown as [k] tenths followed by
    [K] by both versions (1500 reads [1.5K]), and on the cards [k] hundred
    thousands are shown as [k] tenths followed by [M]. *)
Theorem formatNumber_whole_hundreds (k : Z) :
  10 <= k < 10000 ->
  ArticleCard.formatNumber (VNum (100 * k))
  = Some (tenths_text k ++ "K")%string
  /\ Dashboard.formatNumber (VNum (100 * k))
     = Some (tenths_text k ++ "K")%string
  /\ ArticleCard.formatNumber (VNum (100000 * k))
     = Some (tenths_text k ++ "M")%string.
Proof.
intros Hk.
assert (Hok : exact_at k = true).
{ apply (all_from_spec exact_at 9990 10 exact_everywhere).
  change (Z.of_nat 9990) with 9990. lia. }
unfold exact_at in Hok. apply andb_true_iff in Hok as [HK HM].
apply String.eqb_eq in HK, HM.
assert (Hmax : MAX_SAFE_INTEGER = 9007199254740991) by reflexivity.
rewrite card_thousands by lia.
rewrite dashboard_thousands by lia.
rewrite card_millions by lia.
now rewrite HK, HM.
Qed.

Lemma formatNumber_whole_hundreds_witness :
  ArticleCard.formatNumber (VNum 72300) = Some "72.3K".
Proof.
destruct (formatNumber_whole_hundreds 723) as (H & _); [lia|].
exact H.
Defined.

End AbbreviationFacts.

(** ** Loading an article *)

Module ArticleLoadFacts.
Import JS Async Api Spec MoreSpec ArticlePage.
Import AsyncFacts ApiFacts DashboardFacts.

(** X28.  Loading the article page never throws and always ends with
    [loading] false.  When the article cannot be fetched the page shows
    [Article not found] and goes to [/explore], with its article, flags,
    counters and related articles untouched.  When it is fetched, the article, the two flags and
    the two counters are taken from the answer; the related articles are
    then asked for with its [article_id].  If that second call fails, the
    article just stored is kept, yet the page reports [Article not found]
    and leaves for [/explore] all the same. *)
Theorem article_load_outcome (backend : request -> fetch_result)
  (id : value) (s : State) :
  let o := run backend (fetchData id) s in
  let got := answer (backend (article_request id)) in
  settled o = Returned VUndefined
  /\ loading (final o) = false
  /\ (forall e, got = Thrown e ->
      article (final o) = article s
      /\ relatedArticles (final o) = relatedArticles s
      /\ isLiked (final o) = isLiked s
      /\ isBookmarked (final o) = isBookmarked s
      /\ likeCount (final o) = likeCount s
      /\ bookmarkCount (final o) = bookmarkCount s
      /\ trace o = [Fetched (article_request id);
                    Logged "Failed to fetch article:";
                    ToastedError "Article not found";
                    Navigated "/explore"])
  /\ (forall data, got = Returned data -> nullish data = false ->
      let more :=
        answer (backend (related_request (get_opt data "article_id"))) in
      article (final o) = data
      /\ isLiked (final o) = get_opt data "is_liked"
      /\ isBookmarked (final o) = get_opt data "is_bookmarked"
      /\ likeCount (final o) = get_opt data "like_count"
      /\ bookmarkCount (final o) = get_opt data "bookmark_count"
      /\ (forall related, more = Returned related ->
          relatedArticles (final o) = related
          /\ trace o = [Fetched (article_request id);
                        Fetched (related_request (get_opt data "article_id"))])
      /\ (forall e, more = Thrown e ->
          relatedArticles (final o) = relatedArticles s
          /\ trace o = [Fetched (article_request id);
                        Fetched (related_request (get_opt data "article_id"));
                        Logged "Failed to fetch article:";
                        ToastedError "Article not found";
                        Navigated "/explore"])).
Proof.
cbv zeta. remember (run backend (fetchData id) s) as o eqn:Ho.
unfold fetchData, Api.getArticle, Api.getRelatedArticles in Ho.
eval_in Ho. fold (article_request id) in Ho.
revert Ho.
destruct (answer (backend (article_request id))) as [data|e]; intros Ho.
- destruct (nullish data) eqn:N.
  + eval_in Ho. rewrite (JSFacts.get_nullish _ "is_liked" N) in Ho.
    eval_in Ho. subst o. cbn.
    split; [reflexivity|]. split; [reflexivity|]. split; [discriminate|].
    intros d Hd Hn. injection Hd as <-. congruence.
  + repeat (eval_in Ho; rewrite ?(JSFacts.get_defined _ _ N) in Ho).
    fold (related_request (get_opt data "article_id")) in Ho.
    split; [|split; [|split; [discriminate|]]].
    3: intros d Hd _; injection Hd as <-; cbv zeta.
    all: revert Ho;
      destruct (answer (backend (related_request (get_opt data "article_id"))))
        as [related|e]; intros Ho; eval_in Ho; subst o; cbn;
      try reflexivity.
    * repeat (split; [reflexivity|]). split; intros x Hx;
        [injection Hx as <-; now split|discriminate].
    * repeat (split; [reflexivity|]). split; intros x Hx;
        [discriminate|now split].
- eval_in Ho. subst o. cbn. split; [reflexivity|]. split; [reflexivity|].
  split.
  + intros e' _. now repeat split.
  + discriminate.
Qed.

Lemma article_load_outcome_witness :
  article (final (run (Samples.store "a1") (fetchData (VStr "intro")) initial))
  = VObj [("article_id", VStr "a1")].
Proof.
destruct (article_load_outcome (Samples.store "a1") (VStr "intro") initial)
  as (_ & _ & _ & H).
now destruct (H (VObj [("article_id", VStr "a1")]) eq_refl eq_refl).
Defined.

End ArticleLoadFacts.

(** ** The query of [verifyOtp] *)

Module EncodingFacts.
Import JS Async Spec MoreSpec.

Lemma every_app (p : ascii -> bool) (a b : string) :
  every p (a ++ b)%string = every p a && every p b.
Proof.
induction a as [|c a IH]; cbn; [reflexivity|].
now rewrite IH, andb_assoc.
Qed.

Lemma escape_inert (c : ascii) : every inert (escape c) = true.
Proof.
destruct c as [b0 b1 b2 b3 b4 b5 b6 b7].
destruct b0, b1, b2, b3, b4, b5, b6, b7; reflexivity.
Qed.

Lemma escape_unescaped (c : ascii) :
  unescaped c = true -> escape c = String c EmptyString.
Proof. intros H. unfold escape. now rewrite H. Qed.

Lemma inert_no_amp (s : string) : every inert s = true -> has_amp s = false.
Proof.
induction s as [|c s IH]; cbn; [reflexivity|].
intros H. apply andb_prop in H. destruct H as [Hc Hs].
rewrite (IH Hs), orb_false_r.
destruct (Ascii.eqb c "&"%char) eqn:E; [|reflexivity].
apply Ascii.eqb_eq in E. subst c. discriminate Hc.
Qed.

(** X29.  [verifyOtp] sends one request, to the URL
    [/auth/verify-otp?email=<value>&otp_code=<otp>].  The value written
    for the e-mail is made of unescaped characters and [%] escapes only,
    so it holds no [&] and the e-mail cannot add a parameter to the
    request; an e-mail made of unescaped characters is written as it is.
    The OTP follows [&otp_code=] exactly as typed, [&] included. *)
Theorem verifyOtp_url (backend : request -> fetch_result)
  (email otpCode : string) (s : AuthContext.State) :
  exists value,
    map path (requests (run backend (AuthContext.verifyOtp email otpCode) s))
    = [("/auth/verify-otp?email=" ++ value ++ "&otp_code=" ++ otpCode)%string]
    /\ every inert value = true
    /\ has_amp value = false
    /\ (every unescaped email = true -> value = email).
Proof.
assert (H : forall e, every inert (encodeURIComponent e) = true).
{ induction e as [|c e IH]; cbn [encodeURIComponent]; [reflexivity|].
  now rewrite every_app, escape_inert, IH. }
exists (encodeURIComponent email). split.
- pose proof (SessionFacts.signin_shape backend (otp_request email otpCode)
                "OTP verification failed" s) as Hs.
  cbv zeta in Hs. destruct Hs as (Hr & _).
  exact (f_equal (map path) Hr).
- split; [apply H|]. split; [apply inert_no_amp, H|].
  induction email as [|c e IH]; cbn [encodeURIComponent every];
    [reflexivity|].
  intros Hc. apply andb_prop in Hc. destruct Hc as [Hc He].
  now rewrite (escape_unescaped c Hc), (IH He).
Qed.

Lemma verifyOtp_url_witness :
  exists value,
    map path (requests (run MoreSamples.welcomed
                          (AuthContext.verifyOtp "asha.rao-1" "12&role=admin")
                          AuthContext.initial))
    = [("/auth/verify-otp?email=" ++ value
        ++ "&otp_code=12&role=admin")%string]
    /\ value = "asha.rao-1".
Proof.
destruct (verifyOtp_url MoreSamples.welcomed "asha.rao-1" "12&role=admin"
            AuthContext.initial) as (value & Hp & _ & _ & Hv).
exists value. split; [exact Hp|]. apply Hv. reflexivity.
Defined.

End EncodingFacts.
